(** * EMS API: session, OTP and attendance consistency layer

    A shallow embedding of [mongo_models.py] and of the request handlers of
    [authentication/views_mongo.py], with the admin permission, the
    [make_admin] command and the OTP model of [authentication/models.py],
    followed by the properties of the specification that concern them and
    by further properties of the code.

    Modelling conventions.
    - A MongoDB collection is the list of its documents in natural
      (insertion) order; [find_one] returns the first match,
      [insert_one] appends.  [find_one(..., sort=[(f, -1)])] returns a
      document whose key [f] is maximal; among equal keys the first one in
      natural order is taken.
    - [datetime] values are integers counting microseconds, a [timedelta]
      is their difference, so [total_seconds() < 600] is
      [delta < 600 * 10^6].
    - Every handler runs at one reading of the clock ([Clock]): the naive
      UTC instant [datetime.utcnow()] and the two strings obtained from the
      server-local [datetime.now()].
    - [ObjectId]s are drawn from a counter kept in the store;
      [MongoUser.id], which is [str(_id)], is identified with the id.
    - Python exceptions are modelled by a state-and-exception monad in
      which the store written before a [raise] survives it, as it does in
      the database.
    - The handlers are modelled from the point where the serializer has
      accepted the request; [send_mail] and the JWT issuance do not touch
      the MongoDB store and are left out, and so are the handler
      [get_attendance_status], which reads nothing, and the models
      [MongoPandit] and [MongoLeave], which no handler uses.
    - A request is one step on the store: the store operations of two
      requests are not interleaved. *)

From Stdlib Require Import ZArith List String Bool Arith Lia Permutation.
Import ListNotations.
Local Open Scope string_scope.
Local Open Scope Z_scope.

Set Implicit Arguments.

(** ** Time *)

Record Clock := {
  utcnow : Z;              (* datetime.utcnow(), microseconds *)
  local_date : string;     (* datetime.now().strftime('%Y-%m-%d') *)
  local_time : string      (* datetime.now().strftime('%H:%M:%S') *)
}.

Definition seconds (n : Z) : Z := n * 1000000.
Definition timedelta (hours minutes : Z) : Z := seconds (hours * 3600 + minutes * 60).

(** [get_ist_time]: the current UTC time plus the IST offset. *)
Definition get_ist_time (clk : Clock) : Z := utcnow clk + timedelta 5 30.

(** ** External collaborators *)

(** [django.contrib.auth.hashers]. *)
Class PasswordHasher := {
  make_password : string -> string;
  check_password : string -> string -> bool   (* check_password(password, encoded) *)
}.

(** ** Documents *)

Definition ObjectId := nat.

Inductive Purpose := signup_purpose | forgot_password_purpose.

Definition purpose_eqb (a b : Purpose) : bool :=
  match a, b with
  | signup_purpose, signup_purpose => true
  | forgot_password_purpose, forgot_password_purpose => true
  | _, _ => false
  end.

Module User.
Record doc := mk {
  _id : ObjectId;
  username : string;
  email : string;
  password : string;
  is_verified : bool;
  role : string;
  created_at : option Z;
  updated_at : Z
}.
End User.

Module OTP.
Record doc := mk {
  _id : ObjectId;
  email : string;
  otp : string;
  purpose : Purpose;
  is_used : bool;
  created_at : option Z
}.
End OTP.

Module LoginSession.
Record doc := mk {
  _id : ObjectId;
  user_id : ObjectId;
  username : option string;
  device_type : string;
  login_time : Z;
  is_active : bool
}.
End LoginSession.

Module LogoutSession.
Record doc := mk {
  _id : ObjectId;
  user_id : ObjectId;
  device_type : string;
  logout_time : Z
}.
End LogoutSession.

(** A row of the [punched_in] collection (the punch pointer). *)
Module PunchedIn.
Record doc := mk {
  _id : ObjectId;
  user_id : ObjectId;
  username : option string;
  email : option string;
  punched_in_date : string;
  punched_in_time : string;
  location : option string;
  latitude : option string;
  longitude : option string;
  created_at : Z
}.
End PunchedIn.

(** The six fields a punch-out adds to a copied punch-in document. *)
Module PunchOutFacet.
Record t := mk {
  punched_out_date : string;
  punched_out_time : string;
  punched_out_location : option string;
  punched_out_latitude : option string;
  punched_out_longitude : option string;
  punched_out_at : Z
}.
End PunchOutFacet.

(** A row of the [punched_out] collection. *)
Module PunchedOut.
Record doc := mk {
  punch_in : PunchedIn.doc;
  facet : PunchOutFacet.t
}.
End PunchedOut.

(** A row of the [attendance] collection: the copied punch-in document,
    and the punch-out fields once [$set] has added them. *)
Module Attendance.
Record doc := mk {
  punch_in : PunchedIn.doc;
  punched_out : option PunchOutFacet.t   (* None: 'punched_out_date' does not exist *)
}.
End Attendance.

(** ** The store *)

(** Modelled from the spec: the store handle [mongo_handler] of
    [mongodb_handler.py], which is not among the sources.  By section 6 of
    the specification it is a document store with insert, find-one and
    find-many with filters, sort by a field descending, update-one and
    delete-one/delete-many; here it is one list of documents for each
    collection the sources name in [get_collection], and the counter the
    ids are drawn from. *)
Record Store := {
  users : list User.doc;
  otps : list OTP.doc;
  login_sessions : list LoginSession.doc;
  logout_sessions : list LogoutSession.doc;
  punched_in : list PunchedIn.doc;
  punched_out : list PunchedOut.doc;
  attendance : list Attendance.doc;
  next_oid : ObjectId
}.

Definition empty_store : Store :=
  {| users := []; otps := []; login_sessions := []; logout_sessions := [];
     punched_in := []; punched_out := []; attendance := []; next_oid := 0%nat |}.

Definition set_users (f : list User.doc -> list User.doc) (s : Store) : Store :=
  {| users := f (users s); otps := otps s; login_sessions := login_sessions s;
     logout_sessions := logout_sessions s; punched_in := punched_in s;
     punched_out := punched_out s; attendance := attendance s; next_oid := next_oid s |}.

Definition set_otps (f : list OTP.doc -> list OTP.doc) (s : Store) : Store :=
  {| users := users s; otps := f (otps s); login_sessions := login_sessions s;
     logout_sessions := logout_sessions s; punched_in := punched_in s;
     punched_out := punched_out s; attendance := attendance s; next_oid := next_oid s |}.

Definition set_login_sessions (f : list LoginSession.doc -> list LoginSession.doc)
    (s : Store) : Store :=
  {| users := users s; otps := otps s; login_sessions := f (login_sessions s);
     logout_sessions := logout_sessions s; punched_in := punched_in s;
     punched_out := punched_out s; attendance := attendance s; next_oid := next_oid s |}.

Definition set_logout_sessions (f : list LogoutSession.doc -> list LogoutSession.doc)
    (s : Store) : Store :=
  {| users := users s; otps := otps s; login_sessions := login_sessions s;
     logout_sessions := f (logout_sessions s); punched_in := punched_in s;
     punched_out := punched_out s; attendance := attendance s; next_oid := next_oid s |}.

Definition set_punched_in (f : list PunchedIn.doc -> list PunchedIn.doc) (s : Store) : Store :=
  {| users := users s; otps := otps s; login_sessions := login_sessions s;
     logout_sessions := logout_sessions s; punched_in := f (punched_in s);
     punched_out := punched_out s; attendance := attendance s; next_oid := next_oid s |}.

Definition set_punched_out (f : list PunchedOut.doc -> list PunchedOut.doc) (s : Store) : Store :=
  {| users := users s; otps := otps s; login_sessions := login_sessions s;
     logout_sessions := logout_sessions s; punched_in := punched_in s;
     punched_out := f (punched_out s); attendance := attendance s; next_oid := next_oid s |}.

Definition set_attendance (f : list Attendance.doc -> list Attendance.doc) (s : Store) : Store :=
  {| users := users s; otps := otps s; login_sessions := login_sessions s;
     logout_sessions := logout_sessions s; punched_in := punched_in s;
     punched_out := punched_out s; attendance := f (attendance s); next_oid := next_oid s |}.

Definition bump_oid (s : Store) : Store :=
  {| users := users s; otps := otps s; login_sessions := login_sessions s;
     logout_sessions := logout_sessions s; punched_in := punched_in s;
     punched_out := punched_out s; attendance := attendance s; next_oid := S (next_oid s) |}.

(** ** Collection primitives (pymongo) *)

Section Collection.
Variable D : Type.

Definition find_one (p : D -> bool) (c : list D) : option D := find p c.

Definition insert_one (d : D) (c : list D) : list D := c ++ [d].

Fixpoint delete_one (p : D -> bool) (c : list D) : list D :=
  match c with
  | [] => []
  | d :: r => if p d then r else d :: delete_one p r
  end.

Definition delete_many (p : D -> bool) (c : list D) : list D :=
  filter (fun d => negb (p d)) c.

Fixpoint update_one (p : D -> bool) (f : D -> D) (c : list D) : list D :=
  match c with
  | [] => []
  | d :: r => if p d then f d :: r else d :: update_one p f r
  end.

Definition update_many (p : D -> bool) (f : D -> D) (c : list D) : list D :=
  map (fun d => if p d then f d else d) c.

(** The first document of [c] whose key is maximal. *)
Fixpoint first_max (ltb : D -> D -> bool) (c : list D) : option D :=
  match c with
  | [] => None
  | d :: r =>
      match first_max ltb r with
      | Some m => if ltb d m then Some m else Some d
      | None => Some d
      end
  end.

(** [find_one(filter, sort=[(key, -1)])]. *)
Definition find_one_desc (p : D -> bool) (ltb : D -> D -> bool) (c : list D) : option D :=
  first_max ltb (filter p c).

(** [cursor.sort(key, -1)]: greatest key first; documents with equal keys
    stay in natural order. *)
Fixpoint insert_desc (ltb : D -> D -> bool) (x : D) (l : list D) : list D :=
  match l with
  | [] => [x]
  | y :: r => if ltb x y then y :: insert_desc ltb x r else x :: l
  end.

Definition sort_desc (ltb : D -> D -> bool) (c : list D) : list D :=
  fold_right (insert_desc ltb) [] c.

(** [find(filter).sort(key, -1)]. *)
Definition find_desc (p : D -> bool) (ltb : D -> D -> bool) (c : list D) : list D :=
  sort_desc ltb (filter p c).
End Collection.

(** BSON order on an optional datetime: a missing field sorts lowest. *)
Definition opt_ltb (a b : option Z) : bool :=
  match a, b with
  | None, None => false
  | None, Some _ => true
  | Some _, None => false
  | Some x, Some y => x <? y
  end.

(** ** The monad of store operations *)

Inductive exn := ValueError (msg : string).

Definition M (A : Type) : Type := Store -> Store * (exn + A).

Definition ret {A} (a : A) : M A := fun s => (s, inr a).

Definition bind {A B} (m : M A) (f : A -> M B) : M B :=
  fun s => match m s with
           | (s', inr a) => f a s'
           | (s', inl e) => (s', inl e)
           end.

Definition raise {A} (e : exn) : M A := fun s => (s, inl e).

(** [try: m except ValueError as e: h e] *)
Definition try_except {A} (m : M A) (h : exn -> M A) : M A :=
  fun s => match m s with
           | (s', inl e) => h e s'
           | r => r
           end.

Definition gets {A} (f : Store -> A) : M A := fun s => (s, inr (f s)).

Definition modify (f : Store -> Store) : M unit := fun s => (f s, inr tt).

(** A fresh [ObjectId], as [insert_one] assigns to a document without [_id]. *)
Definition fresh_oid : M ObjectId := fun s => (bump_oid s, inr (next_oid s)).

Declare Scope db_scope.
Delimit Scope db_scope with db.
Notation "x <- m ;; k" := (bind m (fun x => k))
  (at level 61, m at next level, right associativity) : db_scope.
Notation "m ;;; k" := (bind m (fun _ => k))
  (at level 61, right associativity) : db_scope.
Local Open Scope db_scope.

(** [for x in xs: body x] *)
Fixpoint for_each {A} (xs : list A) (body : A -> M unit) : M unit :=
  match xs with
  | [] => ret tt
  | x :: r => body x ;;; for_each r body
  end.

(** Python truthiness of an optional string ([None] and [''] are falsy). *)
Definition truthy (o : option string) : bool :=
  match o with
  | Some s => negb (s =? "")%string
  | None => false
  end.

(** ** mongo_models.py *)

Module MongoOTP.

(** The query of [cleanup_expired_otps]:
    [{'created_at': {'$lt': expiry_time}}], with ['email'] when given. *)
Definition expired_query (clk : Clock) (email : option string) (d : OTP.doc) : bool :=
  let expiry_time := get_ist_time clk - timedelta 0 10 in
  match OTP.created_at d with
  | Some c => c <? expiry_time
  | None => false
  end
  && (if truthy email
      then match email with Some e => (OTP.email d =? e)%string | None => true end
      else true).

(** [cleanup_expired_otps(email=None)]: delete the OTPs created more than
    ten minutes ago; only those of [email] when it is given. *)
Definition cleanup_expired_otps (clk : Clock) (email : option string) : M nat :=
  let query := expired_query clk email in
  n <- gets (fun s => List.length (filter query (otps s))) ;;
  modify (set_otps (delete_many query)) ;;;
  ret n.

(** [cleanup_otps_for_email(email)]: delete all OTPs of an email. *)
Definition cleanup_otps_for_email (email : string) : M nat :=
  let query (d : OTP.doc) := (OTP.email d =? email)%string in
  n <- gets (fun s => List.length (filter query (otps s))) ;;
  modify (set_otps (delete_many query)) ;;;
  ret n.

(** [create_otp(email, purpose)]; [otp_code] is the value drawn by
    [generate_otp()]. *)
Definition create_otp (clk : Clock) (otp_code : string) (email : string)
    (purpose : Purpose) : M OTP.doc :=
  cleanup_expired_otps clk None ;;;
  oid <- fresh_oid ;;
  let otp_data :=
    {| OTP._id := oid; OTP.email := email; OTP.otp := otp_code;
       OTP.purpose := purpose; OTP.is_used := false;
       OTP.created_at := Some (get_ist_time clk) |} in
  modify (set_otps (insert_one otp_data)) ;;;
  ret otp_data.

Definition unused_for (email : string) (purpose : Purpose) (d : OTP.doc) : bool :=
  (OTP.email d =? email)%string && purpose_eqb (OTP.purpose d) purpose
  && negb (OTP.is_used d).

Definition created_ltb (a b : OTP.doc) : bool :=
  opt_ltb (OTP.created_at a) (OTP.created_at b).

(** [get_latest_unused(email, purpose)] *)
Definition get_latest_unused (email : string) (purpose : Purpose) : M (option OTP.doc) :=
  gets (fun s => find_one_desc (unused_for email purpose) created_ltb (otps s)).

(** [is_valid()]: still valid (within 10 minutes). *)
Definition is_valid (clk : Clock) (o : OTP.doc) : bool :=
  if OTP.is_used o then false
  else match OTP.created_at o with
       | None => false
       | Some created_at => get_ist_time clk - created_at <? seconds 600
       end.

Definition mark_as_used (o : OTP.doc) : M unit :=
  modify (set_otps (update_one (fun d => Nat.eqb (OTP._id d) (OTP._id o))
    (fun d => {| OTP._id := OTP._id d; OTP.email := OTP.email d; OTP.otp := OTP.otp d;
                 OTP.purpose := OTP.purpose d; OTP.is_used := true;
                 OTP.created_at := OTP.created_at d |}))).

(** [delete()]: delete the OTP from the database. *)
Definition delete (o : OTP.doc) : M unit :=
  modify (set_otps (delete_one (fun d => Nat.eqb (OTP._id d) (OTP._id o)))).

End MongoOTP.

Module MongoUser.

(** The query of [cleanup_unverified_users]:
    [{'is_verified': False, 'created_at': {'$lt': ten_minutes_ago}}], with
    ['email'] when given. *)
Definition unverified_query (clk : Clock) (email : option string) (d : User.doc) : bool :=
  let ten_minutes_ago := get_ist_time clk - timedelta 0 10 in
  negb (User.is_verified d)
  && match User.created_at d with
     | Some c => c <? ten_minutes_ago
     | None => false
     end
  && (if truthy email
      then match email with Some e => (User.email d =? e)%string | None => true end
      else true).

(** [cleanup_unverified_users(email=None)]: delete the unverified users
    older than ten minutes; with an [email], only that user's, and all the
    OTPs of that email as well. *)
Definition cleanup_unverified_users (clk : Clock) (email : option string) : M nat :=
  let query := unverified_query clk email in
  (if truthy email
   then match email with
        | Some e => MongoOTP.cleanup_otps_for_email e ;;; ret tt
        | None => ret tt
        end
   else ret tt) ;;;
  n <- gets (fun s => List.length (filter query (users s))) ;;
  modify (set_users (delete_many query)) ;;;
  ret n.

(** [perform_periodic_cleanup()] *)
Definition perform_periodic_cleanup (clk : Clock) : M (nat * nat) :=
  users_cleaned <- cleanup_unverified_users clk None ;;
  otps_cleaned <- MongoOTP.cleanup_expired_otps clk None ;;
  ret (users_cleaned, otps_cleaned).

Definition DuplicateVerifiedUser : exn :=
  ValueError "User with this email already exists and is verified".

Definition RecentUnverifiedSignupPending : exn :=
  ValueError "User with this email already exists. Please verify your email or wait 10 minutes to sign up again.".

(** [create_user(username, email, password, role='employee')] *)
Definition create_user `{PasswordHasher} (clk : Clock)
    (username email password : string) : M User.doc :=
  cleanup_unverified_users clk (Some email) ;;;
  existing_user <- gets (fun s => find_one (fun d => (User.email d =? email)%string) (users s)) ;;
  match existing_user with
  | Some ex =>
      if User.is_verified ex then raise DuplicateVerifiedUser
      else
        match User.created_at ex with
        | Some created_at =>
            if get_ist_time clk - created_at <? seconds 600
            then raise RecentUnverifiedSignupPending
            else modify (set_users (delete_one
                   (fun d => (User.email d =? email)%string && negb (User.is_verified d))))
        | None =>
            modify (set_users (delete_one
              (fun d => (User.email d =? email)%string && negb (User.is_verified d))))
        end
  | None => ret tt
  end ;;;
  oid <- fresh_oid ;;
  let user_data :=
    {| User._id := oid; User.username := username; User.email := email;
       User.password := make_password password; User.is_verified := false;
       User.role := "employee"; User.created_at := Some (get_ist_time clk);
       User.updated_at := get_ist_time clk |} in
  modify (set_users (insert_one user_data)) ;;;
  ret user_data.

Definition get_by_email (email : string) : M (option User.doc) :=
  gets (fun s => find_one (fun d => (User.email d =? email)%string) (users s)).

Definition get_by_id (user_id : ObjectId) : M (option User.doc) :=
  gets (fun s => find_one (fun d => Nat.eqb (User._id d) user_id) (users s)).

Definition authenticate `{PasswordHasher} (email password : string) : M (option User.doc) :=
  user <- get_by_email email ;;
  match user with
  | Some u => if check_password password (User.password u) then ret (Some u) else ret None
  | None => ret None
  end.

(** [save()]: stamp [updated_at] and [$set] every field of the document
    with this [_id]. *)
Definition save (clk : Clock) (u : User.doc) : M unit :=
  let data :=
    {| User._id := User._id u; User.username := User.username u;
       User.email := User.email u; User.password := User.password u;
       User.is_verified := User.is_verified u; User.role := User.role u;
       User.created_at := User.created_at u; User.updated_at := get_ist_time clk |} in
  modify (set_users (update_one (fun d => Nat.eqb (User._id d) (User._id u)) (fun _ => data))).

Definition set_password `{PasswordHasher} (clk : Clock) (u : User.doc)
    (password : string) : M unit :=
  save clk
    {| User._id := User._id u; User.username := User.username u;
       User.email := User.email u; User.password := make_password password;
       User.is_verified := User.is_verified u; User.role := User.role u;
       User.created_at := User.created_at u; User.updated_at := User.updated_at u |}.

Definition verify_email (clk : Clock) (u : User.doc) : M unit :=
  save clk
    {| User._id := User._id u; User.username := User.username u;
       User.email := User.email u; User.password := User.password u;
       User.is_verified := true; User.role := User.role u;
       User.created_at := User.created_at u; User.updated_at := User.updated_at u |}.

End MongoUser.

Module MongoLoginSession.

(** [create_session(user_id, device_type)] *)
Definition create_session (clk : Clock) (user_id : ObjectId)
    (device_type : string) : M LoginSession.doc :=
  user <- MongoUser.get_by_id user_id ;;
  let username := match user with Some u => Some (User.username u) | None => None end in
  oid <- fresh_oid ;;
  let session_data :=
    {| LoginSession._id := oid; LoginSession.user_id := user_id;
       LoginSession.username := username; LoginSession.device_type := device_type;
       LoginSession.login_time := get_ist_time clk; LoginSession.is_active := true |} in
  modify (set_login_sessions (insert_one session_data)) ;;;
  ret session_data.

Definition login_ltb (a b : LoginSession.doc) : bool :=
  LoginSession.login_time a <? LoginSession.login_time b.

(** [get_latest_login(user_id)] *)
Definition get_latest_login (user_id : ObjectId) : M (option LoginSession.doc) :=
  gets (fun s => find_one_desc (fun d => Nat.eqb (LoginSession.user_id d) user_id)
                   login_ltb (login_sessions s)).

(** [get_active_session(user_id)]: the latest active login session. *)
Definition get_active_session (user_id : ObjectId) : M (option LoginSession.doc) :=
  gets (fun s => find_one_desc
                   (fun d => Nat.eqb (LoginSession.user_id d) user_id && LoginSession.is_active d)
                   login_ltb (login_sessions s)).

(** The [timestamp] property. *)
Definition timestamp (d : LoginSession.doc) : Z := LoginSession.login_time d.

End MongoLoginSession.

Module MongoLogoutSession.

(** [create_session(user_id, device_type)] *)
Definition create_session (clk : Clock) (user_id : ObjectId)
    (device_type : string) : M LogoutSession.doc :=
  oid <- fresh_oid ;;
  let session_data :=
    {| LogoutSession._id := oid; LogoutSession.user_id := user_id;
       LogoutSession.device_type := device_type;
       LogoutSession.logout_time := get_ist_time clk |} in
  modify (set_logout_sessions (insert_one session_data)) ;;;
  ret session_data.

Definition logout_ltb (a b : LogoutSession.doc) : bool :=
  LogoutSession.logout_time a <? LogoutSession.logout_time b.

(** [get_latest_logout(user_id)] *)
Definition get_latest_logout (user_id : ObjectId) : M (option LogoutSession.doc) :=
  gets (fun s => find_one_desc (fun d => Nat.eqb (LogoutSession.user_id d) user_id)
                   logout_ltb (logout_sessions s)).

(** [has_logged_out_after(user_id, login_time)] *)
Definition has_logged_out_after (user_id : ObjectId) (login_time : Z) : M bool :=
  gets (fun s =>
    match find_one (fun d => Nat.eqb (LogoutSession.user_id d) user_id
                             && (login_time <? LogoutSession.logout_time d))
                   (logout_sessions s) with
    | Some _ => true
    | None => false
    end).

End MongoLogoutSession.

Module MongoAttendance.

Definition AlreadyPunchedInError : exn :=
  ValueError "You have already punched in. Please punch out first.".

Definition NoPunchInError : exn :=
  ValueError "No punch in record found. Please punch in first.".

(** [punch_in(user_id, date, time, location, latitude, longitude)] *)
Definition punch_in (clk : Clock) (user_id : ObjectId) (date time : string)
    (location latitude longitude : option string) : M PunchedIn.doc :=
  existing <- gets (fun s => find_one (fun d => Nat.eqb (PunchedIn.user_id d) user_id)
                               (punched_in s)) ;;
  match existing with
  | Some _ => raise AlreadyPunchedInError
  | None =>
      user <- MongoUser.get_by_id user_id ;;
      oid <- fresh_oid ;;
      let punch_in_data :=
        {| PunchedIn._id := oid; PunchedIn.user_id := user_id;
           PunchedIn.username := match user with Some u => Some (User.username u) | None => None end;
           PunchedIn.email := match user with Some u => Some (User.email u) | None => None end;
           PunchedIn.punched_in_date := date; PunchedIn.punched_in_time := time;
           PunchedIn.location := location; PunchedIn.latitude := latitude;
           PunchedIn.longitude := longitude; PunchedIn.created_at := get_ist_time clk |} in
      modify (set_punched_in (insert_one punch_in_data)) ;;;
      ret punch_in_data
  end.

(** [punch_out(user_id, date, time, location, latitude, longitude)]:
    move the row from [punched_in] to [punched_out]. *)
Definition punch_out (clk : Clock) (user_id : ObjectId) (date time : string)
    (location latitude longitude : option string) : M PunchedOut.doc :=
  punched_in_record <- gets (fun s => find_one (fun d => Nat.eqb (PunchedIn.user_id d) user_id)
                                        (punched_in s)) ;;
  match punched_in_record with
  | None => raise NoPunchInError
  | Some r =>
      let punch_out_data :=
        {| PunchedOut.punch_in := r;
           PunchedOut.facet :=
             {| PunchOutFacet.punched_out_date := date;
                PunchOutFacet.punched_out_time := time;
                PunchOutFacet.punched_out_location := location;
                PunchOutFacet.punched_out_latitude := latitude;
                PunchOutFacet.punched_out_longitude := longitude;
                PunchOutFacet.punched_out_at := get_ist_time clk |} |} in
      modify (set_punched_out (insert_one punch_out_data)) ;;;
      modify (set_punched_in (delete_one (fun d => Nat.eqb (PunchedIn.user_id d) user_id))) ;;;
      ret punch_out_data
  end.

(** The order of [.sort('created_at', -1)] on the attendance log. *)
Definition created_ltb (a b : Attendance.doc) : bool :=
  PunchedIn.created_at (Attendance.punch_in a) <? PunchedIn.created_at (Attendance.punch_in b).

(** [get_all_attendance()] *)
Definition get_all_attendance : M (list Attendance.doc) :=
  gets (fun s => find_desc (fun _ => true) created_ltb (attendance s)).

(** [get_attendance_by_user(user_id, date=None)].  With a [date] the
    query asks for the key ['date'], which no document of the attendance
    log carries (the handlers write ['punched_in_date']). *)
Definition get_attendance_by_user (user_id : ObjectId) (date : option string)
    : M (list Attendance.doc) :=
  let query (d : Attendance.doc) :=
    Nat.eqb (PunchedIn.user_id (Attendance.punch_in d)) user_id
    && (if truthy date then false else true) in
  gets (fun s => find_desc query created_ltb (attendance s)).

End MongoAttendance.

(** ** authentication/views_mongo.py *)

(** The responses of the handlers; each constructor stands for one
    [Response(...)] of the source, named after the error kinds of the
    specification where it has one. *)
Inductive Response :=
| UserCreated (user_id : ObjectId)
| SignupRejected (e : exn)
| InvalidOTP
| IncorrectOTP
| OTPExpired
| EmailVerified
| UserNotFound
| MissingCredentials
| LoginSuccessful (user : User.doc)
| EmailNotVerified
| InvalidCredentials
| NoSuchEmail
| OTPSent
| SessionInvalidated
| PasswordReset
| AuthenticationRequired
| AlreadyPunchedIn
| NotLoggedIn
| AlreadyPunchedInToday
| PunchInSuccessful (data : PunchedIn.doc)
| NoActiveSession
| NoPunchInFound
| PunchOutSuccessful (data : PunchedOut.doc)
| LogoutSuccessful
| ServerError (e : exn).

(** The HTTP status of a response. *)
Definition status_code (r : Response) : nat :=
  match r with
  | UserCreated _ => 201
  | SignupRejected _ => 400
  | InvalidOTP => 400
  | IncorrectOTP => 400
  | OTPExpired => 400
  | EmailVerified => 200
  | UserNotFound => 404
  | MissingCredentials => 400
  | LoginSuccessful _ => 200
  | EmailNotVerified => 400
  | InvalidCredentials => 401
  | NoSuchEmail => 404
  | OTPSent => 200
  | SessionInvalidated => 401
  | PasswordReset => 200
  | AuthenticationRequired => 401
  | AlreadyPunchedIn => 400
  | NotLoggedIn => 401
  | AlreadyPunchedInToday => 400
  | PunchInSuccessful _ => 201
  | NoActiveSession => 401
  | NoPunchInFound => 400
  | PunchOutSuccessful _ => 201
  | LogoutSuccessful => 200
  | ServerError _ => 500
  end%nat.

(** The text under ['error'] or ['message'] in the response body. *)
Definition body_text (r : Response) : string :=
  match r with
  | UserCreated _ => "User created successfully. Please verify your email."
  | SignupRejected (ValueError msg) => msg
  | InvalidOTP => "Invalid OTP"
  | IncorrectOTP => "Incorrect OTP"
  | OTPExpired => "OTP has expired"
  | EmailVerified => "Email verified successfully"
  | UserNotFound => "User not found"
  | MissingCredentials => "Email and password are required"
  | LoginSuccessful _ => "Login successful"
  | EmailNotVerified => "Please verify your email before logging in"
  | InvalidCredentials => "Invalid credentials"
  | NoSuchEmail => "User with this email does not exist"
  | OTPSent => "OTP sent to email for password reset"
  | SessionInvalidated => "You have logged out. Please log in again to reset password."
  | PasswordReset => "Password reset successfully"
  | AuthenticationRequired => "Authentication required"
  | AlreadyPunchedIn => "You have already punched in. Please punch out first."
  | NotLoggedIn => "User is not logged in. Please log in again."
  | AlreadyPunchedInToday =>
      "You have already punched in today. Please punch out before punching in again."
  | PunchInSuccessful _ => "Punch in successful"
  | NoActiveSession => "No active session found. Please login first."
  | NoPunchInFound => "No punch in record found. Please punch in first."
  | PunchOutSuccessful _ => "Punch out successful"
  | LogoutSuccessful => "Logout successful"
  | ServerError (ValueError msg) => msg
  end.

Definition is_error (r : Response) : bool := (400 <=? status_code r)%nat.

Module views_mongo.

(** [signup]: [user_name], [email], [password] are the validated data. *)
Definition signup `{PasswordHasher} (clk : Clock) (otp_code : string)
    (user_name email password : string) : M Response :=
  try_except
    (user <- MongoUser.create_user clk user_name email password ;;
     otp_obj <- MongoOTP.create_otp clk otp_code (User.email user) signup_purpose ;;
     ret (UserCreated (User._id user)))
    (fun e => ret (SignupRejected e)).

(** [verify_otp] *)
Definition verify_otp (clk : Clock) (email otp_code : string) : M Response :=
  otp_obj <- MongoOTP.get_latest_unused email signup_purpose ;;
  match otp_obj with
  | None => ret InvalidOTP
  | Some otp_obj =>
      if negb (OTP.otp otp_obj =? otp_code)%string then ret InvalidOTP
      else if negb (MongoOTP.is_valid clk otp_obj) then ret OTPExpired
      else
        MongoOTP.delete otp_obj ;;;
        user <- MongoUser.get_by_email email ;;
        match user with
        | Some user => MongoUser.verify_email clk user ;;; ret EmailVerified
        | None => ret UserNotFound
        end
  end.

(** The body of the loop of [login] over the active sessions of the
    user: mark [session] inactive and create a logout session.
    [device_type] is the one of the login request. *)
Definition logout_previous_session (clk : Clock) (user_id : ObjectId)
    (device_type : string) (session : LoginSession.doc) : M unit :=
  modify (set_login_sessions
    (update_one (fun d => Nat.eqb (LoginSession._id d) (LoginSession._id session))
       (fun d => {| LoginSession._id := LoginSession._id d;
                    LoginSession.user_id := LoginSession.user_id d;
                    LoginSession.username := LoginSession.username d;
                    LoginSession.device_type := LoginSession.device_type d;
                    LoginSession.login_time := LoginSession.login_time d;
                    LoginSession.is_active := false |}))) ;;;
  MongoLogoutSession.create_session clk user_id device_type ;;;
  ret tt.

(** [login]: [email] and [password] are [request.data.get(...)];
    [device_type] is [request.data.get('deviceType', 'web')]. *)
Definition login `{PasswordHasher} (clk : Clock) (email password : option string)
    (device_type : string) : M Response :=
  match email, password with
  | Some email_, Some password_ =>
      if negb (truthy email) || negb (truthy password) then ret MissingCredentials
      else
        user <- MongoUser.authenticate email_ password_ ;;
        match user with
        | Some user =>
            if User.is_verified user then
              active_sessions <-
                gets (fun s => filter
                  (fun d => Nat.eqb (LoginSession.user_id d) (User._id user)
                            && LoginSession.is_active d)
                  (login_sessions s)) ;;
              for_each active_sessions
                (logout_previous_session clk (User._id user) device_type) ;;;
              session <- MongoLoginSession.create_session clk (User._id user) device_type ;;
              ret (LoginSuccessful user)
            else ret EmailNotVerified
        | None => ret InvalidCredentials
        end
  | _, _ => ret MissingCredentials
  end.

(** [forgot_password] *)
Definition forgot_password (clk : Clock) (otp_code : string) (email : string) : M Response :=
  user <- MongoUser.get_by_email email ;;
  match user with
  | None => ret NoSuchEmail
  | Some _ =>
      otp_obj <- MongoOTP.create_otp clk otp_code email forgot_password_purpose ;;
      ret OTPSent
  end.

(** The guard at the head of [reset_password]: has the user logged out
    after the last login? *)
Definition logged_out_after_login : option LogoutSession.doc -> option LoginSession.doc -> bool :=
  fun latest_logout latest_login =>
    match latest_logout, latest_login with
    | Some lo, Some li => MongoLoginSession.timestamp li <? LogoutSession.logout_time lo
    | _, _ => false
    end.

(** [reset_password] *)
Definition reset_password `{PasswordHasher} (clk : Clock)
    (email otp_code new_password : string) : M Response :=
  user <- MongoUser.get_by_email email ;;
  invalidated <-
    match user with
    | Some user =>
        latest_logout <- MongoLogoutSession.get_latest_logout (User._id user) ;;
        latest_login <- MongoLoginSession.get_latest_login (User._id user) ;;
        ret (logged_out_after_login latest_logout latest_login)
    | None => ret false
    end ;;
  if invalidated then ret SessionInvalidated
  else
    otp_obj <- MongoOTP.get_latest_unused email forgot_password_purpose ;;
    match otp_obj with
    | None => ret InvalidOTP
    | Some otp_obj =>
        if negb (OTP.otp otp_obj =? otp_code)%string then ret IncorrectOTP
        else
          MongoOTP.delete otp_obj ;;;
          user <- MongoUser.get_by_email email ;;
          match user with
          | Some user => MongoUser.set_password clk user new_password ;;; ret PasswordReset
          | None => ret UserNotFound
          end
    end.

(** [get_user_id_from_request]: [request_user] is the e-mail of the
    authenticated Django user, if any. *)
Definition get_user_id_from_request (request_user : option string) : M (option ObjectId) :=
  match request_user with
  | Some email =>
      mongo_user <- MongoUser.get_by_email email ;;
      match mongo_user with
      | Some u => ret (Some (User._id u))
      | None => ret None
      end
  | None => ret None
  end.

(** [punch_in] *)
Definition punch_in (clk : Clock) (request_user : option string)
    (location latitude longitude : option string) : M Response :=
  match request_user with
  | None => ret AuthenticationRequired
  | Some django_email =>
      user <- MongoUser.get_by_email django_email ;;
      match user with
      | None => ret UserNotFound
      | Some user =>
          let user_id := User._id user in
          let date := local_date clk in
          let time := local_time clk in
          (* ENFORCEMENT: Check if user is already punched in *)
          existing <- gets (fun s =>
            find_one (fun d => Nat.eqb (PunchedIn.user_id d) user_id) (punched_in s)) ;;
          match existing with
          | Some _ => ret AlreadyPunchedIn
          | None =>
              (* ENFORCEMENT: Check if user is logged in (active session) *)
              active_session <- gets (fun s =>
                find_one (fun d => Nat.eqb (LoginSession.user_id d) user_id
                                   && LoginSession.is_active d) (login_sessions s)) ;;
              match active_session with
              | None => ret NotLoggedIn
              | Some _ =>
                  (* ENFORCEMENT: Prevent duplicate punch in for same user on same day *)
                  today_punch_in <- gets (fun s =>
                    find_one (fun d => Nat.eqb (PunchedIn.user_id d) user_id
                                       && (PunchedIn.punched_in_date d =? date)%string)
                             (punched_in s)) ;;
                  match today_punch_in with
                  | Some _ => ret AlreadyPunchedInToday
                  | None =>
                      oid <- fresh_oid ;;
                      let punch_in_data :=
                        {| PunchedIn._id := oid; PunchedIn.user_id := user_id;
                           PunchedIn.username := Some (User.username user);
                           PunchedIn.email := Some (User.email user);
                           PunchedIn.punched_in_date := date;
                           PunchedIn.punched_in_time := time;
                           PunchedIn.location := location;
                           PunchedIn.latitude := latitude;
                           PunchedIn.longitude := longitude;
                           PunchedIn.created_at := utcnow clk |} in
                      modify (set_punched_in (insert_one punch_in_data)) ;;;
                      (* Also insert into attendance collection *)
                      modify (set_attendance (insert_one
                        {| Attendance.punch_in := punch_in_data;
                           Attendance.punched_out := None |})) ;;;
                      ret (PunchInSuccessful punch_in_data)
                  end
              end
          end
      end
  end.

(** [punch_out] *)
Definition punch_out (clk : Clock) (request_user : option string)
    (location latitude longitude : option string) : M Response :=
  match request_user with
  | None => ret AuthenticationRequired
  | Some django_email =>
      user <- MongoUser.get_by_email django_email ;;
      match user with
      | None => ret UserNotFound
      | Some user =>
          let user_id := User._id user in
          active_session <- MongoLoginSession.get_active_session user_id ;;
          match active_session with
          | None => ret NoActiveSession
          | Some _ =>
              let date := local_date clk in
              let time := local_time clk in
              punched_in_record <- gets (fun s =>
                find_one (fun d => Nat.eqb (PunchedIn.user_id d) user_id) (punched_in s)) ;;
              match punched_in_record with
              | None => ret NoPunchInFound
              | Some _ =>
                  punch_out_data <-
                    MongoAttendance.punch_out clk user_id date time location latitude longitude ;;
                  modify (set_attendance (update_one
                    (fun d => Nat.eqb (PunchedIn.user_id (Attendance.punch_in d)) user_id
                              && match Attendance.punched_out d with
                                 | None => true
                                 | Some _ => false
                                 end)
                    (fun d =>
                       {| Attendance.punch_in := Attendance.punch_in d;
                          Attendance.punched_out := Some
                            {| PunchOutFacet.punched_out_date := date;
                               PunchOutFacet.punched_out_time := time;
                               PunchOutFacet.punched_out_location := location;
                               PunchOutFacet.punched_out_latitude := latitude;
                               PunchOutFacet.punched_out_longitude := longitude;
                               PunchOutFacet.punched_out_at := utcnow clk |} |}))) ;;;
                  ret (PunchOutSuccessful punch_out_data)
              end
          end
      end
  end.

(** [logout]; the [IsAuthenticated] permission answers 401 to a request
    without an authenticated user. *)
Definition logout (clk : Clock) (request_user : option string)
    (device_type : string) : M Response :=
  match request_user with
  | None => ret AuthenticationRequired
  | Some _ =>
      user_id <- get_user_id_from_request request_user ;;
      match user_id with
      | None => ret UserNotFound
      | Some user_id =>
          MongoLogoutSession.create_session clk user_id device_type ;;;
          modify (set_login_sessions (update_many
            (fun d => Nat.eqb (LoginSession.user_id d) user_id && LoginSession.is_active d)
            (fun d => {| LoginSession._id := LoginSession._id d;
                         LoginSession.user_id := LoginSession.user_id d;
                         LoginSession.username := LoginSession.username d;
                         LoginSession.device_type := LoginSession.device_type d;
                         LoginSession.login_time := LoginSession.login_time d;
                         LoginSession.is_active := false |}))) ;;;
          ret LogoutSuccessful
      end
  end.

(** [get_attendance]: the ['count'] and the ['data'] of the response,
    the attendance records of all users. *)
Definition get_attendance : M (nat * list Attendance.doc) :=
  records <- MongoAttendance.get_all_attendance ;;
  ret (List.length records, records).

End views_mongo.

(** ** Requests and their dispatch (authentication/urls.py) *)

Inductive Request :=
| Signup (user_name email password : string)
| VerifyOtp (email otp : string)
| Login (email password : option string) (deviceType : string)
| ForgotPassword (email : string)
| ResetPassword (email otp new_password : string)
| PunchIn (request_user : option string) (location latitude longitude : option string)
| PunchOut (request_user : option string) (location latitude longitude : option string)
| Logout (request_user : option string) (deviceType : string).

(** What a handler reads from outside the store: the clock and the digits
    drawn by [generate_otp]. *)
Record Env := {
  clock : Clock;
  generated_otp : string
}.

Definition dispatch `{PasswordHasher} (env : Env) (req : Request) : M Response :=
  match req with
  | Signup user_name email password =>
      views_mongo.signup (clock env) (generated_otp env) user_name email password
  | VerifyOtp email otp => views_mongo.verify_otp (clock env) email otp
  | Login email password device => views_mongo.login (clock env) email password device
  | ForgotPassword email => views_mongo.forgot_password (clock env) (generated_otp env) email
  | ResetPassword email otp new_password =>
      views_mongo.reset_password (clock env) email otp new_password
  | PunchIn u loc lat lon => views_mongo.punch_in (clock env) u loc lat lon
  | PunchOut u loc lat lon => views_mongo.punch_out (clock env) u loc lat lon
  | Logout u device => views_mongo.logout (clock env) u device
  end.

(** Run a handler on a store; an exception that no handler catches is an
    internal server error. *)
Definition run (m : M Response) (s : Store) : Store * Response :=
  match m s with
  | (s', inr r) => (s', r)
  | (s', inl e) => (s', ServerError e)
  end.

Definition handle `{PasswordHasher} (env : Env) (req : Request) (s : Store) : Store * Response :=
  run (dispatch env req) s.

(** The store after a sequence of requests. *)
Fixpoint handle_all `{PasswordHasher} (trace : list (Env * Request)) (s : Store) : Store :=
  match trace with
  | [] => s
  | (env, req) :: rest => handle_all rest (fst (handle env req s))
  end.

(** ** authentication/permissions.py *)

Module IsAdmin.

(** [has_permission(request, view)]: [request_user_email] is
    [request.user.email]. *)
Definition has_permission (request_user_email : string) : M bool :=
  user <- MongoUser.get_by_email request_user_email ;;
  match user with
  | Some u => ret (User.role u =? "admin")%string
  | None => ret false
  end.

End IsAdmin.

(** ** authentication/management/commands/make_admin.py *)

Module make_admin.

(** What the command writes to its output: an error, a warning or a
    success line. *)
Inductive Output := NotFound | AlreadyAdmin | Promoted.

(** [Command.handle]: promote the user of [email] to the admin role. *)
Definition handle (clk : Clock) (email : string) : M Output :=
  user <- MongoUser.get_by_email email ;;
  match user with
  | None => ret NotFound
  | Some u =>
      if (User.role u =? "admin")%string then ret AlreadyAdmin
      else
        MongoUser.save clk
          {| User._id := User._id u; User.username := User.username u;
             User.email := User.email u; User.password := User.password u;
             User.is_verified := User.is_verified u; User.role := "admin";
             User.created_at := User.created_at u; User.updated_at := User.updated_at u |} ;;;
        ret Promoted
  end.

End make_admin.

(** ** cleanup_expired_otps.py *)

Module cleanup_expired_otps.

(** [main()]: the number of OTPs deleted. *)
Definition main (clk : Clock) : M nat := MongoOTP.cleanup_expired_otps clk None.

End cleanup_expired_otps.

(** ** authentication/models.py *)

Module models.

(** [timedelta.seconds]: of the normalised fields days, seconds and
    microseconds of a difference of [delta] microseconds, the seconds,
    between 0 and 86399. *)
Definition timedelta_seconds (delta : Z) : Z := (delta / 1000000) mod 86400.

Module OTP.

(** [is_valid()]: [now] is [datetime.now()], [created_at] the creation
    time without its time zone. *)
Definition is_valid (now created_at : Z) : bool :=
  timedelta_seconds (now - created_at) <? 600.

End OTP.

End models.

(** * Properties *)

Local Open Scope list_scope.

(** A hasher to run the handlers on concrete requests. *)
Definition plain_hasher : PasswordHasher :=
  {| make_password p := ("h:" ++ p)%string;
     check_password p encoded := (encoded =? "h:" ++ p)%string |}.

(** [keeps proj m]: [m] leaves the component [proj] of the store as it
    found it, whether it returns or raises. *)
Definition keeps {A B} (proj : Store -> B) (m : M A) : Prop :=
  forall s, proj (fst (m s)) = proj s.

(** *** The punch pointer *)

(** The rows of [punched_in] that belong to a user. *)
Definition pointers_of (user_id : ObjectId) (s : Store) : list PunchedIn.doc :=
  filter (fun d => Nat.eqb (PunchedIn.user_id d) user_id) (punched_in s).

Definition at_most_one_pointer (s : Store) : Prop :=
  forall user_id, (List.length (pointers_of user_id s) <= 1)%nat.

Definition has_pointer (user_id : ObjectId) (s : Store) : bool :=
  existsb (fun d => Nat.eqb (PunchedIn.user_id d) user_id) (punched_in s).

Definition has_active_session (user_id : ObjectId) (s : Store) : bool :=
  existsb (fun d => Nat.eqb (LoginSession.user_id d) user_id && LoginSession.is_active d)
    (login_sessions s).

(** *** A concrete run: Alice *)

(** A clock reading [t] seconds after the epoch on the local day [day]. *)
Definition at_time (t : Z) (day : string) : Env :=
  {| clock := {| utcnow := seconds t; local_date := day; local_time := "09:00:00" |};
     generated_otp := "123456" |}.

Definition alice : option string := Some "a@x.com".

(** signup("alice", "a@x.com", "pw1"), verify_otp with the issued code,
    login from the web. *)
Definition alice_logged_in : Store :=
  handle_all (H := plain_hasher)
    [ (at_time 0 "2024-01-01", Signup "alice" "a@x.com" "pw1");
      (at_time 10 "2024-01-01", VerifyOtp "a@x.com" "123456");
      (at_time 20 "2024-01-01", Login alice (Some "pw1") "web") ]
    empty_store.

(** Her user document from then on. *)
Definition alice_doc : User.doc :=
  {| User._id := 0%nat; User.username := "alice"; User.email := "a@x.com";
     User.password := "h:pw1"; User.is_verified := true; User.role := "employee";
     User.created_at := Some (get_ist_time (clock (at_time 0 "2024-01-01")));
     User.updated_at := get_ist_time (clock (at_time 10 "2024-01-01")) |}.

(** ... then a punch-in at the office. *)
Definition alice_punched_in : Store :=
  fst (handle (H := plain_hasher) (at_time 30 "2024-01-01")
         (PunchIn alice (Some "Office") None None) alice_logged_in).

(** ... then a logout, the pointer still in place. *)
Definition alice_punched_in_logged_out : Store :=
  fst (handle (H := plain_hasher) (at_time 35 "2024-01-01")
         (Logout alice "web") alice_punched_in).

(** The [punch_in] rows of the attendance log of a user on a day. *)
Definition punch_in_records (user_id : ObjectId) (day : string) (s : Store)
    : list Attendance.doc :=
  filter (fun a => Nat.eqb (PunchedIn.user_id (Attendance.punch_in a)) user_id
                   && (PunchedIn.punched_in_date (Attendance.punch_in a) =? day)%string)
    (attendance s).

(** *** A concrete run: Bob *)

(** Bob has signed up and not verified yet. *)
Definition bob_signed_up : Store :=
  fst (handle (H := plain_hasher) (at_time 0 "2024-01-01")
         (Signup "bob" "b@x.com" "pw1") empty_store).

Definition bob_signup_otp : OTP.doc :=
  {| OTP._id := 1%nat; OTP.email := "b@x.com"; OTP.otp := "123456";
     OTP.purpose := signup_purpose; OTP.is_used := false;
     OTP.created_at := Some (get_ist_time (clock (at_time 0 "2024-01-01"))) |}.

(** *** Password reset *)

(** The guard at the head of [reset_password], read off the store. *)
Definition session_invalidated (email : string) (s : Store) : bool :=
  match find_one (fun d => (User.email d =? email)%string) (users s) with
  | Some u =>
      views_mongo.logged_out_after_login
        (find_one_desc (fun d => Nat.eqb (LogoutSession.user_id d) (User._id u))
           MongoLogoutSession.logout_ltb (logout_sessions s))
        (find_one_desc (fun d => Nat.eqb (LoginSession.user_id d) (User._id u))
           MongoLoginSession.login_ltb (login_sessions s))
  | None => false
  end.

(** The user document [set_password] saves. *)
Definition with_new_password `{PasswordHasher} (clk : Clock) (u : User.doc)
    (new_password : string) : User.doc :=
  {| User._id := User._id u; User.username := User.username u; User.email := User.email u;
     User.password := make_password new_password; User.is_verified := User.is_verified u;
     User.role := User.role u; User.created_at := User.created_at u;
     User.updated_at := get_ist_time clk |}.

(** *** Reset codes *)

(** Alice, logged in, asks for a reset code and then logs out. *)
Definition alice_reset_after_logout : Store :=
  handle_all (H := plain_hasher)
    [ (at_time 25 "2024-01-01", ForgotPassword "a@x.com");
      (at_time 30 "2024-01-01", Logout alice "web") ]
    alice_logged_in.

(** Alice, logged in, asks for a reset code at second 100. *)
Definition alice_forgot : Store :=
  fst (handle (H := plain_hasher) (at_time 100 "2024-01-01")
         (ForgotPassword "a@x.com") alice_logged_in).

(** The OTP document [create_otp] inserts. *)
Definition issued_otp (env : Env) (email : string) (purpose : Purpose) (s : Store) : OTP.doc :=
  {| OTP._id := next_oid s; OTP.email := email; OTP.otp := generated_otp env;
     OTP.purpose := purpose; OTP.is_used := false;
     OTP.created_at := Some (get_ist_time (clock env)) |}.

(** *** Login *)

(** The filter of the loop in [login]: the active sessions of a user. *)
Definition active_for (user_id : ObjectId) (d : LoginSession.doc) : bool :=
  Nat.eqb (LoginSession.user_id d) user_id && LoginSession.is_active d.

(** [{'$set': {'is_active': False}}] *)
Definition deactivated (d : LoginSession.doc) : LoginSession.doc :=
  {| LoginSession._id := LoginSession._id d;
     LoginSession.user_id := LoginSession.user_id d;
     LoginSession.username := LoginSession.username d;
     LoginSession.device_type := LoginSession.device_type d;
     LoginSession.login_time := LoginSession.login_time d;
     LoginSession.is_active := false |}.

(** The document [MongoLogoutSession.create_session] inserts. *)
Definition logout_doc (clk : Clock) (user_id : ObjectId) (device_type : string)
    (oid : ObjectId) : LogoutSession.doc :=
  {| LogoutSession._id := oid; LogoutSession.user_id := user_id;
     LogoutSession.device_type := device_type;
     LogoutSession.logout_time := get_ist_time clk |}.

(** The store after one turn of the loop, and after the whole loop. *)
Definition logged_out_one (clk : Clock) (user_id : ObjectId) (device_type : string)
    (session : LoginSession.doc) (s : Store) : Store :=
  set_logout_sessions (insert_one (logout_doc clk user_id device_type (next_oid s)))
    (bump_oid
       (set_login_sessions
          (update_one (fun d => Nat.eqb (LoginSession._id d) (LoginSession._id session))
             deactivated) s)).

Fixpoint logged_out_all (clk : Clock) (user_id : ObjectId) (device_type : string)
    (sessions : list LoginSession.doc) (s : Store) : Store :=
  match sessions with
  | [] => s
  | x :: r => logged_out_all clk user_id device_type r
                (logged_out_one clk user_id device_type x s)
  end.

(** The document [MongoLoginSession.create_session] inserts. *)
Definition login_doc (clk : Clock) (user_id : ObjectId) (device_type : string)
    (s : Store) : LoginSession.doc :=
  {| LoginSession._id := next_oid s; LoginSession.user_id := user_id;
     LoginSession.username :=
       match find_one (fun d => Nat.eqb (User._id d) user_id) (users s) with
       | Some u => Some (User.username u)
       | None => None
       end;
     LoginSession.device_type := device_type;
     LoginSession.login_time := get_ist_time clk;
     LoginSession.is_active := true |}.

(** The store after an accepted login. *)
Definition logged_in (clk : Clock) (user_id : ObjectId) (device_type : string)
    (s : Store) : Store :=
  let s1 := logged_out_all clk user_id device_type
              (filter (active_for user_id) (login_sessions s)) s in
  set_login_sessions (insert_one (login_doc clk user_id device_type s1)) (bump_oid s1).

(** *** Rejected requests *)


(** The store a rejected [signup] leaves: the clean-up of
    [cleanup_unverified_users(email)] has run. *)
Definition cleaned_up (clk : Clock) (email : string) (s : Store) : Store :=
  set_users (delete_many (MongoUser.unverified_query clk (Some email)))
    (if truthy (Some email)
     then set_otps (delete_many (fun d => (OTP.email d =? email)%string)) s
     else s).

(** *** Consistent stores *)

(** What every store built by the handlers satisfies, [T] being a time
    after all the clock readings so far: ids are unique and below the
    counter, the user of a login session is verified, OTPs were created
    before [T]. *)
Record consistent (T : Z) (s : Store) : Prop := {
  users_unique : NoDup (map User._id (users s));
  users_below : forall u, In u (users s) -> (User._id u < next_oid s)%nat;
  logins_unique : NoDup (map LoginSession._id (login_sessions s));
  logins_below : forall l, In l (login_sessions s) ->
                   (LoginSession._id l < next_oid s)%nat
                   /\ (LoginSession.user_id l < next_oid s)%nat;
  logins_verified : forall l u, In l (login_sessions s) -> In u (users s) ->
                      User._id u = LoginSession.user_id l -> User.is_verified u = true;
  otps_before : forall o, In o (otps s) -> opt_ltb (OTP.created_at o) (Some T) = true
}.

(** *** Sorting *)

(** The order of [sort(key, -1)] on an integer key. *)
Definition key_ltb {D : Type} (key : D -> Z) (a b : D) : bool := key a <? key b.

(** Greatest key first. *)
Fixpoint descending {D : Type} (key : D -> Z) (l : list D) : Prop :=
  match l with
  | [] => True
  | x :: r => (forall y, In y r -> key y <= key x) /\ descending key r
  end.

(** *** The stores the handlers leave *)

(** The document [create_user] inserts. *)
Definition new_user `{PasswordHasher} (clk : Clock) (username email password : string)
    (oid : ObjectId) : User.doc :=
  {| User._id := oid; User.username := username; User.email := email;
     User.password := make_password password; User.is_verified := false;
     User.role := "employee"; User.created_at := Some (get_ist_time clk);
     User.updated_at := get_ist_time clk |}.

(** The document [create_otp] inserts. *)
Definition new_otp (clk : Clock) (otp_code email : string) (purpose : Purpose)
    (oid : ObjectId) : OTP.doc :=
  {| OTP._id := oid; OTP.email := email; OTP.otp := otp_code; OTP.purpose := purpose;
     OTP.is_used := false; OTP.created_at := Some (get_ist_time clk) |}.

(** The store after [create_otp]. *)
Definition otp_created (clk : Clock) (otp_code email : string) (purpose : Purpose)
    (s : Store) : Store :=
  set_otps (insert_one (new_otp clk otp_code email purpose (next_oid s)))
    (bump_oid (set_otps (delete_many (MongoOTP.expired_query clk None)) s)).

(** The store after the two inserts of an accepted [signup], [s1] being the
    store that the clean-up and the look-up of [create_user] have left. *)
Definition signed_up `{PasswordHasher} (clk : Clock) (otp_code username email password : string)
    (s1 : Store) : Store :=
  otp_created clk otp_code email signup_purpose
    (set_users (insert_one (new_user clk username email password (next_oid s1))) (bump_oid s1)).

(** The test of [create_user] on an unverified user: created within the
    last ten minutes. *)
Definition recent_unverified (clk : Clock) (ex : User.doc) : bool :=
  match User.created_at ex with
  | Some created_at => get_ist_time clk - created_at <? seconds 600
  | None => false
  end.

(** The query of the [delete_one] of [create_user]. *)
Definition unverified_with (email : string) (d : User.doc) : bool :=
  (User.email d =? email)%string && negb (User.is_verified d).

(** The user document [verify_email] saves. *)
Definition verified_doc (clk : Clock) (u : User.doc) : User.doc :=
  {| User._id := User._id u; User.username := User.username u; User.email := User.email u;
     User.password := User.password u; User.is_verified := true;
     User.role := User.role u; User.created_at := User.created_at u;
     User.updated_at := get_ist_time clk |}.

(** The store after an accepted [verify_otp]. *)
Definition verified (clk : Clock) (o : OTP.doc) (u : User.doc) (s : Store) : Store :=
  set_users (update_one (fun d => Nat.eqb (User._id d) (User._id u))
               (fun _ => verified_doc clk u))
    (set_otps (delete_one (fun d => Nat.eqb (OTP._id d) (OTP._id o))) s).

(** The store after [logout]. *)
Definition logged_out (clk : Clock) (user_id : ObjectId) (device_type : string)
    (s : Store) : Store :=
  set_login_sessions (update_many (active_for user_id) deactivated)
    (set_logout_sessions (insert_one (logout_doc clk user_id device_type (next_oid s)))
       (bump_oid s)).

(** The attendance records of a user that no punch-out has completed. *)
Definition open_for (user_id : ObjectId) (d : Attendance.doc) : bool :=
  Nat.eqb (PunchedIn.user_id (Attendance.punch_in d)) user_id
  && match Attendance.punched_out d with
     | None => true
     | Some _ => false
     end.

(** The fields a punch-out adds, stamped with [punched_out_at]. *)
Definition punch_out_facet (clk : Clock) (location latitude longitude : option string)
    (punched_out_at : Z) : PunchOutFacet.t :=
  {| PunchOutFacet.punched_out_date := local_date clk;
     PunchOutFacet.punched_out_time := local_time clk;
     PunchOutFacet.punched_out_location := location;
     PunchOutFacet.punched_out_latitude := latitude;
     PunchOutFacet.punched_out_longitude := longitude;
     PunchOutFacet.punched_out_at := punched_out_at |}.

(** [{'$set': {'punched_out_date': ..., 'punched_out_at': datetime.utcnow()}}] *)
Definition completed (clk : Clock) (location latitude longitude : option string)
    (d : Attendance.doc) : Attendance.doc :=
  {| Attendance.punch_in := Attendance.punch_in d;
     Attendance.punched_out :=
       Some (punch_out_facet clk location latitude longitude (utcnow clk)) |}.

(** The row [MongoAttendance.punch_out] writes to [punched_out]. *)
Definition punched_out_row (clk : Clock) (location latitude longitude : option string)
    (ptr : PunchedIn.doc) : PunchedOut.doc :=
  {| PunchedOut.punch_in := ptr;
     PunchedOut.facet := punch_out_facet clk location latitude longitude (get_ist_time clk) |}.

(** The store after an accepted [punch_out]. *)
Definition punched_out_store (clk : Clock) (user_id : ObjectId)
    (location latitude longitude : option string) (ptr : PunchedIn.doc) (s : Store) : Store :=
  set_attendance (update_one (open_for user_id) (completed clk location latitude longitude))
    (set_punched_in (delete_one (fun d => Nat.eqb (PunchedIn.user_id d) user_id))
       (set_punched_out (insert_one (punched_out_row clk location latitude longitude ptr)) s)).

(** The store after an accepted [punch_in]. *)
Definition punched_in_store (d : PunchedIn.doc) (s : Store) : Store :=
  set_attendance (insert_one {| Attendance.punch_in := d; Attendance.punched_out := None |})
    (set_punched_in (insert_one d) (bump_oid s)).

(** A time after every clock reading of a trace. *)
Definition clock_bound (trace : list (Env * Request)) : Z :=
  fold_right (fun step acc => Z.max (get_ist_time (clock (fst step)) + 1) acc) 0 trace.

(** *** The users collection *)

(** How a request changes the [users] collection: not at all; by the
    clean-up of [create_user], which deletes unverified rows; by the
    clean-up followed by the insertion of the new row, after the deletion
    of the unverified row of the same email if there is one; or by
    [save], which rewrites a row of the collection under its [_id]. *)
Inductive users_step (c : list User.doc) : list User.doc -> Prop :=
| users_same : users_step c c
| users_cleaned (q : User.doc -> bool) :
    (forall d, q d = true -> User.is_verified d = false) ->
    users_step c (delete_many q c)
| users_inserted (q : User.doc -> bool) (new : User.doc) :
    (forall d, q d = true -> User.is_verified d = false) ->
    find_one (fun d => (User.email d =? User.email new)%string) (delete_many q c) = None ->
    User.role new = "employee" ->
    users_step c (insert_one new (delete_many q c))
| users_replaced (q : User.doc -> bool) (new ex : User.doc) :
    (forall d, q d = true -> User.is_verified d = false) ->
    find_one (fun d => (User.email d =? User.email new)%string) (delete_many q c) = Some ex ->
    User.is_verified ex = false ->
    User.role new = "employee" ->
    users_step c (insert_one new (delete_one (unverified_with (User.email new))
                                    (delete_many q c)))
| users_saved (u data : User.doc) :
    In u c ->
    User._id data = User._id u -> User.email data = User.email u ->
    User.role data = User.role u ->
    (User.is_verified u = true -> User.is_verified data = true) ->
    users_step c (update_one (fun d => Nat.eqb (User._id d) (User._id u)) (fun _ => data) c).

(** The user document [make_admin] saves. *)
Definition promoted (clk : Clock) (u : User.doc) : User.doc :=
  {| User._id := User._id u; User.username := User.username u; User.email := User.email u;
     User.password := User.password u; User.is_verified := User.is_verified u;
     User.role := "admin"; User.created_at := User.created_at u;
     User.updated_at := get_ist_time clk |}.

(** *** Invariants of the store operations *)



(** *** Reading the attendance log *)

(** The sort key of the attendance queries. *)
Definition attendance_created_at (d : Attendance.doc) : Z :=
  PunchedIn.created_at (Attendance.punch_in d).

(** [{'$set': {'is_used': True}}] *)
Definition used (d : OTP.doc) : OTP.doc :=
  {| OTP._id := OTP._id d; OTP.email := OTP.email d; OTP.otp := OTP.otp d;
     OTP.purpose := OTP.purpose d; OTP.is_used := true; OTP.created_at := OTP.created_at d |}.

(** ** Collections *)

Section CollectionFacts.
Variable D : Type.
Implicit Types (p q : D -> bool) (c : list D).

Lemma find_one_none_existsb p c : find_one p c = None <-> existsb p c = false.
Proof.
  unfold find_one. induction c as [|d r IH]; simpl.
  - tauto.
  - destruct (p d); simpl; [split; discriminate | exact IH].
Qed.

Lemma find_one_some_existsb p c d : find_one p c = Some d -> existsb p c = true.
Proof.
  intros E. destruct (existsb p c) eqn:X; [reflexivity|].
  apply find_one_none_existsb in X. congruence.
Qed.

Lemma find_one_none_filter p c : find_one p c = None -> filter p c = [].
Proof.
  unfold find_one. induction c as [|d r IH]; simpl; [reflexivity|].
  destruct (p d); [discriminate | exact IH].
Qed.

(** A narrower filter finds nothing where the wider one found nothing. *)
Lemma find_one_none_narrow p q c :
  find_one p c = None -> find_one (fun d => p d && q d) c = None.
Proof.
  unfold find_one. induction c as [|d r IH]; simpl; [reflexivity|].
  destruct (p d); simpl; [discriminate | exact IH].
Qed.

Lemma filter_insert_one p c d :
  filter p (insert_one d c) = filter p c ++ (if p d then [d] else []).
Proof. unfold insert_one. rewrite filter_app. reflexivity. Qed.

Lemma filter_delete_one_length p q c :
  (List.length (filter p (delete_one q c)) <= List.length (filter p c))%nat.
Proof.
  induction c as [|d r IH]; simpl; [lia|].
  destruct (q d); simpl; destruct (p d); simpl; lia.
Qed.

Lemma delete_many_nothing p c :
  (forall d, In d c -> p d = false) -> delete_many p c = c.
Proof.
  unfold delete_many. induction c as [|d r IH]; simpl; intros Hc; [reflexivity|].
  rewrite (Hc d (or_introl eq_refl)). simpl. f_equal. apply IH. auto.
Qed.

(** [first_max] returns an element that no element exceeds. *)
Lemma first_max_in ltb c m : first_max ltb c = Some m -> In m c.
Proof.
  revert m. induction c as [|d r IH]; simpl; intros m E; [discriminate|].
  destruct (first_max ltb r) as [m'|].
  - destruct (ltb d m'); inversion E; subst; auto.
  - inversion E; auto.
Qed.

Lemma first_max_none ltb c : first_max ltb c = None <-> c = [].
Proof.
  destruct c as [|d r]; simpl; [tauto|].
  destruct (first_max ltb r) as [m|]; [destruct (ltb d m)|]; split; discriminate.
Qed.

Lemma first_max_snoc ltb c x :
  (forall d, In d c -> ltb d x = true) -> first_max ltb (c ++ [x]) = Some x.
Proof.
  induction c as [|d r IH]; simpl; intros Hc; [reflexivity|].
  rewrite IH by auto. rewrite (Hc d (or_introl eq_refl)). reflexivity.
Qed.
End CollectionFacts.

(** On a key ordered by [<?], the document [first_max] returns has the
    greatest key. *)
Lemma first_max_greatest (D : Type) (key : D -> Z) (c : list D) (m : D) :
  first_max (fun a b => key a <? key b) c = Some m ->
  forall d, In d c -> key d <= key m.
Proof.
  revert m. induction c as [|x r IH]; simpl; intros m E d Hd; [contradiction|].
  destruct (first_max (fun a b => key a <? key b) r) as [m'|] eqn:Er.
  - destruct (Z.ltb_spec (key x) (key m')); inversion E; subst.
    + destruct Hd as [->|Hd]; [lia | eauto].
    + destruct Hd as [->|Hd]; [lia|]. specialize (IH _ eq_refl _ Hd). lia.
  - inversion E; subst. apply first_max_none in Er. subst r.
    destruct Hd as [->|[]]. lia.
Qed.

Unset Implicit Arguments.

(** ** Running the monad *)

Lemma run_ret (r : Response) (s : Store) : run (ret r) s = (s, r).
Proof. reflexivity. Qed.

Section Keeps.
Context {B : Type} (proj : Store -> B).

Lemma keeps_ret A (a : A) : keeps proj (ret a).
Proof. intros s. reflexivity. Qed.

Lemma keeps_raise A e : keeps proj (@raise A e).
Proof. intros s. reflexivity. Qed.

Lemma keeps_gets A (f : Store -> A) : keeps proj (gets f).
Proof. intros s. reflexivity. Qed.

Lemma keeps_bind A C (m : M A) (f : A -> M C) :
  keeps proj m -> (forall a, keeps proj (f a)) -> keeps proj (bind m f).
Proof.
  intros Hm Hf s. unfold bind. specialize (Hm s).
  destruct (m s) as [s' [e|a]]; simpl in *; [exact Hm|].
  rewrite Hf. exact Hm.
Qed.

Lemma keeps_try_except A (m : M A) (h : exn -> M A) :
  keeps proj m -> (forall e, keeps proj (h e)) -> keeps proj (try_except m h).
Proof.
  intros Hm Hh s. unfold try_except. specialize (Hm s).
  destruct (m s) as [s' [e|a]]; simpl in *; [|exact Hm].
  rewrite Hh. exact Hm.
Qed.

Lemma keeps_for_each A (xs : list A) (body : A -> M unit) :
  (forall x, keeps proj (body x)) -> keeps proj (for_each xs body).
Proof.
  intros Hb. induction xs as [|x r IH]; simpl.
  - apply keeps_ret.
  - apply keeps_bind; auto.
Qed.

Lemma keeps_modify (f : Store -> Store) :
  (forall s, proj (f s) = proj s) -> keeps proj (modify f).
Proof. intros Hf s. simpl. apply Hf. Qed.

Lemma keeps_fresh_oid : (forall s, proj (bump_oid s) = proj s) -> keeps proj fresh_oid.
Proof. intros Hf s. simpl. apply Hf. Qed.

Lemma keeps_run (m : M Response) : keeps proj m -> forall s, proj (fst (run m s)) = proj s.
Proof.
  intros Hm s. unfold run. specialize (Hm s).
  destruct (m s) as [s' [e|a]]; exact Hm.
Qed.
End Keeps.

(** Break a handler into its store operations. *)
Ltac keeps_step :=
  first
    [ apply keeps_ret | apply keeps_raise | apply keeps_gets
    | apply keeps_modify; intros; reflexivity
    | apply keeps_fresh_oid; intros; reflexivity
    | apply keeps_for_each; intros
    | apply keeps_try_except; [|intros]
    | apply keeps_bind; [|intros]
    | match goal with
      | |- keeps _ (match ?x with _ => _ end) => destruct x
      end ].

Ltac keeps_tac := repeat keeps_step.

(** Expose the store passing of a handler whose model functions have been
    unfolded. *)
Ltac unfold_monad :=
  unfold run, try_except, bind, gets, ret, modify, raise, fresh_oid; cbv beta zeta.

(** ** The punch pointer *)

Lemma at_most_one_pointer_same_rows s s' :
  punched_in s' = punched_in s -> at_most_one_pointer s -> at_most_one_pointer s'.
Proof. intros E I uid. unfold pointers_of. rewrite E. apply I. Qed.

Lemma at_most_one_pointer_insert s s' d :
  punched_in s' = insert_one d (punched_in s) ->
  has_pointer (PunchedIn.user_id d) s = false ->
  at_most_one_pointer s -> at_most_one_pointer s'.
Proof.
  intros E Hnone I uid. unfold pointers_of. rewrite E, filter_insert_one.
  rewrite length_app. destruct (Nat.eqb_spec (PunchedIn.user_id d) uid) as [<-|_].
  - unfold has_pointer in Hnone. apply find_one_none_existsb in Hnone.
    rewrite (find_one_none_filter _ _ Hnone). simpl. lia.
  - specialize (I uid). unfold pointers_of in I. simpl. lia.
Qed.

Lemma at_most_one_pointer_delete s s' q :
  punched_in s' = delete_one q (punched_in s) ->
  at_most_one_pointer s -> at_most_one_pointer s'.
Proof.
  intros E I uid. unfold pointers_of. rewrite E.
  eapply Nat.le_trans; [apply filter_delete_one_length | apply I].
Qed.

Section PointerFrame.
Context `{PasswordHasher}.

Lemma signup_keeps_punched_in clk code n e p :
  keeps punched_in (views_mongo.signup clk code n e p).
Proof.
  unfold views_mongo.signup, MongoUser.create_user, MongoUser.cleanup_unverified_users,
    MongoOTP.create_otp, MongoOTP.cleanup_expired_otps, MongoOTP.cleanup_otps_for_email.
  keeps_tac.
Qed.

Lemma verify_otp_keeps_punched_in clk e c :
  keeps punched_in (views_mongo.verify_otp clk e c).
Proof.
  unfold views_mongo.verify_otp, MongoOTP.get_latest_unused, MongoOTP.delete,
    MongoUser.get_by_email, MongoUser.verify_email, MongoUser.save.
  keeps_tac.
Qed.

Lemma login_keeps_punched_in clk e p dev :
  keeps punched_in (views_mongo.login clk e p dev).
Proof.
  unfold views_mongo.login, views_mongo.logout_previous_session, MongoUser.authenticate,
    MongoUser.get_by_email, MongoLogoutSession.create_session,
    MongoLoginSession.create_session, MongoUser.get_by_id.
  keeps_tac.
Qed.

Lemma forgot_password_keeps_punched_in clk code e :
  keeps punched_in (views_mongo.forgot_password clk code e).
Proof.
  unfold views_mongo.forgot_password, MongoUser.get_by_email, MongoOTP.create_otp,
    MongoOTP.cleanup_expired_otps.
  keeps_tac.
Qed.

Lemma reset_password_keeps_punched_in clk e c p :
  keeps punched_in (views_mongo.reset_password clk e c p).
Proof.
  unfold views_mongo.reset_password, MongoUser.get_by_email,
    MongoLogoutSession.get_latest_logout, MongoLoginSession.get_latest_login,
    MongoOTP.get_latest_unused, MongoOTP.delete, MongoUser.set_password, MongoUser.save.
  keeps_tac.
Qed.

Lemma logout_keeps_punched_in clk u dev :
  keeps punched_in (views_mongo.logout clk u dev).
Proof.
  unfold views_mongo.logout, views_mongo.get_user_id_from_request, MongoUser.get_by_email,
    MongoLogoutSession.create_session.
  keeps_tac.
Qed.
End PointerFrame.

(** What the handler [punch_in] answers, check by check, for the Mongo user
    [u] of an authenticated request. *)
Lemma punch_in_cases clk email loc lat lon s u :
  find_one (fun d => (User.email d =? email)%string) (users s) = Some u ->
  (has_pointer (User._id u) s = true /\
   run (views_mongo.punch_in clk (Some email) loc lat lon) s = (s, AlreadyPunchedIn))
  \/
  (has_pointer (User._id u) s = false /\ has_active_session (User._id u) s = false /\
   run (views_mongo.punch_in clk (Some email) loc lat lon) s = (s, NotLoggedIn))
  \/
  (has_pointer (User._id u) s = false /\ has_active_session (User._id u) s = true /\
   exists d,
     run (views_mongo.punch_in clk (Some email) loc lat lon) s =
       (set_attendance (insert_one {| Attendance.punch_in := d; Attendance.punched_out := None |})
          (set_punched_in (insert_one d) (bump_oid s)),
        PunchInSuccessful d)
     /\ PunchedIn.user_id d = User._id u
     /\ PunchedIn.punched_in_date d = local_date clk
     /\ PunchedIn.created_at d = utcnow clk).
Proof.
  intros Hu.
  unfold views_mongo.punch_in, MongoUser.get_by_email, has_pointer, has_active_session.
  unfold_monad. rewrite Hu. cbv beta iota zeta.
  destruct (find_one (fun d => Nat.eqb (PunchedIn.user_id d) (User._id u)) (punched_in s))
    as [ptr|] eqn:Eptr.
  - left. split; [eapply find_one_some_existsb; eassumption | reflexivity].
  - right.
    pose proof (proj1 (find_one_none_existsb _ _) Eptr) as Hnone.
    destruct (find_one (fun d => Nat.eqb (LoginSession.user_id d) (User._id u)
                                 && LoginSession.is_active d) (login_sessions s))
      as [ses|] eqn:Eses.
    + right. split; [exact Hnone|]. split; [eapply find_one_some_existsb; eassumption|].
      rewrite (find_one_none_narrow _
                 (fun d => (PunchedIn.punched_in_date d =? local_date clk)%string) _ Eptr).
      simpl. eexists. split; [reflexivity|]. simpl. auto.
    + left. split; [exact Hnone|]. split; [|reflexivity].
      apply find_one_none_existsb. exact Eses.
Qed.

Lemma punch_in_keeps_invariant clk ru loc lat lon s :
  at_most_one_pointer s ->
  at_most_one_pointer (fst (run (views_mongo.punch_in clk ru loc lat lon) s)).
Proof.
  intros I. destruct ru as [email|]; [|exact I].
  destruct (find_one (fun d => (User.email d =? email)%string) (users s)) as [u|] eqn:Hu.
  - destruct (punch_in_cases clk email loc lat lon s _ Hu)
      as [[_ ->]|[(_ & _ & ->)|(Hp & _ & d & -> & Hd & _)]]; try exact I.
    simpl. eapply at_most_one_pointer_insert with (d := d); [reflexivity | | exact I].
    rewrite Hd. exact Hp.
  - unfold views_mongo.punch_in, MongoUser.get_by_email. unfold_monad.
    rewrite Hu. exact I.
Qed.

Lemma punch_out_keeps_invariant clk ru loc lat lon s :
  at_most_one_pointer s ->
  at_most_one_pointer (fst (run (views_mongo.punch_out clk ru loc lat lon) s)).
Proof.
  intros I. destruct ru as [email|]; [|exact I].
  unfold views_mongo.punch_out, MongoUser.get_by_email,
    MongoLoginSession.get_active_session, MongoAttendance.punch_out.
  unfold_monad.
  destruct (find_one (fun d => (User.email d =? email)%string) (users s)) as [u|]; [|exact I].
  destruct (find_one_desc _ _ (login_sessions s)); [|exact I].
  destruct (find_one (fun d => Nat.eqb (PunchedIn.user_id d) (User._id u)) (punched_in s))
    eqn:Eptr; cbv beta iota zeta; [|exact I].
  rewrite Eptr. simpl. eapply at_most_one_pointer_delete; [|exact I]. reflexivity.
Qed.





Lemma handle_keeps_invariant `{PasswordHasher} env req s :
  at_most_one_pointer s -> at_most_one_pointer (fst (handle env req s)).
Proof.
  intros I. unfold handle. destruct req; simpl.
  - eapply at_most_one_pointer_same_rows; [|exact I].
    apply keeps_run, signup_keeps_punched_in.
  - eapply at_most_one_pointer_same_rows; [|exact I].
    apply keeps_run, verify_otp_keeps_punched_in.
  - eapply at_most_one_pointer_same_rows; [|exact I].
    apply keeps_run, login_keeps_punched_in.
  - eapply at_most_one_pointer_same_rows; [|exact I].
    apply keeps_run, forgot_password_keeps_punched_in.
  - eapply at_most_one_pointer_same_rows; [|exact I].
    apply keeps_run, reset_password_keeps_punched_in.
  - apply punch_in_keeps_invariant, I.
  - apply punch_out_keeps_invariant, I.
  - eapply at_most_one_pointer_same_rows; [|exact I].
    apply keeps_run, logout_keeps_punched_in.
Qed.

Lemma empty_store_one_pointer : at_most_one_pointer empty_store.
Proof. intros uid. simpl. lia. Qed.

(** Every store reached from the empty one by requests has at most one
    pointer per user. *)
Lemma reachable_at_most_one_pointer `{PasswordHasher} trace :
  at_most_one_pointer (handle_all trace empty_store).
Proof.
  generalize empty_store_one_pointer. generalize empty_store.
  induction trace as [|[env req] rest IH]; intros s I; simpl; [exact I|].
  apply IH, handle_keeps_invariant, I.
Qed.

(** ** Punch-in: the per-day check *)

(** The same-day check of [punch_in] looks into [punched_in], where the
    first check has just found no row of the user: it never fires. *)
Lemma punch_in_never_already_today clk ru loc lat lon s :
  snd (run (views_mongo.punch_in clk ru loc lat lon) s) <> AlreadyPunchedInToday.
Proof.
  destruct ru as [email|]; [|discriminate].
  destruct (find_one (fun d => (User.email d =? email)%string) (users s)) as [u|] eqn:Hu.
  - destruct (punch_in_cases clk email loc lat lon s _ Hu)
      as [[_ ->]|[(_ & _ & ->)|(_ & _ & d & -> & _)]]; discriminate.
  - unfold views_mongo.punch_in, MongoUser.get_by_email. unfold_monad.
    rewrite Hu. discriminate.
Qed.

(** C1 (the code departs from the claim).  Alice punches in on 2024-01-01,
    punches out, and punches in again the same day: the second punch-in is
    accepted instead of failing with AlreadyPunchedInToday, and the
    attendance log then holds two punch_in records for her on that day. *)
Theorem second_punch_in_same_day_accepted :
  exists s1 d1 s2 o s3 d2,
    handle (H := plain_hasher) (at_time 30 "2024-01-01")
      (PunchIn alice (Some "Office") None None) alice_logged_in = (s1, PunchInSuccessful d1)
    /\ handle (H := plain_hasher) (at_time 40 "2024-01-01")
         (PunchOut alice (Some "Office") None None) s1 = (s2, PunchOutSuccessful o)
    /\ handle (H := plain_hasher) (at_time 50 "2024-01-01")
         (PunchIn alice (Some "Office") None None) s2 = (s3, PunchInSuccessful d2)
    /\ PunchedIn.user_id d1 = PunchedIn.user_id d2
    /\ PunchedIn.punched_in_date d1 = PunchedIn.punched_in_date d2
    /\ List.length (punch_in_records (PunchedIn.user_id d1) "2024-01-01" s3) = 2%nat.
Proof.
  do 6 eexists.
  split; [vm_compute; reflexivity|].
  split; [vm_compute; reflexivity|].
  split; [vm_compute; reflexivity|].
  vm_compute. auto.
Qed.

(** ** Punch-in: the pointer *)



(** ** Punch-in: the order of the checks *)

(** C3 as stated fails: Alice has a pointer and, after her logout, no
    active session; her punch-in is not answered NotLoggedIn. *)
Lemma punch_in_pointer_checked_before_session :
  ~ (forall clk email loc lat lon s u,
       find_one (fun d => (User.email d =? email)%string) (users s) = Some u ->
       has_active_session (User._id u) s = false ->
       has_pointer (User._id u) s = true ->
       snd (run (views_mongo.punch_in clk (Some email) loc lat lon) s) = NotLoggedIn).
Proof.
  intros claim.
  specialize (claim (clock (at_time 36 "2024-01-01")) "a@x.com" (Some "Office") None None
                alice_punched_in_logged_out
                alice_doc eq_refl eq_refl eq_refl).
  vm_compute in claim. discriminate claim.
Qed.

(** C3, amended.  [punch_in] checks the existing pointer first and the
    active session second: a user with a pointer is answered
    AlreadyPunchedIn whether or not a session is active, a user without a
    pointer and without an active session is answered NotLoggedIn; in both
    cases nothing is written. *)
Theorem punch_in_check_order (clk : Clock) (email : string)
    (loc lat lon : option string) (s : Store) (u : User.doc) :
  find_one (fun d => (User.email d =? email)%string) (users s) = Some u ->
  (has_pointer (User._id u) s = true ->
   run (views_mongo.punch_in clk (Some email) loc lat lon) s = (s, AlreadyPunchedIn))
  /\ (has_pointer (User._id u) s = false ->
      has_active_session (User._id u) s = false ->
      run (views_mongo.punch_in clk (Some email) loc lat lon) s = (s, NotLoggedIn)).
Proof.
  intros Hu.
  destruct (punch_in_cases clk email loc lat lon s _ Hu)
    as [[Hp E]|[(Hp & Ha & E)|(Hp & Ha & _)]]; split; intros; congruence.
Qed.

Lemma punch_in_check_order_witness :
  has_pointer (User._id alice_doc) alice_punched_in_logged_out = true
  /\ has_active_session (User._id alice_doc) alice_punched_in_logged_out = false
  /\ run (views_mongo.punch_in (clock (at_time 36 "2024-01-01")) alice (Some "Office") None None)
       alice_punched_in_logged_out
     = (alice_punched_in_logged_out, AlreadyPunchedIn).
Proof.
  split; [reflexivity|]. split; [reflexivity|].
  apply (proj1 (@punch_in_check_order (clock (at_time 36 "2024-01-01")) "a@x.com"
                  (Some "Office") None None alice_punched_in_logged_out
                  alice_doc eq_refl)).
  reflexivity.
Defined.

(** ** The time base of the punch records *)

(** C8 (the code departs from the claim).  The handlers [punch_in] and
    [punch_out] stamp their records with the naive UTC clock: Alice's
    punch-in at UTC second 30 is stored with [created_at] 30 s, 19800 s
    behind [get_ist_time], the clock that stamped her login session in the
    same store and that the model-layer [MongoAttendance.punch_in] uses;
    her punch-out stores the IST instant in [punched_out] and the UTC
    instant in [attendance]. *)
Theorem punch_records_use_naive_utc :
  let env_in := at_time 30 "2024-01-01" in
  let env_out := at_time 40 "2024-01-01" in
  exists s1 d s2 o a m,
    handle (H := plain_hasher) env_in (PunchIn alice (Some "Office") None None)
      alice_logged_in = (s1, PunchInSuccessful d)
    /\ PunchedIn.created_at d = utcnow (clock env_in)
    /\ get_ist_time (clock env_in) - PunchedIn.created_at d = seconds 19800
    /\ map LoginSession.login_time (login_sessions s1)
       = [get_ist_time (clock (at_time 20 "2024-01-01"))]
    /\ MongoAttendance.punch_in (clock env_in) (User._id alice_doc) "2024-01-01" "09:00:00" (Some "Office")
         None None alice_logged_in = (m, inr {|
           PunchedIn._id := PunchedIn._id d; PunchedIn.user_id := PunchedIn.user_id d;
           PunchedIn.username := PunchedIn.username d; PunchedIn.email := PunchedIn.email d;
           PunchedIn.punched_in_date := PunchedIn.punched_in_date d;
           PunchedIn.punched_in_time := PunchedIn.punched_in_time d;
           PunchedIn.location := PunchedIn.location d;
           PunchedIn.latitude := PunchedIn.latitude d;
           PunchedIn.longitude := PunchedIn.longitude d;
           PunchedIn.created_at := get_ist_time (clock env_in) |})
    /\ handle (H := plain_hasher) env_out (PunchOut alice (Some "Office") None None) s1
       = (s2, PunchOutSuccessful o)
    /\ PunchOutFacet.punched_out_at (PunchedOut.facet o) = get_ist_time (clock env_out)
    /\ attendance s2 = [a]
    /\ option_map PunchOutFacet.punched_out_at (Attendance.punched_out a)
       = Some (utcnow (clock env_out)).
Proof.
  do 6 eexists.
  split; [vm_compute; reflexivity|].
  split; [vm_compute; reflexivity|].
  split; [vm_compute; reflexivity|].
  split; [vm_compute; reflexivity|].
  split; [vm_compute; reflexivity|].
  split; [vm_compute; reflexivity|].
  split; [vm_compute; reflexivity|].
  split; vm_compute; reflexivity.
Qed.

(** ** One-time codes *)

(** The validity predicate, spelled out. *)
Lemma is_valid_iff (clk : Clock) (o : OTP.doc) :
  MongoOTP.is_valid clk o = true
  <-> OTP.is_used o = false
      /\ exists created_at, OTP.created_at o = Some created_at
                            /\ get_ist_time clk - created_at < seconds 600.
Proof.
  unfold MongoOTP.is_valid. destruct (OTP.is_used o).
  - split; [discriminate | intros [? _]; discriminate].
  - destruct (OTP.created_at o) as [c|].
    + rewrite Z.ltb_lt. split.
      * intros Hlt. split; [reflexivity|]. exists c. auto.
      * intros (_ & c' & E & Hlt). inversion E. subst. exact Hlt.
    + split; [discriminate | intros (_ & c' & E & _); discriminate].
Qed.




(** ** Password reset *)

Section Reset.
Context `{PasswordHasher}.

Lemma reset_password_guarded clk email code new_password s :
  session_invalidated email s = true ->
  run (views_mongo.reset_password clk email code new_password) s = (s, SessionInvalidated).
Proof.
  unfold session_invalidated, views_mongo.reset_password, MongoUser.get_by_email,
    MongoLogoutSession.get_latest_logout, MongoLoginSession.get_latest_login.
  unfold_monad.
  destruct (find_one (fun d => (User.email d =? email)%string) (users s)) as [u|];
    cbv beta iota; [|discriminate].
  intros ->. reflexivity.
Qed.

(** Past the guard, the handler answers one of four things, none of which
    is OTPExpired or SessionInvalidated. *)
Lemma reset_password_unguarded clk email code new_password s :
  session_invalidated email s = false ->
  match find_one_desc (MongoOTP.unused_for email forgot_password_purpose)
          MongoOTP.created_ltb (otps s) with
  | None => run (views_mongo.reset_password clk email code new_password) s = (s, InvalidOTP)
  | Some o =>
      if (OTP.otp o =? code)%string then
        match find_one (fun d => (User.email d =? email)%string) (users s) with
        | Some u =>
            run (views_mongo.reset_password clk email code new_password) s =
              (set_users (update_one (fun d => Nat.eqb (User._id d) (User._id u))
                            (fun _ => with_new_password clk u new_password))
                 (set_otps (delete_one (fun d => Nat.eqb (OTP._id d) (OTP._id o))) s),
               PasswordReset)
        | None =>
            run (views_mongo.reset_password clk email code new_password) s =
              (set_otps (delete_one (fun d => Nat.eqb (OTP._id d) (OTP._id o))) s,
               UserNotFound)
        end
      else run (views_mongo.reset_password clk email code new_password) s = (s, IncorrectOTP)
  end.
Proof.
  unfold session_invalidated, views_mongo.reset_password, MongoUser.get_by_email,
    MongoLogoutSession.get_latest_logout, MongoLoginSession.get_latest_login,
    MongoOTP.get_latest_unused, MongoOTP.delete, MongoUser.set_password, MongoUser.save.
  unfold_monad. intros G.
  destruct (find_one (fun d => (User.email d =? email)%string) (users s)) as [u|] eqn:Hu;
    cbv beta iota in G |- *; [rewrite G|]; cbv beta iota;
    (destruct (find_one_desc (MongoOTP.unused_for email forgot_password_purpose)
                 MongoOTP.created_ltb (otps s)) as [o|]; [|reflexivity]);
    (destruct (OTP.otp o =? code)%string; cbn [negb]; cbv beta iota; [|reflexivity]);
    cbn [users set_otps]; rewrite Hu; reflexivity.
Qed.

Lemma reset_password_invalidated_iff clk email code new_password s :
  snd (run (views_mongo.reset_password clk email code new_password) s) = SessionInvalidated
  <-> session_invalidated email s = true.
Proof.
  split.
  - intros R. destruct (session_invalidated email s) eqn:G; [reflexivity|exfalso].
    pose proof (reset_password_unguarded clk email code new_password s G) as U.
    destruct (find_one_desc _ _ (otps s)) as [o|].
    + destruct (OTP.otp o =? code)%string.
      * destruct (find_one _ (users s)); rewrite U in R; discriminate R.
      * rewrite U in R; discriminate R.
    + rewrite U in R; discriminate R.
  - intros G. rewrite (reset_password_guarded clk email code new_password s G). reflexivity.
Qed.

(** [reset_password] has no expiry check: it never answers OTPExpired. *)
Lemma reset_password_never_expired clk email code new_password s :
  snd (run (views_mongo.reset_password clk email code new_password) s) <> OTPExpired.
Proof.
  destruct (session_invalidated email s) eqn:G.
  - rewrite (reset_password_guarded clk email code new_password s G). discriminate.
  - pose proof (reset_password_unguarded clk email code new_password s G) as U.
    destruct (find_one_desc _ _ (otps s)) as [o|].
    + destruct (OTP.otp o =? code)%string.
      * destruct (find_one _ (users s)); rewrite U; discriminate.
      * rewrite U; discriminate.
    + rewrite U; discriminate.
Qed.
End Reset.

(** [get_latest_logout] returns the user's logout with the greatest
    [logout_time], and nothing only when the user has no logout. *)
Lemma get_latest_logout_latest (user_id : ObjectId) (s : Store) (lo : LogoutSession.doc) :
  MongoLogoutSession.get_latest_logout user_id s = (s, inr (Some lo)) ->
  In lo (logout_sessions s) /\ LogoutSession.user_id lo = user_id
  /\ forall d, In d (logout_sessions s) -> LogoutSession.user_id d = user_id ->
               LogoutSession.logout_time d <= LogoutSession.logout_time lo.
Proof.
  unfold MongoLogoutSession.get_latest_logout, gets, find_one_desc. intros E.
  inversion E as [E']. clear E.
  pose proof (first_max_in _ _ E') as Hin. apply filter_In in Hin. destruct Hin as [Hin Hid].
  apply Nat.eqb_eq in Hid. split; [exact Hin|]. split; [exact Hid|].
  intros d Hd Hdid.
  apply (@first_max_greatest _ LogoutSession.logout_time _ lo E').
  apply filter_In. split; [exact Hd|]. apply Nat.eqb_eq. exact Hdid.
Qed.

Lemma get_latest_logout_none (user_id : ObjectId) (s : Store) :
  MongoLogoutSession.get_latest_logout user_id s = (s, inr None)
  <-> forall d, In d (logout_sessions s) -> LogoutSession.user_id d <> user_id.
Proof.
  unfold MongoLogoutSession.get_latest_logout, gets, find_one_desc. split.
  - intros E d Hd Hid. inversion E as [E']. apply first_max_none in E'.
    assert (Hin : In d (filter (fun d => Nat.eqb (LogoutSession.user_id d) user_id)
                          (logout_sessions s))).
    { apply filter_In. split; [exact Hd|]. apply Nat.eqb_eq. exact Hid. }
    rewrite E' in Hin. exact Hin.
  - intros Hnone.
    destruct (first_max _ _) as [m|] eqn:E'; [exfalso|reflexivity].
    apply first_max_in in E'. apply filter_In in E'. destruct E' as [Hin Hid].
    apply Nat.eqb_eq in Hid. exact (Hnone m Hin Hid).
Qed.


(** C6.  A password reset is answered SessionInvalidated exactly when the
    user exists and the logout_time of the user's latest LogoutSession is
    strictly greater than the login_time of the latest LoginSession; when
    the user has no logout, or the latest login is not older than the
    latest logout, the reset goes past the guard. *)
Theorem reset_rejected_iff_logout_after_login `{PasswordHasher} (clk : Clock)
    (email otp_code new_password : string) (s : Store) :
  (snd (run (views_mongo.reset_password clk email otp_code new_password) s)
     = SessionInvalidated
   <-> exists u lo li,
         MongoUser.get_by_email email s = (s, inr (Some u))
         /\ MongoLogoutSession.get_latest_logout (User._id u) s = (s, inr (Some lo))
         /\ MongoLoginSession.get_latest_login (User._id u) s = (s, inr (Some li))
         /\ LoginSession.login_time li < LogoutSession.logout_time lo)
  /\ (forall u,
        MongoUser.get_by_email email s = (s, inr (Some u)) ->
        MongoLogoutSession.get_latest_logout (User._id u) s = (s, inr None) ->
        snd (run (views_mongo.reset_password clk email otp_code new_password) s)
          <> SessionInvalidated)
  /\ (forall u lo li,
        MongoUser.get_by_email email s = (s, inr (Some u)) ->
        MongoLogoutSession.get_latest_logout (User._id u) s = (s, inr (Some lo)) ->
        MongoLoginSession.get_latest_login (User._id u) s = (s, inr (Some li)) ->
        LogoutSession.logout_time lo <= LoginSession.login_time li ->
        snd (run (views_mongo.reset_password clk email otp_code new_password) s)
          <> SessionInvalidated).
Proof.
  assert (Hiff :
    session_invalidated email s = true
    <-> exists u lo li,
          MongoUser.get_by_email email s = (s, inr (Some u))
          /\ MongoLogoutSession.get_latest_logout (User._id u) s = (s, inr (Some lo))
          /\ MongoLoginSession.get_latest_login (User._id u) s = (s, inr (Some li))
          /\ LoginSession.login_time li < LogoutSession.logout_time lo).
  { unfold session_invalidated, MongoUser.get_by_email,
      MongoLogoutSession.get_latest_logout, MongoLoginSession.get_latest_login, gets,
      views_mongo.logged_out_after_login, MongoLoginSession.timestamp.
    split.
    - destruct (find_one _ (users s)) as [u|]; [|discriminate].
      destruct (find_one_desc _ _ (logout_sessions s)) as [lo|] eqn:Elo; [|discriminate].
      destruct (find_one_desc _ _ (login_sessions s)) as [li|] eqn:Eli; [|discriminate].
      intros Hlt. apply Z.ltb_lt in Hlt. exists u, lo, li.
      rewrite Elo, Eli. repeat split. exact Hlt.
    - intros (u & lo & li & Eu & Elo & Eli & Hlt).
      inversion Eu as [Eu']. rewrite Eu'.
      inversion Elo as [Elo']. rewrite Elo'.
      inversion Eli as [Eli']. rewrite Eli'.
      apply Z.ltb_lt. exact Hlt. }
  split; [rewrite reset_password_invalidated_iff; exact Hiff|]. split.
  - intros u Eu Elo R. apply reset_password_invalidated_iff, Hiff in R.
    destruct R as (u' & lo & li & Eu' & Elo' & _).
    rewrite Eu in Eu'. inversion Eu'. subst u'. rewrite Elo in Elo'. discriminate Elo'.
  - intros u lo li Eu Elo Eli Hle R. apply reset_password_invalidated_iff, Hiff in R.
    destruct R as (u' & lo' & li' & Eu' & Elo' & Eli' & Hlt).
    rewrite Eu in Eu'. inversion Eu'. subst u'.
    rewrite Elo in Elo'. inversion Elo'. subst lo'.
    rewrite Eli in Eli'. inversion Eli'. subst li'. lia.
Qed.

Lemma reset_rejected_iff_logout_after_login_witness :
  snd (run (views_mongo.reset_password (H := plain_hasher)
              (clock (at_time 40 "2024-01-01")) "a@x.com" "123456" "pw2")
         alice_reset_after_logout) = SessionInvalidated.
Proof.
  apply (proj1 (@reset_rejected_iff_logout_after_login plain_hasher
                  (clock (at_time 40 "2024-01-01")) "a@x.com" "123456" "pw2"
                  alice_reset_after_logout)).
  do 3 eexists.
  split; [reflexivity|]. split; [reflexivity|]. split; [reflexivity|].
  vm_compute. reflexivity.
Defined.

(** ** Password reset and expiry *)

(** C4 (the code departs from the claim).  The reset code issued to Alice
    at second 100 is no longer valid at second 701, yet submitting it then
    is answered "Password reset successfully": the code is consumed and the
    stored hash is the hash of the new password. *)
Theorem reset_password_accepts_expired_otp :
  exists o s2 u2,
    otps alice_forgot = [o]
    /\ OTP.purpose o = forgot_password_purpose
    /\ OTP.otp o = "123456"
    /\ OTP.created_at o = Some (get_ist_time (clock (at_time 100 "2024-01-01")))
    /\ MongoOTP.is_valid (clock (at_time 701 "2024-01-01")) o = false
    /\ handle (H := plain_hasher) (at_time 701 "2024-01-01")
         (ResetPassword "a@x.com" "123456" "pw2") alice_forgot = (s2, PasswordReset)
    /\ users s2 = [u2]
    /\ User.password u2 = make_password (PasswordHasher := plain_hasher) "pw2"
    /\ otps s2 = [].
Proof.
  do 3 eexists.
  split; [vm_compute; reflexivity|].
  split; [vm_compute; reflexivity|].
  split; [vm_compute; reflexivity|].
  split; [vm_compute; reflexivity|].
  split; [vm_compute; reflexivity|].
  split; [vm_compute; reflexivity|].
  split; [vm_compute; reflexivity|].
  split; vm_compute; reflexivity.
Qed.

(** ** Password reset for an unverified user *)

(** Replacing the document found by [p], addressed by its unique id, by a
    document that [p] also accepts leaves it the one [p] finds. *)
Lemma find_one_update_one_replace (D : Type) (id : D -> nat) (p : D -> bool)
    (c : list D) (u u' : D) :
  NoDup (map id c) ->
  find_one p c = Some u ->
  p u' = true ->
  find_one p (update_one (fun d => Nat.eqb (id d) (id u)) (fun _ => u') c) = Some u'.
Proof.
  unfold find_one. intros Hnd Hu Hp'. induction c as [|d r IH]; simpl in *; [discriminate|].
  inversion Hnd as [|x l Hnotin Hnd']. subst.
  destruct (p d) eqn:Hpd.
  - inversion Hu. subst d. rewrite Nat.eqb_refl. simpl. rewrite Hp'. reflexivity.
  - destruct (Nat.eqb_spec (id d) (id u)) as [Heq|Hneq].
    + exfalso. apply Hnotin. rewrite Heq. apply in_map.
      apply find_some in Hu. tauto.
    + simpl. rewrite Hpd. apply IH; assumption.
Qed.

Lemma forgot_password_issues (env : Env) (email : string) (s : Store) (u : User.doc) :
  find_one (fun d => (User.email d =? email)%string) (users s) = Some u ->
  run (views_mongo.forgot_password (clock env) (generated_otp env) email) s =
    (set_otps (insert_one (issued_otp env email forgot_password_purpose s))
       (bump_oid (set_otps (delete_many (MongoOTP.expired_query (clock env) None)) s)),
     OTPSent).
Proof.
  intros Hu.
  unfold views_mongo.forgot_password, MongoUser.get_by_email, MongoOTP.create_otp,
    MongoOTP.cleanup_expired_otps.
  unfold_monad. rewrite Hu. reflexivity.
Qed.

(** On any store with unique user ids: a user without a login session,
    whose earlier reset codes are older than the clock of the request, is
    sent a reset code, and the code just issued resets the password at any
    later reading of the clock, whatever [is_verified] says. *)
Lemma reset_without_verification `{PasswordHasher} (env1 env2 : Env)
    (email new_password : string) (s : Store) (u : User.doc) :
  find_one (fun d => (User.email d =? email)%string) (users s) = Some u ->
  User.is_verified u = false ->
  NoDup (map User._id (users s)) ->
  filter (fun d => Nat.eqb (LoginSession.user_id d) (User._id u)) (login_sessions s) = [] ->
  (forall d, In d (otps s) ->
             MongoOTP.unused_for email forgot_password_purpose d = true ->
             opt_ltb (OTP.created_at d) (Some (get_ist_time (clock env1))) = true) ->
  exists s1 s2 u2,
    handle env1 (ForgotPassword email) s = (s1, OTPSent)
    /\ In (issued_otp env1 email forgot_password_purpose s) (otps s1)
    /\ handle env2 (ResetPassword email (generated_otp env1) new_password) s1
       = (s2, PasswordReset)
    /\ find_one (fun d => (User.email d =? email)%string) (users s2) = Some u2
    /\ User.password u2 = make_password new_password
    /\ User.is_verified u2 = false.
Proof.
  intros Hu Hunverified Hnd Hnologin Hfresh.
  set (new := issued_otp env1 email forgot_password_purpose s).
  set (s1 := set_otps (insert_one new)
               (bump_oid (set_otps (delete_many (MongoOTP.expired_query (clock env1) None)) s))).
  assert (Hu1 : find_one (fun d => (User.email d =? email)%string) (users s1) = Some u)
    by exact Hu.
  assert (G : session_invalidated email s1 = false).
  { unfold session_invalidated. rewrite Hu1.
    change (login_sessions s1) with (login_sessions s).
    unfold views_mongo.logged_out_after_login.
    destruct (find_one_desc _ MongoLogoutSession.logout_ltb _); [|reflexivity].
    unfold find_one_desc. rewrite Hnologin. reflexivity. }
  assert (Hnew : MongoOTP.unused_for email forgot_password_purpose new = true).
  { unfold MongoOTP.unused_for, new, issued_otp. cbn. rewrite String.eqb_refl. reflexivity. }
  assert (Hlatest : find_one_desc (MongoOTP.unused_for email forgot_password_purpose)
                      MongoOTP.created_ltb (otps s1) = Some new).
  { change (otps s1)
      with (insert_one new (delete_many (MongoOTP.expired_query (clock env1) None) (otps s))).
    unfold find_one_desc. rewrite filter_insert_one, Hnew.
    apply first_max_snoc. intros d Hd.
    apply filter_In in Hd. destruct Hd as [Hd Hunused].
    apply filter_In in Hd. destruct Hd as [Hd _].
    unfold MongoOTP.created_ltb. apply Hfresh; assumption. }
  pose proof (reset_password_unguarded (clock env2) email (generated_otp env1)
                new_password s1 G) as U.
  rewrite Hlatest in U.
  change (OTP.otp new) with (generated_otp env1) in U.
  rewrite String.eqb_refl, Hu1 in U.
  eexists s1, _, (with_new_password (clock env2) u new_password).
  split; [exact (forgot_password_issues env1 email s u Hu)|].
  split; [apply in_or_app; right; left; reflexivity|].
  split; [exact U|].
  split; [|split; [reflexivity | exact Hunverified]].
  cbn [users set_users set_otps].
  apply find_one_update_one_replace; [exact Hnd | exact Hu1 |].
  apply find_some in Hu. exact (proj2 Hu).
Qed.

(** ** Login *)

Lemma login_loop (clk : Clock) (user_id : ObjectId) (device_type : string)
    (sessions : list LoginSession.doc) (s : Store) :
  for_each sessions (views_mongo.logout_previous_session clk user_id device_type) s
  = (logged_out_all clk user_id device_type sessions s, inr tt).
Proof.
  revert s. induction sessions as [|x r IH]; intros s; [reflexivity|].
  cbn [for_each]. unfold bind.
  change (views_mongo.logout_previous_session clk user_id device_type x s)
    with (logged_out_one clk user_id device_type x s, @inr exn unit tt).
  apply IH.
Qed.

Section LoginCases.
Context `{PasswordHasher}.

(** What [login] answers. *)
Lemma login_cases clk email password device_type s :
  run (views_mongo.login clk email password device_type) s = (s, MissingCredentials)
  \/ run (views_mongo.login clk email password device_type) s = (s, InvalidCredentials)
  \/ run (views_mongo.login clk email password device_type) s = (s, EmailNotVerified)
  \/ exists email_ password_ u,
       email = Some email_ /\ password = Some password_
       /\ MongoUser.authenticate email_ password_ s = (s, inr (Some u))
       /\ User.is_verified u = true
       /\ run (views_mongo.login clk email password device_type) s
          = (logged_in clk (User._id u) device_type s, LoginSuccessful u).
Proof.
  destruct email as [email_|]; [|left; reflexivity].
  destruct password as [password_|]; [|left; reflexivity].
  unfold views_mongo.login.
  destruct (negb (truthy (Some email_)) || negb (truthy (Some password_)));
    [left; reflexivity|].
  unfold MongoUser.authenticate, MongoUser.get_by_email, MongoLoginSession.create_session,
    MongoUser.get_by_id.
  unfold_monad.
  destruct (find_one (fun d => (User.email d =? email_)%string) (users s)) as [u|] eqn:Hu;
    [|right; left; reflexivity].
  destruct (check_password password_ (User.password u)) eqn:Hpw;
    [|right; left; reflexivity].
  cbv beta iota.
  destruct (User.is_verified u) eqn:Hv; [|right; right; left; reflexivity].
  right; right; right. exists email_, password_, u.
  split; [reflexivity|]. split; [reflexivity|].
  split; [rewrite Hu, Hpw; reflexivity|].
  split; [exact Hv|].
  cbv beta iota. rewrite login_loop. reflexivity.
Qed.
End LoginCases.

Lemma run_bind (A : Type) (m : M A) (k : A -> M Response) (s : Store) :
  run (bind m k) s =
    match m s with
    | (s', inr a) => run (k a) s'
    | (s', inl e) => (s', ServerError e)
    end.
Proof. unfold run, bind. destruct (m s) as [s' [e|a]]; reflexivity. Qed.

(** *** The loop over the active sessions *)

Lemma logged_out_all_next_oid clk uid dev sessions s :
  next_oid (logged_out_all clk uid dev sessions s) = (next_oid s + List.length sessions)%nat.
Proof.
  revert s. induction sessions as [|x r IH]; intros s; simpl; [lia|].
  rewrite IH. simpl. lia.
Qed.

(** One logout session is appended for each session of the loop, all of
    them with the user, the device type and the clock of the request. *)
Lemma logged_out_all_logouts clk uid dev sessions s :
  logout_sessions (logged_out_all clk uid dev sessions s)
  = logout_sessions s
    ++ map (logout_doc clk uid dev) (seq (next_oid s) (List.length sessions)).
Proof.
  revert s. induction sessions as [|x r IH]; intros s; simpl.
  - rewrite app_nil_r. reflexivity.
  - rewrite IH. simpl. unfold insert_one. rewrite <- app_assoc. reflexivity.
Qed.

(** With unique ids, [update_one] on an id is a [map]. *)
Lemma update_one_by_id (D : Type) (id : D -> nat) (f : D -> D) (x : nat) (c : list D) :
  NoDup (map id c) ->
  update_one (fun d => Nat.eqb (id d) x) f c
  = map (fun d => if Nat.eqb (id d) x then f d else d) c.
Proof.
  induction c as [|d r IH]; simpl; intros Hnd; [reflexivity|].
  inversion Hnd as [|y l Hnotin Hnd']. subst.
  destruct (Nat.eqb_spec (id d) x) as [Heq|Hneq].
  - f_equal. rewrite <- (map_id r) at 1. apply map_ext_in. intros d' Hd'.
    destruct (Nat.eqb_spec (id d') x) as [Heq'|_]; [|reflexivity].
    exfalso. apply Hnotin. rewrite Heq, <- Heq'. apply in_map. exact Hd'.
  - f_equal. apply IH. exact Hnd'.
Qed.

Lemma deactivated_id d : LoginSession._id (deactivated d) = LoginSession._id d.
Proof. reflexivity. Qed.

Lemma logged_out_all_logins clk uid dev sessions s :
  NoDup (map LoginSession._id (login_sessions s)) ->
  login_sessions (logged_out_all clk uid dev sessions s)
  = map (fun d => if existsb (fun x => Nat.eqb (LoginSession._id d) (LoginSession._id x)) sessions
                  then deactivated d else d)
      (login_sessions s).
Proof.
  revert s. induction sessions as [|x r IH]; intros s Hnd; simpl.
  - symmetry. apply map_id.
  - rewrite IH.
    + simpl. rewrite (update_one_by_id _ LoginSession._id deactivated (LoginSession._id x))
        by exact Hnd.
      rewrite map_map. apply map_ext. intros d.
      destruct (Nat.eqb (LoginSession._id d) (LoginSession._id x)); simpl.
      * destruct (existsb _ r); reflexivity.
      * reflexivity.
    + simpl. rewrite (update_one_by_id _ LoginSession._id deactivated (LoginSession._id x))
        by exact Hnd.
      rewrite map_map.
      replace (map _ (login_sessions s)) with (map LoginSession._id (login_sessions s));
        [exact Hnd|].
      apply map_ext. intros d.
      destruct (Nat.eqb (LoginSession._id d) (LoginSession._id x)); reflexivity.
Qed.

(** A session of a store with unique ids is among the filtered ones exactly
    when the filter accepts it. *)
Lemma existsb_filter_by_id (p : LoginSession.doc -> bool) (c : list LoginSession.doc)
    (d : LoginSession.doc) :
  NoDup (map LoginSession._id c) -> In d c ->
  existsb (fun x => Nat.eqb (LoginSession._id d) (LoginSession._id x)) (filter p c) = p d.
Proof.
  intros Hnd Hd. destruct (p d) eqn:Hp.
  - apply existsb_exists. exists d. split; [|apply Nat.eqb_refl].
    apply filter_In. auto.
  - destruct (existsb _ (filter p c)) eqn:E; [exfalso|reflexivity].
    apply existsb_exists in E. destruct E as (x & Hx & Hid).
    apply filter_In in Hx. destruct Hx as [Hx Hpx]. apply Nat.eqb_eq in Hid.
    assert (x = d); [|congruence].
    clear Hp Hpx. induction c as [|y r IH]; [contradiction|].
    simpl in Hnd. inversion Hnd as [|z l Hnotin Hnd']. subst.
    destruct Hx as [<-|Hx], Hd as [<-|Hd]; auto.
    + exfalso. apply Hnotin. rewrite <- Hid. apply in_map. exact Hd.
    + exfalso. apply Hnotin. rewrite Hid. apply in_map. exact Hx.
Qed.

Lemma no_active_after_deactivation uid (c : list LoginSession.doc) :
  filter (active_for uid) (map (fun d => if active_for uid d then deactivated d else d) c) = [].
Proof.
  induction c as [|d r IH]; simpl; [reflexivity|].
  destruct (active_for uid d) eqn:Ha.
  - unfold active_for at 1. simpl. rewrite andb_false_r. exact IH.
  - rewrite Ha. exact IH.
Qed.

Lemma login_accepted `{PasswordHasher} (clk : Clock) (email password device_type : string)
    (s : Store) (u : User.doc) :
  email <> "" -> password <> "" ->
  MongoUser.authenticate email password s = (s, inr (Some u)) ->
  User.is_verified u = true ->
  run (views_mongo.login clk (Some email) (Some password) device_type) s
    = (logged_in clk (User._id u) device_type s, LoginSuccessful u).
Proof.
  intros Hemail Hpassword Hauth Hverified. unfold views_mongo.login.
  replace (negb (truthy (Some email)) || negb (truthy (Some password))) with false.
  - rewrite run_bind, Hauth, Hverified.
    rewrite run_bind. unfold gets at 1. rewrite run_bind, login_loop. reflexivity.
  - simpl. destruct (String.eqb_spec email ""); [contradiction|].
    destruct (String.eqb_spec password ""); [contradiction|]. reflexivity.
Qed.

(** C7 as stated fails on the device of the logout record: Alice, logged
    in from the web, logs in from a mobile; her web session is the one that
    is deactivated, and no logout session for the web device is recorded. *)
Lemma logout_session_carries_new_device :
  let s2 := fst (handle (H := plain_hasher) (at_time 60 "2024-01-01")
                   (Login alice (Some "pw1") "mobile") alice_logged_in) in
  map LoginSession.device_type
    (filter (active_for (User._id alice_doc)) (login_sessions alice_logged_in)) = ["web"]
  /\ snd (handle (H := plain_hasher) (at_time 60 "2024-01-01")
            (Login alice (Some "pw1") "mobile") alice_logged_in) = LoginSuccessful alice_doc
  /\ ~ (exists lo, In lo (logout_sessions s2) /\ LogoutSession.device_type lo = "web").
Proof.
  split; [reflexivity|]. split; [reflexivity|].
  intros (lo & Hin & Hdev). vm_compute in Hin.
  destruct Hin as [<-|[]]. discriminate Hdev.
Qed.

(** C7, amended.  An accepted login deactivates every active session of
    the user and appends one LogoutSession for each of them, stamped with
    the user, the current time and the device type of the new login
    request; then it inserts the new session, which is the user's active
    session afterwards. *)
Theorem login_logs_out_active_sessions `{PasswordHasher} (clk : Clock)
    (email password device_type : string) (s : Store) (u : User.doc) :
  email <> "" -> password <> "" ->
  MongoUser.authenticate email password s = (s, inr (Some u)) ->
  User.is_verified u = true ->
  NoDup (map LoginSession._id (login_sessions s)) ->
  exists s' new,
    run (views_mongo.login clk (Some email) (Some password) device_type) s
      = (s', LoginSuccessful u)
    /\ login_sessions s'
       = map (fun d => if active_for (User._id u) d then deactivated d else d)
           (login_sessions s) ++ [new]
    /\ LoginSession.user_id new = User._id u
    /\ LoginSession.device_type new = device_type
    /\ LoginSession.is_active new = true
    /\ MongoLoginSession.get_active_session (User._id u) s' = (s', inr (Some new))
    /\ logout_sessions s'
       = logout_sessions s
         ++ map (logout_doc clk (User._id u) device_type)
              (seq (next_oid s)
                 (List.length (filter (active_for (User._id u)) (login_sessions s)))).
Proof.
  intros Hemail Hpassword Hauth Hverified Hnd.
  set (uid := User._id u).
  set (s1 := logged_out_all clk uid device_type
               (filter (active_for uid) (login_sessions s)) s).
  exists (logged_in clk uid device_type s), (login_doc clk uid device_type s1).
  assert (Hlogins : login_sessions (logged_in clk uid device_type s)
                    = map (fun d => if active_for uid d then deactivated d else d)
                        (login_sessions s) ++ [login_doc clk uid device_type s1]).
  { change (login_sessions (logged_in clk uid device_type s))
      with (login_sessions s1 ++ [login_doc clk uid device_type s1]).
    f_equal. unfold s1. rewrite logged_out_all_logins by exact Hnd.
    apply map_ext_in. intros d Hd.
    rewrite (existsb_filter_by_id (active_for uid) (login_sessions s) d Hnd Hd).
    reflexivity. }
  split.
  - apply login_accepted; assumption.
  - split; [exact Hlogins|]. split; [reflexivity|]. split; [reflexivity|].
    split; [reflexivity|]. split.
    + unfold MongoLoginSession.get_active_session, gets. f_equal. f_equal. f_equal.
      rewrite Hlogins. unfold find_one_desc.
      rewrite (filter_ext _ (active_for uid) (fun d => eq_refl)).
      rewrite filter_app, no_active_after_deactivation. simpl.
      unfold active_for. simpl. rewrite Nat.eqb_refl. reflexivity.
    + change (logout_sessions (logged_in clk uid device_type s)) with (logout_sessions s1).
      unfold s1. apply logged_out_all_logouts.
Qed.

Lemma login_logs_out_active_sessions_witness :
  exists s' new,
    run (views_mongo.login (H := plain_hasher) (clock (at_time 60 "2024-01-01"))
           alice (Some "pw1") "mobile") alice_logged_in = (s', LoginSuccessful alice_doc)
    /\ MongoLoginSession.get_active_session (User._id alice_doc) s' = (s', inr (Some new))
    /\ LoginSession.device_type new = "mobile"
    /\ map LogoutSession.device_type (logout_sessions s') = ["mobile"].
Proof.
  destruct (@login_logs_out_active_sessions plain_hasher (clock (at_time 60 "2024-01-01"))
              "a@x.com" "pw1" "mobile" alice_logged_in alice_doc)
    as (s' & new & E & _ & _ & Hdev & _ & Hactive & Hlogouts).
  - discriminate.
  - discriminate.
  - reflexivity.
  - reflexivity.
  - vm_compute. constructor; [intros []|constructor].
  - exists s', new. split; [exact E|]. split; [exact Hactive|]. split; [exact Hdev|].
    rewrite Hlogouts. reflexivity.
Defined.

(** ** Rejected requests and the store *)

Section Rejections.
Context `{PasswordHasher}.










End Rejections.



(** ... and an accepted signup code whose user row is missing is consumed
    by the rejected verification. *)
Lemma rejected_verification_deletes_otp :
  let s := set_users (fun _ => []) bob_signed_up in
  run (views_mongo.verify_otp (clock (at_time 20 "2024-01-01")) "b@x.com" "123456") s
  = (set_otps (fun _ => []) s, UserNotFound).
Proof. reflexivity. Qed.



(** ** Consistency of the stores the handlers build *)

Section MembershipFacts.
Variable D : Type.
Implicit Types (p : D -> bool) (f : D -> D) (c : list D).

Lemma In_delete_one p c d : In d (delete_one p c) -> In d c.
Proof.
  induction c as [|x r IH]; simpl; [tauto|].
  destruct (p x); simpl; intuition.
Qed.

Lemma In_delete_many p c d : In d (delete_many p c) -> In d c.
Proof. unfold delete_many. intros Hin. apply filter_In in Hin. tauto. Qed.

Lemma In_update_one p f c d :
  In d (update_one p f c) -> In d c \/ exists d0, In d0 c /\ p d0 = true /\ d = f d0.
Proof.
  induction c as [|x r IH]; simpl; [tauto|].
  destruct (p x) eqn:Hp; simpl.
  - intros [<-|Hin]; [right; exists x; auto | auto].
  - intros [<-|Hin]; [auto|].
    destruct (IH Hin) as [?|(d0 & ? & ? & ?)]; [auto | right; exists d0; auto].
Qed.

Lemma In_update_many p f c d :
  In d (update_many p f c) -> In d c \/ exists d0, In d0 c /\ p d0 = true /\ d = f d0.
Proof.
  unfold update_many. intros Hin. apply in_map_iff in Hin.
  destruct Hin as (d0 & Hd & Hin). destruct (p d0) eqn:Hp.
  - right. exists d0. auto.
  - left. subst. exact Hin.
Qed.
End MembershipFacts.

Section IdFacts.
Variables (D : Type) (id : D -> nat).
Implicit Types (p : D -> bool) (f : D -> D) (c : list D).

Lemma NoDup_ids_delete_many p c :
  NoDup (map id c) -> NoDup (map id (delete_many p c)).
Proof.
  unfold delete_many. induction c as [|x r IH]; simpl; intros Hnd; [constructor|].
  inversion Hnd as [|y l Hnotin Hnd']. subst.
  destruct (negb (p x)); simpl; [|auto].
  constructor; [|auto]. intros Hin. apply Hnotin.
  apply in_map_iff in Hin. destruct Hin as (d & Hd & Hin).
  apply filter_In in Hin. rewrite <- Hd. apply in_map. tauto.
Qed.

Lemma NoDup_ids_delete_one p c :
  NoDup (map id c) -> NoDup (map id (delete_one p c)).
Proof.
  induction c as [|x r IH]; simpl; intros Hnd; [constructor|].
  inversion Hnd as [|y l Hnotin Hnd']. subst.
  destruct (p x); simpl; [assumption|].
  constructor; [|auto]. intros Hin. apply Hnotin.
  apply in_map_iff in Hin. destruct Hin as (d & Hd & Hin).
  rewrite <- Hd. apply in_map. eapply In_delete_one. eassumption.
Qed.

Lemma ids_update_one p f c :
  (forall d, p d = true -> id (f d) = id d) ->
  map id (update_one p f c) = map id c.
Proof.
  intros Hf. induction c as [|x r IH]; simpl; [reflexivity|].
  destruct (p x) eqn:Hp; simpl; [rewrite (Hf x Hp); reflexivity | f_equal; exact IH].
Qed.

Lemma ids_update_many p f c :
  (forall d, p d = true -> id (f d) = id d) ->
  map id (update_many p f c) = map id c.
Proof.
  intros Hf. unfold update_many. rewrite map_map. apply map_ext. intros d.
  destruct (p d) eqn:Hp; [apply Hf, Hp | reflexivity].
Qed.

Lemma unique_by_id c d d' :
  NoDup (map id c) -> In d c -> In d' c -> id d = id d' -> d = d'.
Proof.
  induction c as [|x r IH]; simpl; intros Hnd Hd Hd' Hid; [contradiction|].
  inversion Hnd as [|y l Hnotin Hnd']. subst.
  destruct Hd as [<-|Hd], Hd' as [<-|Hd']; auto.
  - exfalso. apply Hnotin. rewrite Hid. apply in_map. exact Hd'.
  - exfalso. apply Hnotin. rewrite <- Hid. apply in_map. exact Hd.
Qed.
End IdFacts.

Section Consistent.
Variable T : Z.

(** A step that leaves users, login sessions and OTPs alone. *)
Lemma consistent_frame s s' :
  consistent T s ->
  users s' = users s -> login_sessions s' = login_sessions s -> otps s' = otps s ->
  (next_oid s <= next_oid s')%nat ->
  consistent T s'.
Proof.
  intros [U1 U2 L1 L2 L3 O] Eu El Eo Hn.
  constructor; rewrite ?Eu, ?El, ?Eo; auto.
  - intros u Hu. specialize (U2 u Hu). lia.
  - intros l Hl. specialize (L2 l Hl). lia.
Qed.

Lemma consistent_bump s : consistent T s -> consistent T (bump_oid s).
Proof. intros C. apply (consistent_frame s); auto. simpl. lia. Qed.

Lemma consistent_set_logout_sessions f s :
  consistent T s -> consistent T (set_logout_sessions f s).
Proof. intros C. apply (consistent_frame s); auto. Qed.

Lemma consistent_set_punched_in f s : consistent T s -> consistent T (set_punched_in f s).
Proof. intros C. apply (consistent_frame s); auto. Qed.

Lemma consistent_set_punched_out f s : consistent T s -> consistent T (set_punched_out f s).
Proof. intros C. apply (consistent_frame s); auto. Qed.

Lemma consistent_set_attendance f s : consistent T s -> consistent T (set_attendance f s).
Proof. intros C. apply (consistent_frame s); auto. Qed.

Lemma consistent_otps f s :
  consistent T s ->
  (forall o, In o (f (otps s)) ->
             In o (otps s) \/ opt_ltb (OTP.created_at o) (Some T) = true) ->
  consistent T (set_otps f s).
Proof.
  intros [U1 U2 L1 L2 L3 O] Hf. constructor; auto.
  intros o Ho. simpl in Ho. destruct (Hf o Ho); auto.
Qed.

Lemma consistent_otps_delete_many q s :
  consistent T s -> consistent T (set_otps (delete_many q) s).
Proof.
  intros C. apply consistent_otps; [exact C|]. intros o Ho. left.
  eapply In_delete_many. eassumption.
Qed.

Lemma consistent_otps_delete_one q s :
  consistent T s -> consistent T (set_otps (delete_one q) s).
Proof.
  intros C. apply consistent_otps; [exact C|]. intros o Ho. left.
  eapply In_delete_one. eassumption.
Qed.

Lemma consistent_otps_insert o s :
  opt_ltb (OTP.created_at o) (Some T) = true ->
  consistent T s -> consistent T (set_otps (insert_one o) s).
Proof.
  intros Ho C. apply consistent_otps; [exact C|]. intros o' Hin.
  apply in_app_or in Hin. destruct Hin as [Hin|[<-|[]]]; auto.
Qed.

(** Deleting user rows. *)
Lemma consistent_users_sub f s :
  consistent T s ->
  NoDup (map User._id (f (users s))) ->
  (forall u, In u (f (users s)) -> In u (users s)) ->
  consistent T (set_users f s).
Proof.
  intros [U1 U2 L1 L2 L3 O] Hnd Hsub. constructor; simpl; auto.
  intros l u Hl Hu. apply L3; auto.
Qed.

Lemma consistent_users_delete_many q s :
  consistent T s -> consistent T (set_users (delete_many q) s).
Proof.
  intros C. apply consistent_users_sub; [exact C | |].
  - apply NoDup_ids_delete_many, C.
  - intros u. apply In_delete_many.
Qed.

Lemma consistent_users_delete_one q s :
  consistent T s -> consistent T (set_users (delete_one q) s).
Proof.
  intros C. apply consistent_users_sub; [exact C | |].
  - apply NoDup_ids_delete_one, C.
  - intros u. apply In_delete_one.
Qed.

(** Inserting a user row under a fresh id. *)
Lemma consistent_user_insert u s :
  User._id u = next_oid s ->
  consistent T s -> consistent T (set_users (insert_one u) (bump_oid s)).
Proof.
  intros Hid [U1 U2 L1 L2 L3 O]. constructor; simpl; auto.
  - unfold insert_one. rewrite map_app. simpl.
    apply NoDup_app; [exact U1 | constructor; [intros []|constructor] |].
    intros x Hx [<-|[]]. apply in_map_iff in Hx. destruct Hx as (u' & Hu' & Hin).
    specialize (U2 u' Hin). lia.
  - intros u' Hin. apply in_app_or in Hin. destruct Hin as [Hin|[<-|[]]].
    + specialize (U2 u' Hin). lia.
    + lia.
  - intros l Hl. specialize (L2 l Hl). lia.
  - intros l u' Hl Hin. apply in_app_or in Hin. destruct Hin as [Hin|[<-|[]]]; [eauto|].
    intros E. specialize (L2 l Hl). lia.
Qed.

(** Saving a user row that keeps its id and does not lose its
    verification. *)
Lemma consistent_user_update u data s :
  In u (users s) ->
  User._id data = User._id u ->
  (User.is_verified u = true -> User.is_verified data = true) ->
  consistent T s ->
  consistent T (set_users (update_one (fun d => Nat.eqb (User._id d) (User._id u))
                             (fun _ => data)) s).
Proof.
  intros Hu Hid Hv [U1 U2 L1 L2 L3 O].
  assert (Hids : map User._id (update_one (fun d => Nat.eqb (User._id d) (User._id u))
                                 (fun _ => data) (users s)) = map User._id (users s)).
  { apply ids_update_one. intros d Hd. apply Nat.eqb_eq in Hd. congruence. }
  constructor; simpl; auto.
  - rewrite Hids. exact U1.
  - intros u' Hin. apply (in_map User._id) in Hin. rewrite Hids in Hin.
    apply in_map_iff in Hin. destruct Hin as (u0 & E & Hin0). rewrite <- E. auto.
  - intros l u' Hl Hin E. apply In_update_one in Hin.
    destruct Hin as [Hin|(d0 & Hd0 & _ & ->)]; [eauto|].
    apply Hv. apply (L3 l u Hl Hu). congruence.
Qed.

(** Rewriting login sessions in place. *)
Lemma consistent_logins_rewrite g s :
  map LoginSession._id (g (login_sessions s)) = map LoginSession._id (login_sessions s) ->
  (forall l, In l (g (login_sessions s)) ->
             exists l0, In l0 (login_sessions s)
                        /\ LoginSession._id l = LoginSession._id l0
                        /\ LoginSession.user_id l = LoginSession.user_id l0) ->
  consistent T s -> consistent T (set_login_sessions g s).
Proof.
  intros Hids Hg [U1 U2 L1 L2 L3 O]. constructor; simpl; auto.
  - rewrite Hids. exact L1.
  - intros l Hl. destruct (Hg l Hl) as (l0 & Hl0 & -> & ->). auto.
  - intros l u Hl Hu E. destruct (Hg l Hl) as (l0 & Hl0 & _ & E0).
    apply (L3 l0 u Hl0 Hu). congruence.
Qed.

Lemma consistent_logins_update_one q s :
  consistent T s ->
  consistent T (set_login_sessions (update_one q deactivated) s).
Proof.
  apply consistent_logins_rewrite.
  - apply ids_update_one. reflexivity.
  - intros l Hl. apply In_update_one in Hl.
    destruct Hl as [Hl|(l0 & Hl0 & _ & ->)]; [exists l | exists l0]; auto.
Qed.

Lemma consistent_logins_update_many q s :
  consistent T s ->
  consistent T (set_login_sessions (update_many q deactivated) s).
Proof.
  apply consistent_logins_rewrite.
  - apply ids_update_many. reflexivity.
  - intros l Hl. apply In_update_many in Hl.
    destruct Hl as [Hl|(l0 & Hl0 & _ & ->)]; [exists l | exists l0]; auto.
Qed.

(** Inserting a login session of a verified user under a fresh id. *)
Lemma consistent_login_insert l u s :
  LoginSession._id l = next_oid s ->
  In u (users s) -> User._id u = LoginSession.user_id l -> User.is_verified u = true ->
  consistent T s -> consistent T (set_login_sessions (insert_one l) (bump_oid s)).
Proof.
  intros Hid Hu Huid Hv [U1 U2 L1 L2 L3 O]. constructor; simpl; auto.
  - intros u' Hin. specialize (U2 u' Hin). lia.
  - unfold insert_one. rewrite map_app. simpl.
    apply NoDup_app; [exact L1 | constructor; [intros []|constructor] |].
    intros x Hx [<-|[]]. apply in_map_iff in Hx. destruct Hx as (l' & Hl' & Hin).
    destruct (L2 l' Hin). lia.
  - intros l' Hin. apply in_app_or in Hin. destruct Hin as [Hin|[<-|[]]].
    + destruct (L2 l' Hin). lia.
    + specialize (U2 u Hu). lia.
  - intros l' u' Hin Hu' E. apply in_app_or in Hin. destruct Hin as [Hin|[<-|[]]]; [eauto|].
    assert (u' = u); [|congruence].
    apply (unique_by_id _ User._id (users s)); auto. congruence.
Qed.

Lemma consistent_logged_out_all clk uid dev sessions s :
  consistent T s -> consistent T (logged_out_all clk uid dev sessions s).
Proof.
  revert s. induction sessions as [|x r IH]; intros s C; simpl; [exact C|].
  apply IH. unfold logged_out_one.
  apply consistent_set_logout_sessions, consistent_bump, consistent_logins_update_one, C.
Qed.

Lemma logged_out_all_users clk uid dev sessions s :
  users (logged_out_all clk uid dev sessions s) = users s.
Proof.
  revert s. induction sessions as [|x r IH]; intros s; simpl; [reflexivity|].
  rewrite IH. reflexivity.
Qed.
End Consistent.

(** Peel the outermost write off the store of a [consistent] goal. *)
Ltac consistent_step :=
  lazymatch goal with
  | |- consistent _ (set_punched_in _ _) => apply consistent_set_punched_in
  | |- consistent _ (set_punched_out _ _) => apply consistent_set_punched_out
  | |- consistent _ (set_attendance _ _) => apply consistent_set_attendance
  | |- consistent _ (set_logout_sessions _ _) => apply consistent_set_logout_sessions
  | |- consistent _ (bump_oid _) => apply consistent_bump
  | |- consistent _ (set_otps (delete_many _) _) => apply consistent_otps_delete_many
  | |- consistent _ (set_otps (delete_one _) _) => apply consistent_otps_delete_one
  | |- consistent _ (set_otps (insert_one _) _) =>
      apply consistent_otps_insert; [apply Z.ltb_lt; assumption|]
  | |- consistent _ (set_users (delete_many _) _) => apply consistent_users_delete_many
  | |- consistent _ (set_users (delete_one _) _) => apply consistent_users_delete_one
  | |- consistent _ (set_users (insert_one _) (bump_oid _)) =>
      apply consistent_user_insert; [reflexivity|]
  | |- consistent _ (set_login_sessions (update_many _ _) _) =>
      apply consistent_logins_update_many
  end.

Section HandlersConsistent.
Context `{PasswordHasher}.
Variables (T : Z) (clk : Clock).
Hypothesis clock_before : get_ist_time clk < T.

Lemma signup_consistent code n e p s :
  consistent T s -> consistent T (fst (run (views_mongo.signup clk code n e p) s)).
Proof.
  intros C.
  unfold views_mongo.signup, MongoUser.create_user, MongoUser.cleanup_unverified_users,
    MongoOTP.cleanup_otps_for_email, MongoOTP.create_otp, MongoOTP.cleanup_expired_otps.
  unfold_monad.
  destruct (truthy (Some e)); cbv beta iota;
    (destruct (find_one _ _) as [ex|]; cbv beta iota;
     [ destruct (User.is_verified ex); cbv beta iota;
       [ | destruct (User.created_at ex) as [c|]; cbv beta iota;
           [ destruct (get_ist_time clk - c <? seconds 600); cbv beta iota | ] ]
     | ]);
    cbn [fst]; repeat consistent_step; exact C.
Qed.

Lemma verify_otp_consistent e c s :
  consistent T s -> consistent T (fst (run (views_mongo.verify_otp clk e c) s)).
Proof.
  intros C.
  unfold views_mongo.verify_otp, MongoOTP.get_latest_unused, MongoOTP.delete,
    MongoUser.get_by_email, MongoUser.verify_email, MongoUser.save.
  unfold_monad.
  destruct (find_one_desc _ _ (otps s)) as [o|]; cbv beta iota; [|exact C].
  destruct (negb (OTP.otp o =? c)%string); cbv beta iota; [exact C|].
  destruct (negb (MongoOTP.is_valid clk o)); cbv beta iota; [exact C|].
  cbn [users set_otps].
  destruct (find_one _ (users s)) as [u|] eqn:Hu; cbv beta iota; cbn [fst].
  - apply find_some in Hu. destruct Hu as [Hu _].
    apply (consistent_user_update T u); [exact Hu | reflexivity | reflexivity |].
    consistent_step. exact C.
  - consistent_step. exact C.
Qed.

Lemma authenticate_found e p s s' u :
  MongoUser.authenticate e p s = (s', inr (Some u)) -> In u (users s).
Proof.
  unfold MongoUser.authenticate, MongoUser.get_by_email. unfold_monad.
  destruct (find_one _ (users s)) as [u0|] eqn:Hu; [|discriminate].
  destruct (check_password p (User.password u0)); [|discriminate].
  intros E. inversion E. subst. apply find_some in Hu. tauto.
Qed.

Lemma login_consistent e p dev s :
  consistent T s -> consistent T (fst (run (views_mongo.login clk e p dev) s)).
Proof.
  intros C.
  destruct (login_cases clk e p dev s)
    as [E|[E|[E|(e' & p' & u & _ & _ & Hauth & Hv & E)]]]; rewrite E; try exact C.
  cbn [fst]. unfold logged_in.
  apply (consistent_login_insert T _ u); [reflexivity | | reflexivity | exact Hv |].
  - rewrite logged_out_all_users. eapply authenticate_found. exact Hauth.
  - apply consistent_logged_out_all, C.
Qed.

Lemma forgot_password_consistent code e s :
  consistent T s -> consistent T (fst (run (views_mongo.forgot_password clk code e) s)).
Proof.
  intros C.
  unfold views_mongo.forgot_password, MongoUser.get_by_email, MongoOTP.create_otp,
    MongoOTP.cleanup_expired_otps.
  unfold_monad.
  destruct (find_one _ (users s)); cbv beta iota; cbn [fst]; [|exact C].
  repeat consistent_step. exact C.
Qed.

Lemma reset_password_consistent e c p s :
  consistent T s -> consistent T (fst (run (views_mongo.reset_password clk e c p) s)).
Proof.
  intros C. destruct (session_invalidated e s) eqn:G.
  - rewrite (reset_password_guarded clk e c p s G). exact C.
  - pose proof (reset_password_unguarded clk e c p s G) as U.
    destruct (find_one_desc _ _ (otps s)) as [o|]; [|rewrite U; exact C].
    destruct (OTP.otp o =? c)%string; [|rewrite U; exact C].
    destruct (find_one _ (users s)) as [u|] eqn:Hu; rewrite U; cbn [fst].
    + apply find_some in Hu. destruct Hu as [Hu _].
      apply (consistent_user_update T u); [exact Hu | reflexivity | auto |].
      consistent_step. exact C.
    + consistent_step. exact C.
Qed.

Lemma punch_in_consistent ru loc lat lon s :
  consistent T s -> consistent T (fst (run (views_mongo.punch_in clk ru loc lat lon) s)).
Proof.
  intros C. destruct ru as [email|]; [|exact C].
  destruct (find_one (fun d => (User.email d =? email)%string) (users s)) as [u|] eqn:Hu.
  - destruct (punch_in_cases clk email loc lat lon s _ Hu)
      as [[_ ->]|[(_ & _ & ->)|(_ & _ & d & -> & _)]]; try exact C.
    cbn [fst]. repeat consistent_step. exact C.
  - unfold views_mongo.punch_in, MongoUser.get_by_email. unfold_monad.
    rewrite Hu. exact C.
Qed.

Lemma punch_out_consistent ru loc lat lon s :
  consistent T s -> consistent T (fst (run (views_mongo.punch_out clk ru loc lat lon) s)).
Proof.
  intros C. destruct ru as [email|]; [|exact C].
  unfold views_mongo.punch_out, MongoUser.get_by_email,
    MongoLoginSession.get_active_session, MongoAttendance.punch_out.
  unfold_monad.
  destruct (find_one (fun d => (User.email d =? email)%string) (users s)) as [u|];
    [|exact C].
  destruct (find_one_desc _ _ (login_sessions s)); [|exact C].
  destruct (find_one (fun d => Nat.eqb (PunchedIn.user_id d) (User._id u)) (punched_in s))
    eqn:Eptr; cbv beta iota zeta; [|exact C].
  rewrite Eptr. cbn [fst]. repeat consistent_step. exact C.
Qed.

Lemma logout_consistent ru dev s :
  consistent T s -> consistent T (fst (run (views_mongo.logout clk ru dev) s)).
Proof.
  intros C. destruct ru as [email|]; [|exact C].
  unfold views_mongo.logout, views_mongo.get_user_id_from_request, MongoUser.get_by_email,
    MongoLogoutSession.create_session.
  unfold_monad.
  destruct (find_one _ (users s)); cbv beta iota; cbn [fst]; [|exact C].
  change (fun d : LoginSession.doc =>
            {| LoginSession._id := LoginSession._id d;
               LoginSession.user_id := LoginSession.user_id d;
               LoginSession.username := LoginSession.username d;
               LoginSession.device_type := LoginSession.device_type d;
               LoginSession.login_time := LoginSession.login_time d;
               LoginSession.is_active := false |}) with deactivated.
  repeat consistent_step. exact C.
Qed.
End HandlersConsistent.

Lemma handle_consistent `{PasswordHasher} (T : Z) (env : Env) (req : Request) (s : Store) :
  get_ist_time (clock env) < T ->
  consistent T s -> consistent T (fst (handle env req s)).
Proof.
  intros Hclk C. unfold handle. destruct req; simpl.
  - apply signup_consistent; assumption.
  - apply verify_otp_consistent; assumption.
  - apply login_consistent; assumption.
  - apply forgot_password_consistent; assumption.
  - apply reset_password_consistent; assumption.
  - apply punch_in_consistent; assumption.
  - apply punch_out_consistent; assumption.
  - apply logout_consistent; assumption.
Qed.

Lemma empty_store_consistent (T : Z) : consistent T empty_store.
Proof. constructor; simpl; try constructor; intros; contradiction. Qed.

(** Every store reached from the empty one by requests served before [T]
    is consistent. *)
Lemma reachable_consistent `{PasswordHasher} (T : Z) (trace : list (Env * Request)) :
  Forall (fun step => get_ist_time (clock (fst step)) < T) trace ->
  consistent T (handle_all trace empty_store).
Proof.
  generalize (empty_store_consistent T). generalize empty_store.
  induction trace as [|[env req] rest IH]; intros s C Hall; simpl; [exact C|].
  inversion Hall as [|x l Hx Hrest]. subst.
  apply IH; [|exact Hrest]. apply handle_consistent; assumption.
Qed.

(** In a consistent store an unverified user has no login session. *)
Lemma unverified_user_never_logged_in (T : Z) (s : Store) (u : User.doc) :
  consistent T s -> In u (users s) -> User.is_verified u = false ->
  filter (fun d => Nat.eqb (LoginSession.user_id d) (User._id u)) (login_sessions s) = [].
Proof.
  intros C Hu Hunverified.
  destruct (filter _ (login_sessions s)) as [|l r] eqn:E; [reflexivity|exfalso].
  assert (Hl : In l (filter (fun d => Nat.eqb (LoginSession.user_id d) (User._id u))
                       (login_sessions s))) by (rewrite E; left; reflexivity).
  apply filter_In in Hl. destruct Hl as [Hl Hid]. apply Nat.eqb_eq in Hid.
  pose proof (@logins_verified _ _ C l u Hl Hu (eq_sym Hid)) as Hv. congruence.
Qed.

(** C10.  Neither [forgot_password] nor [reset_password] looks at
    [is_verified]: in every store that earlier requests have built from the
    empty one, an existing, unverified user who asks for a reset code is
    sent one, and submitting the code just issued, at any later reading of
    the clock, is answered "Password reset successfully" and stores the
    hash of the new password; the user is still unverified. *)
Theorem unverified_user_resets_password `{PasswordHasher} (trace : list (Env * Request))
    (env1 env2 : Env) (email new_password : string) (u : User.doc) :
  Forall (fun step => utcnow (clock (fst step)) < utcnow (clock env1)) trace ->
  find_one (fun d => (User.email d =? email)%string) (users (handle_all trace empty_store))
    = Some u ->
  User.is_verified u = false ->
  exists s1 s2 u2,
    handle env1 (ForgotPassword email) (handle_all trace empty_store) = (s1, OTPSent)
    /\ In (issued_otp env1 email forgot_password_purpose (handle_all trace empty_store))
         (otps s1)
    /\ handle env2 (ResetPassword email (generated_otp env1) new_password) s1
       = (s2, PasswordReset)
    /\ find_one (fun d => (User.email d =? email)%string) (users s2) = Some u2
    /\ User.password u2 = make_password new_password
    /\ User.is_verified u2 = false.
Proof.
  intros Hearlier Hu Hunverified.
  assert (C : consistent (get_ist_time (clock env1)) (handle_all trace empty_store)).
  { apply reachable_consistent. eapply Forall_impl; [|exact Hearlier].
    intros step Hlt. unfold get_ist_time. simpl in Hlt. lia. }
  apply (@reset_without_verification _ env1 env2 email new_password
           (handle_all trace empty_store) u).
  - exact Hu.
  - exact Hunverified.
  - exact (@users_unique _ _ C).
  - apply (unverified_user_never_logged_in _ _ _ C); [|exact Hunverified].
    apply find_some in Hu. tauto.
  - intros d Hd _. exact (@otps_before _ _ C d Hd).
Qed.

Lemma unverified_user_resets_password_witness :
  exists s1 s2 u2,
    handle (H := plain_hasher) (at_time 100 "2024-01-01") (ForgotPassword "b@x.com")
      bob_signed_up = (s1, OTPSent)
    /\ handle (H := plain_hasher) (at_time 200 "2024-01-01")
         (ResetPassword "b@x.com" "123456" "pw2") s1 = (s2, PasswordReset)
    /\ users s2 = [u2]
    /\ User.password u2 = "h:pw2"
    /\ User.is_verified u2 = false.
Proof.
  destruct (@unverified_user_resets_password plain_hasher
              [(at_time 0 "2024-01-01", Signup "bob" "b@x.com" "pw1")]
              (at_time 100 "2024-01-01") (at_time 200 "2024-01-01") "b@x.com" "pw2"
              {| User._id := 0%nat; User.username := "bob"; User.email := "b@x.com";
                 User.password := "h:pw1"; User.is_verified := false;
                 User.role := "employee";
                 User.created_at := Some (get_ist_time (clock (at_time 0 "2024-01-01")));
                 User.updated_at := get_ist_time (clock (at_time 0 "2024-01-01")) |})
    as (s1 & s2 & u2 & E1 & _ & E2 & Eu & Ep & Ev).
  - constructor; [reflexivity | constructor].
  - reflexivity.
  - reflexivity.
  - exists s1, s2, u2. split; [exact E1|]. split; [exact E2|].
    split; [|split; [exact Ep | exact Ev]].
    vm_compute in E1. inversion E1. subst s1. clear E1.
    vm_compute in E2. inversion E2. subst s2. clear E2.
    vm_compute in Eu. inversion Eu. reflexivity.
Defined.

(** A login on a store that earlier requests have built meets the
    uniqueness of session ids that the loop of [login] relies on. *)
Lemma reachable_login_sessions_unique `{PasswordHasher} (trace : list (Env * Request)) :
  NoDup (map LoginSession._id (login_sessions (handle_all trace empty_store))).
Proof.
  set (T := fold_right (fun step acc => Z.max (get_ist_time (clock (fst step)) + 1) acc)
              0 trace).
  apply (@logins_unique T), reachable_consistent.
  unfold T. clear T. induction trace as [|step rest IH]; constructor.
  - cbn [fold_right]. lia.
  - eapply Forall_impl; [|exact IH]. intros a Ha. cbn [fold_right]. cbn beta in Ha. lia.
Qed.

(** ** More on collections *)

Section MoreCollectionFacts.
Variable D : Type.
Implicit Types (p q : D -> bool) (f : D -> D) (c : list D).

Lemma find_one_desc_none p (ltb : D -> D -> bool) c :
  find_one_desc p ltb c = None <-> existsb p c = false.
Proof.
  unfold find_one_desc. rewrite first_max_none. split.
  - intros E. destruct (existsb p c) eqn:X; [exfalso|reflexivity].
    apply existsb_exists in X. destruct X as (d & Hd & Hp).
    assert (Hin : In d (filter p c)) by (apply filter_In; auto).
    rewrite E in Hin. exact Hin.
  - intros X. apply find_one_none_filter. apply find_one_none_existsb. exact X.
Qed.

Lemma find_one_desc_some p (ltb : D -> D -> bool) c d :
  find_one_desc p ltb c = Some d -> In d c /\ p d = true.
Proof.
  unfold find_one_desc. intros E. apply first_max_in in E. apply filter_In in E. exact E.
Qed.

(** [delete_one] removes the first match: the matches lose their head. *)
Lemma filter_delete_one_same p c : filter p (delete_one p c) = tl (filter p c).
Proof.
  induction c as [|d r IH]; simpl; [reflexivity|].
  destruct (p d) eqn:Hp; simpl; [reflexivity|]. rewrite Hp. exact IH.
Qed.

Lemma filter_delete_one_other p q c :
  (forall d, p d = true -> q d = false) ->
  filter q (delete_one p c) = filter q c.
Proof.
  intros Hpq. induction c as [|d r IH]; simpl; [reflexivity|].
  destruct (p d) eqn:Hp; simpl.
  - rewrite (Hpq d Hp). reflexivity.
  - rewrite IH. reflexivity.
Qed.

Lemma filter_update_one_same p f c :
  (forall d, p d = true -> p (f d) = false) ->
  filter p (update_one p f c) = tl (filter p c).
Proof.
  intros Hf. induction c as [|d r IH]; simpl; [reflexivity|].
  destruct (p d) eqn:Hp; simpl.
  - rewrite (Hf d Hp). reflexivity.
  - rewrite Hp. exact IH.
Qed.

Lemma filter_update_one_other p q f c :
  (forall d, p d = true -> q d = false /\ q (f d) = false) ->
  filter q (update_one p f c) = filter q c.
Proof.
  intros Hpq. induction c as [|d r IH]; simpl; [reflexivity|].
  destruct (p d) eqn:Hp; simpl.
  - destruct (Hpq d Hp) as [-> ->]. reflexivity.
  - rewrite IH. reflexivity.
Qed.

Lemma filter_update_many_other p q f c :
  (forall d, p d = true -> q d = false /\ q (f d) = false) ->
  filter q (update_many p f c) = filter q c.
Proof.
  intros Hpq. unfold update_many. induction c as [|d r IH]; simpl; [reflexivity|].
  destruct (p d) eqn:Hp.
  - destruct (Hpq d Hp) as [-> ->]. exact IH.
  - rewrite IH. reflexivity.
Qed.

Lemma filter_update_many_same p f c :
  (forall d, p d = true -> p (f d) = false) ->
  filter p (update_many p f c) = [].
Proof.
  intros Hf. unfold update_many. induction c as [|d r IH]; simpl; [reflexivity|].
  destruct (p d) eqn:Hp.
  - rewrite (Hf d Hp). exact IH.
  - rewrite Hp. exact IH.
Qed.

(** What the writes keep. *)
Lemma In_delete_many_keep p c d : In d c -> p d = false -> In d (delete_many p c).
Proof. intros Hin Hp. unfold delete_many. apply filter_In. rewrite Hp. auto. Qed.

Lemma In_delete_one_keep p c d : In d c -> p d = false -> In d (delete_one p c).
Proof.
  intros Hin Hp. induction c as [|x r IH]; simpl in *; [contradiction|].
  destruct Hin as [->|Hin].
  - rewrite Hp. left. reflexivity.
  - destruct (p x); [exact Hin | right; auto].
Qed.

Lemma In_update_one_keep p f c d :
  In d c -> In d (update_one p f c) \/ (p d = true /\ In (f d) (update_one p f c)).
Proof.
  intros Hin. induction c as [|x r IH]; simpl in *; [contradiction|].
  destruct (p x) eqn:Hp.
  - destruct Hin as [->|Hin]; [right; split; [exact Hp | left; reflexivity]|].
    left. right. exact Hin.
  - destruct Hin as [->|Hin]; [left; left; reflexivity|].
    destruct (IH Hin) as [?|[? ?]]; [left; right; assumption | right; split; [|right]; assumption].
Qed.

(** A document inserted into a collection without a match is the match. *)
Lemma find_one_insert_one p c d :
  find_one p c = None -> p d = true -> find_one p (insert_one d c) = Some d.
Proof.
  unfold find_one, insert_one. intros Hnone Hp.
  induction c as [|x r IH]; simpl in *; [rewrite Hp; reflexivity|].
  destruct (p x); [discriminate | auto].
Qed.

Lemma find_one_insert_one_other p c d :
  p d = false -> find_one p (insert_one d c) = find_one p c.
Proof.
  unfold find_one, insert_one. intros Hp.
  induction c as [|x r IH]; simpl; [rewrite Hp; reflexivity|].
  destruct (p x); [reflexivity | exact IH].
Qed.

Lemma delete_one_insert_one p c d :
  find_one p c = None -> p d = true -> delete_one p (insert_one d c) = c.
Proof.
  unfold find_one, insert_one. intros Hnone Hp.
  induction c as [|x r IH]; simpl in *; [rewrite Hp; reflexivity|].
  destruct (p x); [discriminate | f_equal; auto].
Qed.

Lemma update_one_insert_one p f c d :
  find_one p c = None -> p d = true -> update_one p f (insert_one d c) = insert_one (f d) c.
Proof.
  unfold find_one, insert_one. intros Hnone Hp.
  induction c as [|x r IH]; simpl in *; [rewrite Hp; reflexivity|].
  destruct (p x); [discriminate | f_equal; auto].
Qed.

Lemma find_one_none_forall p c : find_one p c = None <-> forall d, In d c -> p d = false.
Proof.
  unfold find_one. split.
  - intros Hnone d Hd. exact (find_none _ _ Hnone d Hd).
  - intros Hall. induction c as [|x r IH]; simpl; [reflexivity|].
    rewrite (Hall x (or_introl eq_refl)). apply IH. intros d Hd. apply Hall. right. exact Hd.
Qed.

Lemma length_delete_many p c :
  (List.length (delete_many p c) + List.length (filter p c) = List.length c)%nat.
Proof.
  unfold delete_many. induction c as [|d r IH]; simpl; [reflexivity|].
  destruct (p d); simpl; lia.
Qed.

Lemma delete_many_idempotent p c : delete_many p (delete_many p c) = delete_many p c.
Proof.
  apply delete_many_nothing. intros d Hd. unfold delete_many in Hd.
  apply filter_In in Hd. destruct Hd as [_ Hd]. destruct (p d); [discriminate|reflexivity].
Qed.
End MoreCollectionFacts.

Section KeyFacts.
Variables (D K : Type) (key : D -> K).
Implicit Types (p : D -> bool) (f : D -> D) (c : list D).

Lemma NoDup_keys_delete_many p c :
  NoDup (map key c) -> NoDup (map key (delete_many p c)).
Proof.
  unfold delete_many. induction c as [|x r IH]; simpl; intros Hnd; [constructor|].
  inversion Hnd as [|y l Hnotin Hnd']. subst.
  destruct (negb (p x)); simpl; [|auto].
  constructor; [|auto]. intros Hin. apply Hnotin.
  apply in_map_iff in Hin. destruct Hin as (d & Hd & Hin).
  apply filter_In in Hin. rewrite <- Hd. apply in_map. tauto.
Qed.

Lemma NoDup_keys_delete_one p c :
  NoDup (map key c) -> NoDup (map key (delete_one p c)).
Proof.
  induction c as [|x r IH]; simpl; intros Hnd; [constructor|].
  inversion Hnd as [|y l Hnotin Hnd']. subst.
  destruct (p x); simpl; [assumption|].
  constructor; [|auto]. intros Hin. apply Hnotin.
  apply in_map_iff in Hin. destruct Hin as (d & Hd & Hin).
  rewrite <- Hd. apply in_map. eapply In_delete_one. eassumption.
Qed.

Lemma NoDup_keys_insert_one d c :
  NoDup (map key c) -> (forall x, In x c -> key x <> key d) ->
  NoDup (map key (insert_one d c)).
Proof.
  intros Hnd Hfresh. unfold insert_one. rewrite map_app. simpl.
  apply NoDup_app; [exact Hnd | constructor; [intros []|constructor] |].
  intros k Hk [<-|[]]. apply in_map_iff in Hk. destruct Hk as (x & Hx & Hin).
  exact (Hfresh x Hin Hx).
Qed.

Lemma unique_by_key c d d' :
  NoDup (map key c) -> In d c -> In d' c -> key d = key d' -> d = d'.
Proof.
  induction c as [|x r IH]; simpl; intros Hnd Hd Hd' Hk; [contradiction|].
  inversion Hnd as [|y l Hnotin Hnd']. subst.
  destruct Hd as [<-|Hd], Hd' as [<-|Hd']; auto.
  - exfalso. apply Hnotin. rewrite Hk. apply in_map. exact Hd'.
  - exfalso. apply Hnotin. rewrite <- Hk. apply in_map. exact Hd.
Qed.

(** Replacing a document by one with the same key leaves the keys as
    they are. *)
Lemma keys_update_one p f c :
  (forall d, In d c -> p d = true -> key (f d) = key d) ->
  map key (update_one p f c) = map key c.
Proof.
  induction c as [|x r IH]; simpl; intros Hf; [reflexivity|].
  destruct (p x) eqn:Hp; simpl.
  - rewrite (Hf x (or_introl eq_refl) Hp). reflexivity.
  - f_equal. apply IH. intros d Hd. apply Hf. right. exact Hd.
Qed.
End KeyFacts.

(** With unique ids, deleting by id the document [x] of the collection
    deletes [x] and nothing else. *)
Lemma delete_one_by_id (D : Type) (id : D -> nat) (x : D) (c : list D) :
  NoDup (map id c) ->
  delete_one (fun d => Nat.eqb (id d) (id x)) c
  = filter (fun d => negb (Nat.eqb (id d) (id x))) c.
Proof.
  induction c as [|d r IH]; simpl; intros Hnd; [reflexivity|].
  inversion Hnd as [|y l Hnotin Hnd']. subst.
  destruct (Nat.eqb_spec (id d) (id x)) as [Heq|Hneq]; simpl.
  - symmetry. rewrite <- (filter_ext_in (fun _ => true)).
    + clear. induction r as [|a r IH]; simpl; [reflexivity | f_equal; exact IH].
    + intros a Ha. destruct (Nat.eqb_spec (id a) (id x)) as [Heq'|_]; [|reflexivity].
      exfalso. apply Hnotin. rewrite Heq, <- Heq'. apply in_map. exact Ha.
  - f_equal. apply IH. exact Hnd'.
Qed.

(** ** Sorting *)

Section SortFacts.
Variables (D : Type) (key : D -> Z).
Implicit Types (x : D) (l c : list D).

Lemma In_insert_desc x y l : In y (insert_desc (key_ltb key) x l) <-> y = x \/ In y l.
Proof.
  induction l as [|a r IH]; simpl.
  - intuition.
  - destruct (key_ltb key x a); simpl; [rewrite IH|]; intuition.
Qed.

Lemma length_insert_desc x l :
  List.length (insert_desc (key_ltb key) x l) = S (List.length l).
Proof.
  induction l as [|a r IH]; simpl; [reflexivity|].
  destruct (key_ltb key x a); simpl; [rewrite IH|]; reflexivity.
Qed.

Lemma Permutation_insert_desc x l : Permutation (insert_desc (key_ltb key) x l) (x :: l).
Proof.
  induction l as [|a r IH]; simpl; [apply Permutation_refl|].
  destruct (key_ltb key x a); [|apply Permutation_refl].
  apply perm_trans with (a :: x :: r); [apply perm_skip, IH | apply perm_swap].
Qed.

Lemma descending_insert_desc x l :
  descending key l -> descending key (insert_desc (key_ltb key) x l).
Proof.
  induction l as [|a r IH]; simpl; intros Hl.
  - split; [intros y []|exact I].
  - destruct Hl as [Ha Hr]. unfold key_ltb at 1.
    destruct (Z.ltb_spec (key x) (key a)); simpl.
    + split; [|auto]. intros y Hy. apply In_insert_desc in Hy.
      destruct Hy as [->|Hy]; [lia | auto].
    + split; [|split; assumption].
      intros y [<-|Hy]; [lia|]. specialize (Ha y Hy). lia.
Qed.

Lemma In_sort_desc y c : In y (sort_desc (key_ltb key) c) <-> In y c.
Proof.
  unfold sort_desc. induction c as [|a r IH]; simpl; [tauto|].
  rewrite In_insert_desc, IH. intuition.
Qed.

Lemma length_sort_desc c : List.length (sort_desc (key_ltb key) c) = List.length c.
Proof.
  unfold sort_desc. induction c as [|a r IH]; simpl; [reflexivity|].
  rewrite length_insert_desc, IH. reflexivity.
Qed.

(** Sorting loses and invents nothing. *)
Lemma Permutation_sort_desc c : Permutation (sort_desc (key_ltb key) c) c.
Proof.
  unfold sort_desc. induction c as [|a r IH]; simpl; [apply perm_nil|].
  apply perm_trans with (a :: fold_right (insert_desc (key_ltb key)) [] r);
    [apply Permutation_insert_desc | apply perm_skip, IH].
Qed.

Lemma descending_sort_desc c : descending key (sort_desc (key_ltb key) c).
Proof.
  unfold sort_desc. induction c as [|a r IH]; simpl; [exact I|].
  apply descending_insert_desc, IH.
Qed.

(** Filtering commutes with the insertion into a sorted list... *)
Lemma filter_insert_desc (p : D -> bool) x l :
  descending key l ->
  filter p (insert_desc (key_ltb key) x l)
  = if p x then insert_desc (key_ltb key) x (filter p l) else filter p l.
Proof.
  induction l as [|a r IH]; simpl; intros Hl.
  - destruct (p x); reflexivity.
  - destruct Hl as [Ha Hr].
    destruct (key_ltb key x a) eqn:Hxa; simpl.
    + rewrite (IH Hr). destruct (p a) eqn:Hpa, (p x) eqn:Hpx; simpl; try reflexivity.
      rewrite Hxa. reflexivity.
    + destruct (p x) eqn:Hpx, (p a) eqn:Hpa; simpl; try reflexivity.
      * rewrite Hxa. reflexivity.
      * clear IH. unfold key_ltb in Hxa. apply Z.ltb_ge in Hxa.
        assert (Hle : forall y, In y (filter p r) -> key y <= key x).
        { intros y Hy. apply filter_In in Hy. specialize (Ha y (proj1 Hy)). lia. }
        destruct (filter p r) as [|b t]; [reflexivity|].
        simpl. unfold key_ltb. specialize (Hle b (or_introl eq_refl)).
        destruct (Z.ltb_spec (key x) (key b)); [lia|reflexivity].
Qed.

(** ... and so with the sort. *)
Lemma filter_sort_desc (p : D -> bool) c :
  filter p (sort_desc (key_ltb key) c) = sort_desc (key_ltb key) (filter p c).
Proof.
  unfold sort_desc. induction c as [|a r IH]; simpl; [reflexivity|].
  rewrite filter_insert_desc by apply descending_sort_desc.
  destruct (p a); simpl; rewrite IH; reflexivity.
Qed.

(** The head of the sorted documents is the one [find_one] with the same
    sort returns. *)
Lemma hd_sort_desc c : hd_error (sort_desc (key_ltb key) c) = first_max (key_ltb key) c.
Proof.
  unfold sort_desc. induction c as [|a r IH]; simpl; [reflexivity|].
  rewrite <- IH.
  destruct (fold_right (insert_desc (key_ltb key)) [] r) as [|b t]; simpl; [reflexivity|].
  destruct (key_ltb key a b); reflexivity.
Qed.
End SortFacts.

(** ** What the handlers answer *)

Section Cases.
Context `{PasswordHasher}.

(** What [signup] answers. *)
Lemma signup_cases clk code n e p s :
  match find_one (fun d => (User.email d =? e)%string) (users (cleaned_up clk e s)) with
  | Some ex =>
      if User.is_verified ex
      then run (views_mongo.signup clk code n e p) s
           = (cleaned_up clk e s, SignupRejected MongoUser.DuplicateVerifiedUser)
      else if recent_unverified clk ex
      then run (views_mongo.signup clk code n e p) s
           = (cleaned_up clk e s, SignupRejected MongoUser.RecentUnverifiedSignupPending)
      else run (views_mongo.signup clk code n e p) s
           = (signed_up clk code n e p
                (set_users (delete_one (unverified_with e)) (cleaned_up clk e s)),
              UserCreated (next_oid s))
  | None =>
      run (views_mongo.signup clk code n e p) s
      = (signed_up clk code n e p (cleaned_up clk e s), UserCreated (next_oid s))
  end.
Proof.
  unfold cleaned_up, recent_unverified, views_mongo.signup, MongoUser.create_user,
    MongoUser.cleanup_unverified_users, MongoOTP.cleanup_otps_for_email,
    MongoOTP.create_otp, MongoOTP.cleanup_expired_otps.
  unfold_monad.
  destruct (truthy (Some e)); cbv beta iota; cbn [users set_users set_otps];
    (destruct (find_one _ _) as [ex|]; cbv beta iota;
     [ destruct (User.is_verified ex); cbv beta iota;
       [ reflexivity
       | destruct (User.created_at ex) as [c|]; cbv beta iota;
         [ destruct (get_ist_time clk - c <? seconds 600); cbv beta iota; reflexivity
         | reflexivity ] ]
     | reflexivity ]).
Qed.
End Cases.

(** What [verify_otp] answers. *)
Lemma verify_otp_cases clk e c s :
  match find_one_desc (MongoOTP.unused_for e signup_purpose) MongoOTP.created_ltb (otps s) with
  | None => run (views_mongo.verify_otp clk e c) s = (s, InvalidOTP)
  | Some o =>
      if negb (OTP.otp o =? c)%string
      then run (views_mongo.verify_otp clk e c) s = (s, InvalidOTP)
      else if negb (MongoOTP.is_valid clk o)
      then run (views_mongo.verify_otp clk e c) s = (s, OTPExpired)
      else
        match find_one (fun d => (User.email d =? e)%string) (users s) with
        | Some u => run (views_mongo.verify_otp clk e c) s = (verified clk o u s, EmailVerified)
        | None =>
            run (views_mongo.verify_otp clk e c) s
            = (set_otps (delete_one (fun d => Nat.eqb (OTP._id d) (OTP._id o))) s, UserNotFound)
        end
  end.
Proof.
  unfold verified, views_mongo.verify_otp, MongoOTP.get_latest_unused, MongoOTP.delete,
    MongoUser.get_by_email, MongoUser.verify_email, MongoUser.save.
  unfold_monad.
  destruct (find_one_desc _ _ (otps s)) as [o|]; cbv beta iota; [|reflexivity].
  destruct (negb (OTP.otp o =? c)%string); cbv beta iota; [reflexivity|].
  destruct (negb (MongoOTP.is_valid clk o)); cbv beta iota; [reflexivity|].
  cbn [users set_otps].
  destruct (find_one _ (users s)); reflexivity.
Qed.

(** What [logout] answers. *)
Lemma logout_cases clk email dev s :
  match find_one (fun d => (User.email d =? email)%string) (users s) with
  | Some u =>
      run (views_mongo.logout clk (Some email) dev) s
      = (logged_out clk (User._id u) dev s, LogoutSuccessful)
  | None => run (views_mongo.logout clk (Some email) dev) s = (s, UserNotFound)
  end.
Proof.
  unfold views_mongo.logout, views_mongo.get_user_id_from_request, MongoUser.get_by_email,
    MongoLogoutSession.create_session.
  unfold_monad.
  destruct (find_one _ (users s)); reflexivity.
Qed.

(** What [punch_out] answers, check by check, for the Mongo user [u] of an
    authenticated request. *)
Lemma punch_out_cases clk email loc lat lon s u :
  find_one (fun d => (User.email d =? email)%string) (users s) = Some u ->
  (has_active_session (User._id u) s = false /\
   run (views_mongo.punch_out clk (Some email) loc lat lon) s = (s, NoActiveSession))
  \/
  (has_active_session (User._id u) s = true /\ has_pointer (User._id u) s = false /\
   run (views_mongo.punch_out clk (Some email) loc lat lon) s = (s, NoPunchInFound))
  \/
  (has_active_session (User._id u) s = true /\
   exists ptr,
     find_one (fun d => Nat.eqb (PunchedIn.user_id d) (User._id u)) (punched_in s) = Some ptr
     /\ run (views_mongo.punch_out clk (Some email) loc lat lon) s
        = (punched_out_store clk (User._id u) loc lat lon ptr s,
           PunchOutSuccessful (punched_out_row clk loc lat lon ptr))).
Proof.
  intros Hu.
  unfold views_mongo.punch_out, MongoUser.get_by_email, MongoLoginSession.get_active_session,
    MongoAttendance.punch_out, has_pointer.
  unfold_monad. rewrite Hu. cbv beta iota zeta.
  destruct (find_one_desc _ _ (login_sessions s)) as [ses|] eqn:Eses.
  - right.
    assert (Ha : has_active_session (User._id u) s = true).
    { unfold has_active_session. destruct (existsb _ (login_sessions s)) eqn:X; [reflexivity|].
      apply (find_one_desc_none _ _ MongoLoginSession.login_ltb) in X. congruence. }
    destruct (find_one (fun d => Nat.eqb (PunchedIn.user_id d) (User._id u)) (punched_in s))
      as [ptr|] eqn:Eptr; cbv beta iota zeta.
    + right. split; [exact Ha|]. exists ptr. split; [reflexivity|].
      rewrite Eptr. reflexivity.
    + left. split; [exact Ha|]. split; [|reflexivity].
      apply find_one_none_existsb. exact Eptr.
  - left. split; [|reflexivity].
    unfold has_active_session. eapply find_one_desc_none. exact Eses.
Qed.

(** ** Traces *)

Lemma clock_bound_spec (trace : list (Env * Request)) :
  Forall (fun step => get_ist_time (clock (fst step)) < clock_bound trace) trace.
Proof.
  unfold clock_bound. induction trace as [|step rest IH]; constructor.
  - cbn [fold_right]. lia.
  - eapply Forall_impl; [|exact IH]. intros a Ha. cbn [fold_right]. cbn beta in Ha. lia.
Qed.

Lemma handle_all_app `{PasswordHasher} (trace1 trace2 : list (Env * Request)) (s : Store) :
  handle_all (trace1 ++ trace2) s = handle_all trace2 (handle_all trace1 s).
Proof.
  revert s. induction trace1 as [|[env req] rest IH]; intros s; simpl; [reflexivity|].
  apply IH.
Qed.

Lemma handle_all_consistent `{PasswordHasher} (T : Z) (trace : list (Env * Request))
    (s : Store) :
  Forall (fun step => get_ist_time (clock (fst step)) < T) trace ->
  consistent T s -> consistent T (handle_all trace s).
Proof.
  revert s. induction trace as [|[env req] rest IH]; intros s Hall C; simpl; [exact C|].
  inversion Hall as [|x l Hx Hrest]. subst.
  apply IH; [exact Hrest|]. apply handle_consistent; assumption.
Qed.

(** A property of the empty store that every request keeps on consistent
    stores holds of every store the requests build. *)
Lemma reachable_invariant `{PasswordHasher} (P : Store -> Prop) :
  P empty_store ->
  (forall T env req s,
      get_ist_time (clock env) < T -> consistent T s -> P s -> P (fst (handle env req s))) ->
  forall trace, P (handle_all trace empty_store).
Proof.
  intros P0 Pstep trace.
  pose proof (clock_bound_spec trace) as Hall.
  pose proof (empty_store_consistent (clock_bound trace)) as C.
  revert Hall C P0. generalize (clock_bound trace) as T. generalize empty_store as s.
  induction trace as [|[env req] rest IH]; intros s T Hall C Ps; simpl; [exact Ps|].
  inversion Hall as [|x l Hx Hrest]. subst.
  apply (IH _ T); [exact Hrest | apply handle_consistent; assumption |].
  apply (Pstep T); assumption.
Qed.

(** ** Punch-out *)

Section AttendanceFrame.
Context `{PasswordHasher}.

Lemma signup_keeps_attendance clk code n e p :
  keeps attendance (views_mongo.signup clk code n e p).
Proof.
  unfold views_mongo.signup, MongoUser.create_user, MongoUser.cleanup_unverified_users,
    MongoOTP.create_otp, MongoOTP.cleanup_expired_otps, MongoOTP.cleanup_otps_for_email.
  keeps_tac.
Qed.

Lemma verify_otp_keeps_attendance clk e c :
  keeps attendance (views_mongo.verify_otp clk e c).
Proof.
  unfold views_mongo.verify_otp, MongoOTP.get_latest_unused, MongoOTP.delete,
    MongoUser.get_by_email, MongoUser.verify_email, MongoUser.save.
  keeps_tac.
Qed.

Lemma login_keeps_attendance clk e p dev :
  keeps attendance (views_mongo.login clk e p dev).
Proof.
  unfold views_mongo.login, views_mongo.logout_previous_session, MongoUser.authenticate,
    MongoUser.get_by_email, MongoLogoutSession.create_session,
    MongoLoginSession.create_session, MongoUser.get_by_id.
  keeps_tac.
Qed.

Lemma forgot_password_keeps_attendance clk code e :
  keeps attendance (views_mongo.forgot_password clk code e).
Proof.
  unfold views_mongo.forgot_password, MongoUser.get_by_email, MongoOTP.create_otp,
    MongoOTP.cleanup_expired_otps.
  keeps_tac.
Qed.

Lemma reset_password_keeps_attendance clk e c p :
  keeps attendance (views_mongo.reset_password clk e c p).
Proof.
  unfold views_mongo.reset_password, MongoUser.get_by_email,
    MongoLogoutSession.get_latest_logout, MongoLoginSession.get_latest_login,
    MongoOTP.get_latest_unused, MongoOTP.delete, MongoUser.set_password, MongoUser.save.
  keeps_tac.
Qed.

Lemma logout_keeps_attendance clk u dev :
  keeps attendance (views_mongo.logout clk u dev).
Proof.
  unfold views_mongo.logout, views_mongo.get_user_id_from_request, MongoUser.get_by_email,
    MongoLogoutSession.create_session.
  keeps_tac.
Qed.
End AttendanceFrame.

Lemma open_for_completed clk loc lat lon uid uid' d :
  open_for uid' (completed clk loc lat lon d) = false
  /\ (open_for uid d = true -> uid' <> uid -> open_for uid' d = false).
Proof.
  unfold open_for, completed. simpl. split; [apply andb_false_r|].
  intros Ho Hne. apply andb_true_iff in Ho. destruct Ho as [Hid _].
  apply Nat.eqb_eq in Hid. rewrite Hid.
  destruct (Nat.eqb_spec uid uid'); [congruence|reflexivity].
Qed.

(** On the store a punch-out has left, the open attendance records and the
    pointers of the user have lost their first row; those of the others are
    as before. *)
Lemma punched_out_store_rows clk uid loc lat lon ptr s uid' :
  filter (open_for uid') (attendance (punched_out_store clk uid loc lat lon ptr s))
  = (if Nat.eqb uid' uid then @tl Attendance.doc else fun l => l)
      (filter (open_for uid') (attendance s))
  /\ pointers_of uid' (punched_out_store clk uid loc lat lon ptr s)
     = (if Nat.eqb uid' uid then @tl PunchedIn.doc else fun l => l) (pointers_of uid' s).
Proof.
  unfold punched_out_store, pointers_of. cbn [attendance punched_in set_attendance set_punched_in
    set_punched_out].
  destruct (Nat.eqb_spec uid' uid) as [->|Hne]; split.
  - apply filter_update_one_same. intros d _. apply (open_for_completed clk loc lat lon uid uid d).
  - apply filter_delete_one_same.
  - apply filter_update_one_other. intros d Hd. split.
    + apply (proj2 (open_for_completed clk loc lat lon uid uid' d) Hd Hne).
    + apply (open_for_completed clk loc lat lon uid uid' d).
  - apply filter_delete_one_other. intros d Hd. apply Nat.eqb_eq in Hd. rewrite Hd.
    destruct (Nat.eqb_spec uid uid'); [congruence|reflexivity].
Qed.

(** X1.  A punch-out of a user with an active session and a pointer row is
    answered "Punch out successful" with that row extended by the punch-out
    fields; the extended row is appended to [punched_out], the first pointer
    row of the user is deleted and the pointer rows of the other users,
    the users and the login sessions stay as they are.  With at most one
    pointer row per user, the user has no pointer afterwards. *)
Theorem punch_out_moves_pointer (clk : Clock) (email : string) (loc lat lon : option string)
    (s : Store) (u : User.doc) (ptr : PunchedIn.doc) :
  find_one (fun d => (User.email d =? email)%string) (users s) = Some u ->
  has_active_session (User._id u) s = true ->
  find_one (fun d => Nat.eqb (PunchedIn.user_id d) (User._id u)) (punched_in s) = Some ptr ->
  exists s' row,
    run (views_mongo.punch_out clk (Some email) loc lat lon) s = (s', PunchOutSuccessful row)
    /\ PunchedOut.punch_in row = ptr
    /\ PunchOutFacet.punched_out_date (PunchedOut.facet row) = local_date clk
    /\ punched_out s' = punched_out s ++ [row]
    /\ pointers_of (User._id u) s' = tl (pointers_of (User._id u) s)
    /\ (forall user_id, user_id <> User._id u -> pointers_of user_id s' = pointers_of user_id s)
    /\ (at_most_one_pointer s -> has_pointer (User._id u) s' = false)
    /\ users s' = users s
    /\ login_sessions s' = login_sessions s.
Proof.
  intros Hu Ha Hptr.
  destruct (punch_out_cases clk email loc lat lon s u Hu)
    as [[Ha' _]|[(_ & Hp & _)|(_ & ptr' & Hptr' & E)]].
  - congruence.
  - apply find_one_some_existsb in Hptr. unfold has_pointer in Hp. congruence.
  - rewrite Hptr in Hptr'. inversion Hptr'. subst ptr'.
    exists (punched_out_store clk (User._id u) loc lat lon ptr s),
      (punched_out_row clk loc lat lon ptr).
    split; [exact E|]. split; [reflexivity|]. split; [reflexivity|]. split; [reflexivity|].
    assert (Hown : pointers_of (User._id u) (punched_out_store clk (User._id u) loc lat lon ptr s)
                   = tl (pointers_of (User._id u) s)).
    { rewrite (proj2 (punched_out_store_rows clk (User._id u) loc lat lon ptr s (User._id u))).
      rewrite Nat.eqb_refl. reflexivity. }
    split; [exact Hown|]. split.
    + intros uid Hne.
      rewrite (proj2 (punched_out_store_rows clk (User._id u) loc lat lon ptr s uid)).
      destruct (Nat.eqb_spec uid (User._id u)); [contradiction|reflexivity].
    + split; [|split; reflexivity].
      intros I. specialize (I (User._id u)).
      destruct (has_pointer _ _) eqn:X; [exfalso|reflexivity].
      unfold has_pointer in X. apply existsb_exists in X. destruct X as (d & Hd & Hid).
      assert (Hin : In d (pointers_of (User._id u)
                            (punched_out_store clk (User._id u) loc lat lon ptr s))).
      { apply filter_In. auto. }
      rewrite Hown in Hin.
      destruct (pointers_of (User._id u) s) as [|a [|b r]]; simpl in *; try contradiction. lia.
Qed.

Lemma punch_out_moves_pointer_witness :
  exists s' row,
    run (views_mongo.punch_out (clock (at_time 40 "2024-01-01")) alice (Some "Office") None None)
      alice_punched_in = (s', PunchOutSuccessful row)
    /\ punched_out s' = [row]
    /\ punched_in s' = [].
Proof.
  destruct (punch_out_moves_pointer (clock (at_time 40 "2024-01-01")) "a@x.com"
              (Some "Office") None None alice_punched_in alice_doc
              {| PunchedIn._id := 3%nat; PunchedIn.user_id := 0%nat;
                 PunchedIn.username := Some "alice"; PunchedIn.email := Some "a@x.com";
                 PunchedIn.punched_in_date := "2024-01-01";
                 PunchedIn.punched_in_time := "09:00:00";
                 PunchedIn.location := Some "Office"; PunchedIn.latitude := None;
                 PunchedIn.longitude := None; PunchedIn.created_at := seconds 30 |}
              eq_refl eq_refl eq_refl)
    as (s' & row & E & _ & _ & Hout & _).
  exists s', row. split; [exact E|]. split; [exact Hout|].
  vm_compute in E. inversion E. reflexivity.
Defined.

(** X2.  [punch_out] looks for the active session before it looks for the
    pointer, the other way round than [punch_in]: a user without an active
    session is answered "No active session found" whether punched in or
    not, a user with an active session and no pointer row "No punch in
    record found"; neither answer writes anything. *)
Theorem punch_out_checks_session_first (clk : Clock) (email : string)
    (loc lat lon : option string) (s : Store) (u : User.doc) :
  find_one (fun d => (User.email d =? email)%string) (users s) = Some u ->
  (has_active_session (User._id u) s = false ->
   run (views_mongo.punch_out clk (Some email) loc lat lon) s = (s, NoActiveSession))
  /\ (has_active_session (User._id u) s = true -> has_pointer (User._id u) s = false ->
      run (views_mongo.punch_out clk (Some email) loc lat lon) s = (s, NoPunchInFound)).
Proof.
  intros Hu.
  destruct (punch_out_cases clk email loc lat lon s u Hu)
    as [[Ha E]|[(Ha & Hp & E)|(Ha & ptr & Hptr & E)]]; split; intros; try congruence.
  apply find_one_some_existsb in Hptr. unfold has_pointer in *. congruence.
Qed.

Lemma punch_out_checks_session_first_witness :
  has_pointer (User._id alice_doc) alice_punched_in_logged_out = true
  /\ run (views_mongo.punch_out (clock (at_time 40 "2024-01-01")) alice None None None)
       alice_punched_in_logged_out = (alice_punched_in_logged_out, NoActiveSession).
Proof.
  split; [reflexivity|].
  apply (proj1 (punch_out_checks_session_first (clock (at_time 40 "2024-01-01")) "a@x.com"
                  None None None alice_punched_in_logged_out alice_doc eq_refl)).
  reflexivity.
Defined.

(** X3.  Punch-in followed by punch-out, for a user with an active session,
    no pointer row and no open attendance record: both are accepted, the
    [punched_in] collection is back to what it was, [punched_out] has gained
    the row of the punch, and the attendance log has gained exactly one
    record, which carries both the punch-in and the punch-out fields. *)
Theorem punch_in_then_punch_out (clk1 clk2 : Clock) (email : string)
    (loc1 lat1 lon1 loc2 lat2 lon2 : option string) (s : Store) (u : User.doc) :
  find_one (fun d => (User.email d =? email)%string) (users s) = Some u ->
  has_pointer (User._id u) s = false ->
  has_active_session (User._id u) s = true ->
  (forall a, In a (attendance s) -> open_for (User._id u) a = false) ->
  exists d s1 s2,
    run (views_mongo.punch_in clk1 (Some email) loc1 lat1 lon1) s = (s1, PunchInSuccessful d)
    /\ run (views_mongo.punch_out clk2 (Some email) loc2 lat2 lon2) s1
       = (s2, PunchOutSuccessful (punched_out_row clk2 loc2 lat2 lon2 d))
    /\ PunchedIn.user_id d = User._id u
    /\ punched_in s2 = punched_in s
    /\ punched_out s2 = punched_out s ++ [punched_out_row clk2 loc2 lat2 lon2 d]
    /\ attendance s2
       = attendance s
         ++ [{| Attendance.punch_in := d;
                Attendance.punched_out :=
                  Some (punch_out_facet clk2 loc2 lat2 lon2 (utcnow clk2)) |}].
Proof.
  intros Hu Hp Ha Hclosed.
  destruct (punch_in_cases clk1 email loc1 lat1 lon1 s u Hu)
    as [[Hp' _]|[(_ & Ha' & _)|(_ & _ & d & E1 & Hd & _)]]; try congruence.
  exists d. eexists. eexists. split; [exact E1|].
  set (s1 := set_attendance _ _) in *.
  assert (Hu1 : find_one (fun d => (User.email d =? email)%string) (users s1) = Some u)
    by exact Hu.
  assert (Hptr1 : find_one (fun x => Nat.eqb (PunchedIn.user_id x) (User._id u)) (punched_in s1)
                  = Some d).
  { apply find_one_insert_one.
    - apply find_one_none_existsb. exact Hp.
    - rewrite Hd. apply Nat.eqb_refl. }
  destruct (punch_out_cases clk2 email loc2 lat2 lon2 s1 u Hu1)
    as [[Ha1 _]|[(_ & Hp1 & _)|(_ & ptr & Hptr & E2)]].
  - exfalso. change (has_active_session (User._id u) s = false) in Ha1. congruence.
  - exfalso. apply find_one_some_existsb in Hptr1. unfold has_pointer in Hp1. congruence.
  - rewrite Hptr1 in Hptr. inversion Hptr. subst ptr.
    split; [exact E2|]. split; [exact Hd|].
    unfold punched_out_store, s1.
    cbn [punched_in punched_out attendance set_attendance set_punched_in set_punched_out bump_oid].
    split; [|split; [reflexivity|]].
    + apply delete_one_insert_one.
      * apply find_one_none_existsb. exact Hp.
      * rewrite Hd. apply Nat.eqb_refl.
    + rewrite update_one_insert_one.
      * reflexivity.
      * apply find_one_none_forall. exact Hclosed.
      * unfold open_for. simpl. rewrite Hd, Nat.eqb_refl. reflexivity.
Qed.

Lemma punch_in_then_punch_out_witness :
  exists d s1 s2,
    run (views_mongo.punch_in (clock (at_time 30 "2024-01-01")) alice (Some "Office") None None)
      alice_logged_in = (s1, PunchInSuccessful d)
    /\ run (views_mongo.punch_out (clock (at_time 40 "2024-01-01")) alice (Some "Office")
              None None) s1
       = (s2, PunchOutSuccessful
                (punched_out_row (clock (at_time 40 "2024-01-01")) (Some "Office") None None d))
    /\ punched_in s2 = []
    /\ List.length (attendance s2) = 1%nat.
Proof.
  destruct (punch_in_then_punch_out (clock (at_time 30 "2024-01-01"))
              (clock (at_time 40 "2024-01-01")) "a@x.com" (Some "Office") None None
              (Some "Office") None None alice_logged_in alice_doc eq_refl eq_refl eq_refl)
    as (d & s1 & s2 & E1 & E2 & _ & Hin & _ & Hatt).
  - intros a [].
  - exists d, s1, s2. split; [exact E1|]. split; [exact E2|]. split; [exact Hin|].
    rewrite Hatt. reflexivity.
Defined.

(** Requests other than punch-in and punch-out leave the attendance log and
    the pointers alone. *)
Lemma handle_keeps_punches `{PasswordHasher} env req s :
  match req with
  | PunchIn _ _ _ _ | PunchOut _ _ _ _ => True
  | _ => attendance (fst (handle env req s)) = attendance s
         /\ punched_in (fst (handle env req s)) = punched_in s
  end.
Proof.
  unfold handle. destruct req; simpl; try exact I; split; apply keeps_run.
  - apply signup_keeps_attendance.
  - apply signup_keeps_punched_in.
  - apply verify_otp_keeps_attendance.
  - apply verify_otp_keeps_punched_in.
  - apply login_keeps_attendance.
  - apply login_keeps_punched_in.
  - apply forgot_password_keeps_attendance.
  - apply forgot_password_keeps_punched_in.
  - apply reset_password_keeps_attendance.
  - apply reset_password_keeps_punched_in.
  - apply logout_keeps_attendance.
  - apply logout_keeps_punched_in.
Qed.

Lemma handle_keeps_open_records `{PasswordHasher} env req s :
  (forall uid, List.length (filter (open_for uid) (attendance s))
               = List.length (pointers_of uid s)) ->
  forall uid, List.length (filter (open_for uid) (attendance (fst (handle env req s))))
              = List.length (pointers_of uid (fst (handle env req s))).
Proof.
  intros I uid.
  pose proof (handle_keeps_punches env req s) as K.
  destruct req as [| | | | |ru loc lat lon|ru loc lat lon|].
  1-5, 8: destruct K as [Ka Kp]; unfold pointers_of; rewrite Ka, Kp; apply I.
  - unfold handle. simpl. destruct ru as [email|]; [|apply I].
    destruct (find_one (fun d => (User.email d =? email)%string) (users s)) as [u|] eqn:Hu.
    + destruct (punch_in_cases (clock env) email loc lat lon s _ Hu)
        as [[_ ->]|[(_ & _ & ->)|(_ & _ & d & -> & Hd & _)]]; try apply I.
      unfold pointers_of.
      cbn [fst attendance punched_in set_attendance set_punched_in bump_oid].
      rewrite !filter_insert_one, !length_app. unfold open_for at 2. simpl.
      rewrite andb_true_r. specialize (I uid). unfold pointers_of in I. rewrite I.
      destruct (Nat.eqb (PunchedIn.user_id d) uid); reflexivity.
    + unfold views_mongo.punch_in, MongoUser.get_by_email. unfold_monad.
      rewrite Hu. apply I.
  - unfold handle. simpl. destruct ru as [email|]; [|apply I].
    destruct (find_one (fun d => (User.email d =? email)%string) (users s)) as [u|] eqn:Hu.
    + destruct (punch_out_cases (clock env) email loc lat lon s _ Hu)
        as [[_ ->]|[(_ & _ & ->)|(_ & ptr & _ & ->)]]; try apply I.
      cbn [fst].
      destruct (punched_out_store_rows (clock env) (User._id u) loc lat lon ptr s uid)
        as [-> ->].
      specialize (I uid).
      destruct (Nat.eqb uid (User._id u)); [|exact I].
      destruct (filter _ (attendance s)), (pointers_of uid s); simpl in *; lia.
    + unfold views_mongo.punch_out, MongoUser.get_by_email. unfold_monad.
      rewrite Hu. apply I.
Qed.

(** X4.  In every store that requests have built from the empty one, a user
    has as many open attendance records (records without punch-out fields)
    as pointer rows, and so at most one: the record a punch-in appends is
    the one the next punch-out completes. *)
Theorem open_attendance_matches_pointer `{PasswordHasher} (trace : list (Env * Request))
    (user_id : ObjectId) :
  List.length (filter (open_for user_id) (attendance (handle_all trace empty_store)))
  = List.length (pointers_of user_id (handle_all trace empty_store))
  /\ (List.length (filter (open_for user_id) (attendance (handle_all trace empty_store)))
      <= 1)%nat.
Proof.
  assert (E : forall uid,
             List.length (filter (open_for uid) (attendance (handle_all trace empty_store)))
             = List.length (pointers_of uid (handle_all trace empty_store))).
  { apply (reachable_invariant
             (fun s => forall uid, List.length (filter (open_for uid) (attendance s))
                                   = List.length (pointers_of uid s))).
    - reflexivity.
    - intros T env req s _ _ I. apply handle_keeps_open_records, I. }
  split; [apply E|]. rewrite E. apply reachable_at_most_one_pointer.
Qed.

(** ** Sessions *)

Section LoginSessionsFrame.
Context `{PasswordHasher}.

Lemma signup_keeps_login_sessions clk code n e p :
  keeps login_sessions (views_mongo.signup clk code n e p).
Proof.
  unfold views_mongo.signup, MongoUser.create_user, MongoUser.cleanup_unverified_users,
    MongoOTP.create_otp, MongoOTP.cleanup_expired_otps, MongoOTP.cleanup_otps_for_email.
  keeps_tac.
Qed.

Lemma verify_otp_keeps_login_sessions clk e c :
  keeps login_sessions (views_mongo.verify_otp clk e c).
Proof.
  unfold views_mongo.verify_otp, MongoOTP.get_latest_unused, MongoOTP.delete,
    MongoUser.get_by_email, MongoUser.verify_email, MongoUser.save.
  keeps_tac.
Qed.

Lemma forgot_password_keeps_login_sessions clk code e :
  keeps login_sessions (views_mongo.forgot_password clk code e).
Proof.
  unfold views_mongo.forgot_password, MongoUser.get_by_email, MongoOTP.create_otp,
    MongoOTP.cleanup_expired_otps.
  keeps_tac.
Qed.

Lemma reset_password_keeps_login_sessions clk e c p :
  keeps login_sessions (views_mongo.reset_password clk e c p).
Proof.
  unfold views_mongo.reset_password, MongoUser.get_by_email,
    MongoLogoutSession.get_latest_logout, MongoLoginSession.get_latest_login,
    MongoOTP.get_latest_unused, MongoOTP.delete, MongoUser.set_password, MongoUser.save.
  keeps_tac.
Qed.

Lemma punch_in_keeps_login_sessions clk ru loc lat lon :
  keeps login_sessions (views_mongo.punch_in clk ru loc lat lon).
Proof.
  unfold views_mongo.punch_in, MongoUser.get_by_email. cbv zeta.
  keeps_tac.
Qed.

Lemma punch_out_keeps_login_sessions clk ru loc lat lon :
  keeps login_sessions (views_mongo.punch_out clk ru loc lat lon).
Proof.
  unfold views_mongo.punch_out, MongoUser.get_by_email,
    MongoLoginSession.get_active_session, MongoAttendance.punch_out. cbv zeta.
  keeps_tac.
Qed.
End LoginSessionsFrame.

Lemma active_for_deactivated (uid : ObjectId) (d : LoginSession.doc) :
  active_for uid (deactivated d) = false.
Proof. unfold active_for, deactivated. simpl. apply andb_false_r. Qed.

Lemma active_for_other (uid uid' : ObjectId) (d : LoginSession.doc) :
  active_for uid d = true -> uid' <> uid -> active_for uid' d = false.
Proof.
  unfold active_for. intros Ha Hne. apply andb_true_iff in Ha. destruct Ha as [Hid _].
  apply Nat.eqb_eq in Hid. rewrite Hid.
  destruct (Nat.eqb_spec uid uid'); [congruence|reflexivity].
Qed.

Lemma has_active_session_filter (uid : ObjectId) (s : Store) :
  has_active_session uid s = false <-> filter (active_for uid) (login_sessions s) = [].
Proof.
  unfold has_active_session. split.
  - intros X. apply find_one_none_filter. apply find_one_none_existsb. exact X.
  - intros E. destruct (existsb _ _) eqn:X; [exfalso|reflexivity].
    apply existsb_exists in X. destruct X as (d & Hd & Ha).
    assert (Hin : In d (filter (active_for uid) (login_sessions s)))
      by (apply filter_In; auto).
    rewrite E in Hin. exact Hin.
Qed.

(** The sessions of a store after [logout]. *)
Lemma active_after_logout clk uid dev s uid' :
  filter (active_for uid') (login_sessions (logged_out clk uid dev s))
  = if Nat.eqb uid' uid then [] else filter (active_for uid') (login_sessions s).
Proof.
  unfold logged_out. cbn [login_sessions set_login_sessions set_logout_sessions bump_oid].
  destruct (Nat.eqb_spec uid' uid) as [->|Hne].
  - apply filter_update_many_same. intros d _. apply active_for_deactivated.
  - apply filter_update_many_other. intros d Hd. split.
    + exact (active_for_other uid uid' d Hd Hne).
    + apply active_for_deactivated.
Qed.

(** The sessions of a store after an accepted [login]. *)
Lemma logged_in_sessions clk uid dev s :
  NoDup (map LoginSession._id (login_sessions s)) ->
  login_sessions (logged_in clk uid dev s)
  = update_many (active_for uid) deactivated (login_sessions s)
    ++ [login_doc clk uid dev
          (logged_out_all clk uid dev (filter (active_for uid) (login_sessions s)) s)].
Proof.
  intros Hnd.
  change (login_sessions (logged_in clk uid dev s))
    with (login_sessions
            (logged_out_all clk uid dev (filter (active_for uid) (login_sessions s)) s)
          ++ [login_doc clk uid dev
                (logged_out_all clk uid dev (filter (active_for uid) (login_sessions s)) s)]).
  f_equal. rewrite logged_out_all_logins by exact Hnd.
  unfold update_many. apply map_ext_in. intros d Hd.
  rewrite (existsb_filter_by_id (active_for uid) (login_sessions s) d Hnd Hd).
  reflexivity.
Qed.

Lemma active_for_login_doc uid' clk uid dev s :
  active_for uid' (login_doc clk uid dev s) = Nat.eqb uid' uid.
Proof. unfold active_for. simpl. rewrite andb_true_r. apply Nat.eqb_sym. Qed.

Lemma active_after_login clk uid dev s uid' :
  NoDup (map LoginSession._id (login_sessions s)) ->
  filter (active_for uid') (login_sessions (logged_in clk uid dev s))
  = if Nat.eqb uid' uid
    then [login_doc clk uid dev
            (logged_out_all clk uid dev (filter (active_for uid) (login_sessions s)) s)]
    else filter (active_for uid') (login_sessions s).
Proof.
  intros Hnd. rewrite (logged_in_sessions clk uid dev s Hnd), filter_app.
  cbn [filter]. rewrite active_for_login_doc.
  destruct (Nat.eqb_spec uid' uid) as [->|Hne].
  - rewrite filter_update_many_same; [reflexivity|].
    intros d _. apply active_for_deactivated.
  - rewrite filter_update_many_other; [apply app_nil_r|].
    intros d Hd. split.
    + exact (active_for_other uid uid' d Hd Hne).
    + apply active_for_deactivated.
Qed.

(** X5.  [logout] of a known user is always accepted, with or without an
    active session: it appends one logout session stamped with the clock
    and the device of the request and deactivates every active session of
    the user, leaving the active sessions of the others and the ids of the
    sessions alone.  From then on a punch-out of the user is answered "No
    active session found" and a punch-in, unless the user is punched in,
    "User is not logged in". *)
Theorem logout_ends_every_session (clk clk' : Clock) (email device_type : string)
    (loc lat lon : option string) (s : Store) (u : User.doc) :
  find_one (fun d => (User.email d =? email)%string) (users s) = Some u ->
  exists s',
    run (views_mongo.logout clk (Some email) device_type) s = (s', LogoutSuccessful)
    /\ has_active_session (User._id u) s' = false
    /\ logout_sessions s'
       = logout_sessions s ++ [logout_doc clk (User._id u) device_type (next_oid s)]
    /\ (forall user_id, user_id <> User._id u ->
          filter (active_for user_id) (login_sessions s')
          = filter (active_for user_id) (login_sessions s))
    /\ map LoginSession._id (login_sessions s') = map LoginSession._id (login_sessions s)
    /\ run (views_mongo.punch_out clk' (Some email) loc lat lon) s' = (s', NoActiveSession)
    /\ (has_pointer (User._id u) s = false ->
        run (views_mongo.punch_in clk' (Some email) loc lat lon) s' = (s', NotLoggedIn)).
Proof.
  intros Hu. exists (logged_out clk (User._id u) device_type s).
  pose proof (logout_cases clk email device_type s) as E. rewrite Hu in E.
  assert (Ha : has_active_session (User._id u) (logged_out clk (User._id u) device_type s)
               = false).
  { apply has_active_session_filter. rewrite active_after_logout, Nat.eqb_refl. reflexivity. }
  assert (Hu' : find_one (fun d => (User.email d =? email)%string)
                  (users (logged_out clk (User._id u) device_type s)) = Some u) by exact Hu.
  split; [exact E|]. split; [exact Ha|]. split; [reflexivity|]. split; [|split; [|split]].
  - intros uid Hne. rewrite active_after_logout.
    destruct (Nat.eqb_spec uid (User._id u)); [contradiction|reflexivity].
  - unfold logged_out. cbn [login_sessions set_login_sessions set_logout_sessions bump_oid].
    apply ids_update_many. reflexivity.
  - destruct (punch_out_cases clk' email loc lat lon _ u Hu')
      as [[_ E']|[(Ha' & _)|(Ha' & _)]]; [exact E'| |]; congruence.
  - intros Hp.
    destruct (punch_in_cases clk' email loc lat lon _ u Hu')
      as [[Hp' _]|[(_ & _ & E')|(_ & Ha' & _)]]; [|exact E'|congruence].
    change (has_pointer (User._id u) s = true) in Hp'. congruence.
Qed.

Lemma logout_ends_every_session_witness :
  exists s',
    run (views_mongo.logout (clock (at_time 35 "2024-01-01")) alice "web") alice_punched_in
      = (s', LogoutSuccessful)
    /\ has_active_session (User._id alice_doc) alice_punched_in = true
    /\ has_active_session (User._id alice_doc) s' = false
    /\ run (views_mongo.punch_out (clock (at_time 40 "2024-01-01")) alice None None None) s'
       = (s', NoActiveSession).
Proof.
  destruct (logout_ends_every_session (clock (at_time 35 "2024-01-01"))
              (clock (at_time 40 "2024-01-01")) "a@x.com" "web" None None None
              alice_punched_in alice_doc eq_refl)
    as (s' & E & Ha & _ & _ & _ & Eout & _).
  exists s'. split; [exact E|]. split; [reflexivity|]. split; [exact Ha | exact Eout].
Defined.

(** At most one active session for each user. *)
Lemma handle_keeps_one_active `{PasswordHasher} T env req s :
  consistent T s ->
  (forall uid, (List.length (filter (active_for uid) (login_sessions s)) <= 1)%nat) ->
  forall uid,
    (List.length (filter (active_for uid) (login_sessions (fst (handle env req s)))) <= 1)%nat.
Proof.
  intros C I uid. unfold handle.
  destruct req as [n e p|e c|e p dev|e|e c p|ru loc lat lon|ru loc lat lon|ru dev]; simpl.
  - rewrite (keeps_run _ _ (signup_keeps_login_sessions _ _ _ _ _)). apply I.
  - rewrite (keeps_run _ _ (verify_otp_keeps_login_sessions _ _ _)). apply I.
  - destruct (login_cases (clock env) e p dev s)
      as [E|[E|[E|(e' & p' & u & _ & _ & _ & _ & E)]]]; rewrite E; try apply I.
    cbn [fst]. rewrite active_after_login by apply (@logins_unique _ _ C).
    destruct (Nat.eqb uid (User._id u)); [simpl; lia | apply I].
  - rewrite (keeps_run _ _ (forgot_password_keeps_login_sessions _ _ _)). apply I.
  - rewrite (keeps_run _ _ (reset_password_keeps_login_sessions _ _ _ _)). apply I.
  - rewrite (keeps_run _ _ (punch_in_keeps_login_sessions _ _ _ _ _)). apply I.
  - rewrite (keeps_run _ _ (punch_out_keeps_login_sessions _ _ _ _ _)). apply I.
  - destruct ru as [email|]; [|apply I].
    pose proof (logout_cases (clock env) email dev s) as E.
    destruct (find_one _ (users s)) as [u|]; rewrite E; [|apply I].
    cbn [fst]. rewrite active_after_logout.
    destruct (Nat.eqb uid (User._id u)); [simpl; lia | apply I].
Qed.

Lemma reachable_one_active `{PasswordHasher} (trace : list (Env * Request)) (uid : ObjectId) :
  (List.length (filter (active_for uid) (login_sessions (handle_all trace empty_store))) <= 1)%nat.
Proof.
  revert uid.
  apply (reachable_invariant
           (fun s => forall uid,
                       (List.length (filter (active_for uid) (login_sessions s)) <= 1)%nat)).
  - intros uid. simpl. lia.
  - intros T env req s _ C I. apply (handle_keeps_one_active T); assumption.
Qed.

(** Among at most one match, the latest is the first. *)
Lemma find_one_desc_single (D : Type) (p : D -> bool) (ltb : D -> D -> bool) (c : list D) :
  (List.length (filter p c) <= 1)%nat -> find_one_desc p ltb c = find_one p c.
Proof.
  unfold find_one_desc, find_one. intros Hlen.
  assert (Hhd : find p c = hd_error (filter p c)).
  { clear Hlen. induction c as [|d r IH]; simpl; [reflexivity|].
    destruct (p d); [reflexivity | exact IH]. }
  rewrite Hhd. destruct (filter p c) as [|a [|b r]]; simpl in *; [reflexivity | reflexivity | lia].
Qed.

(** X6.  In every store that requests have built from the empty one, a user
    has at most one active login session; so the session that [punch_in]
    finds with a plain [find_one] is the one that [get_active_session]
    (which [punch_out] calls) finds as the latest by login time. *)
Theorem one_active_session_per_user `{PasswordHasher} (trace : list (Env * Request))
    (user_id : ObjectId) :
  (List.length (filter (active_for user_id) (login_sessions (handle_all trace empty_store)))
   <= 1)%nat
  /\ MongoLoginSession.get_active_session user_id (handle_all trace empty_store)
     = (handle_all trace empty_store,
        inr (find_one (fun d => Nat.eqb (LoginSession.user_id d) user_id
                                && LoginSession.is_active d)
               (login_sessions (handle_all trace empty_store)))).
Proof.
  split; [apply reachable_one_active|].
  unfold MongoLoginSession.get_active_session, gets. f_equal. f_equal.
  apply find_one_desc_single. apply (reachable_one_active trace user_id).
Qed.

(** [has_logged_out_after] asks whether the latest logout is later. *)
Lemma has_logged_out_after_latest (user_id : ObjectId) (login_time : Z) (s : Store) :
  MongoLogoutSession.has_logged_out_after user_id login_time s
  = (s, inr match find_one_desc (fun d => Nat.eqb (LogoutSession.user_id d) user_id)
                    MongoLogoutSession.logout_ltb (logout_sessions s) with
            | Some lo => login_time <? LogoutSession.logout_time lo
            | None => false
            end).
Proof.
  unfold MongoLogoutSession.has_logged_out_after, gets. f_equal. f_equal.
  unfold find_one_desc.
  destruct (find_one _ (logout_sessions s)) as [d|] eqn:E1;
    destruct (first_max _ _) as [lo|] eqn:E2.
  - symmetry. apply Z.ltb_lt. apply find_some in E1. destruct E1 as [Hd Hq].
    apply andb_true_iff in Hq. destruct Hq as [Hid Hlt]. apply Z.ltb_lt in Hlt.
    assert (Hle : LogoutSession.logout_time d <= LogoutSession.logout_time lo).
    { apply (@first_max_greatest _ LogoutSession.logout_time _ lo E2).
      apply filter_In. auto. }
    lia.
  - exfalso. apply first_max_none in E2. apply find_some in E1. destruct E1 as [Hd Hq].
    apply andb_true_iff in Hq. destruct Hq as [Hid _].
    assert (Hin : In d (filter (fun d => Nat.eqb (LogoutSession.user_id d) user_id)
                          (logout_sessions s))) by (apply filter_In; auto).
    rewrite E2 in Hin. exact Hin.
  - symmetry. apply first_max_in in E2. apply filter_In in E2. destruct E2 as [Hlo Hid].
    pose proof (find_none _ _ E1 lo Hlo) as Hq. cbv beta in Hq. rewrite Hid in Hq. exact Hq.
  - reflexivity.
Qed.

(** X7.  [has_logged_out_after(user_id, login_time)] holds exactly when the
    latest logout of the user, as [get_latest_logout] returns it, is later
    than [login_time]; and for a user with a login session, [reset_password]
    answers "You have logged out" exactly when
    [has_logged_out_after(user.id, latest_login.timestamp)] holds: the guard
    written out in the handler is the model method. *)
Theorem has_logged_out_after_is_the_reset_guard `{PasswordHasher} (clk : Clock)
    (email otp_code new_password : string) (s : Store) (u : User.doc)
    (li : LoginSession.doc) :
  find_one (fun d => (User.email d =? email)%string) (users s) = Some u ->
  MongoLoginSession.get_latest_login (User._id u) s = (s, inr (Some li)) ->
  (forall user_id login_time,
      MongoLogoutSession.has_logged_out_after user_id login_time s = (s, inr true)
      <-> exists lo,
            MongoLogoutSession.get_latest_logout user_id s = (s, inr (Some lo))
            /\ login_time < LogoutSession.logout_time lo)
  /\ (snd (run (views_mongo.reset_password clk email otp_code new_password) s)
        = SessionInvalidated
      <-> MongoLogoutSession.has_logged_out_after (User._id u)
            (MongoLoginSession.timestamp li) s = (s, inr true)).
Proof.
  intros Hu Hli. split.
  - intros uid t. rewrite has_logged_out_after_latest.
    unfold MongoLogoutSession.get_latest_logout, gets.
    destruct (find_one_desc _ _ (logout_sessions s)) as [lo|]; split.
    + intros E. exists lo. split; [reflexivity|]. apply Z.ltb_lt. congruence.
    + intros (lo' & E & Hlt). inversion E. subst lo'.
      apply Z.ltb_lt in Hlt. rewrite Hlt. reflexivity.
    + discriminate.
    + intros (lo' & E & _). discriminate E.
  - rewrite reset_password_invalidated_iff, has_logged_out_after_latest.
    unfold session_invalidated. rewrite Hu.
    unfold MongoLoginSession.get_latest_login, gets in Hli. inversion Hli as [Hli'].
    rewrite Hli'. unfold views_mongo.logged_out_after_login.
    destruct (find_one_desc _ _ (logout_sessions s)) as [lo|]; split; intros E;
      try discriminate; congruence.
Qed.

Lemma has_logged_out_after_is_the_reset_guard_witness :
  MongoLogoutSession.has_logged_out_after (User._id alice_doc)
    (get_ist_time (clock (at_time 20 "2024-01-01"))) alice_reset_after_logout
  = (alice_reset_after_logout, inr true).
Proof.
  apply (proj2 (@has_logged_out_after_is_the_reset_guard plain_hasher
                  (clock (at_time 40 "2024-01-01")) "a@x.com" "123456" "pw2"
                  alice_reset_after_logout alice_doc
                  {| LoginSession._id := 2%nat; LoginSession.user_id := 0%nat;
                     LoginSession.username := Some "alice";
                     LoginSession.device_type := "web";
                     LoginSession.login_time := get_ist_time (clock (at_time 20 "2024-01-01"));
                     LoginSession.is_active := false |}
                  eq_refl eq_refl)).
  reflexivity.
Defined.




(** ** The users collection *)

Section UsersFrame.
Context `{PasswordHasher}.

Lemma login_keeps_users clk e p dev : keeps users (views_mongo.login clk e p dev).
Proof.
  unfold views_mongo.login, views_mongo.logout_previous_session, MongoUser.authenticate,
    MongoUser.get_by_email, MongoLogoutSession.create_session,
    MongoLoginSession.create_session, MongoUser.get_by_id.
  keeps_tac.
Qed.

Lemma forgot_password_keeps_users clk code e :
  keeps users (views_mongo.forgot_password clk code e).
Proof.
  unfold views_mongo.forgot_password, MongoUser.get_by_email, MongoOTP.create_otp,
    MongoOTP.cleanup_expired_otps.
  keeps_tac.
Qed.

Lemma punch_in_keeps_users clk ru loc lat lon :
  keeps users (views_mongo.punch_in clk ru loc lat lon).
Proof.
  unfold views_mongo.punch_in, MongoUser.get_by_email. cbv zeta.
  keeps_tac.
Qed.

Lemma punch_out_keeps_users clk ru loc lat lon :
  keeps users (views_mongo.punch_out clk ru loc lat lon).
Proof.
  unfold views_mongo.punch_out, MongoUser.get_by_email,
    MongoLoginSession.get_active_session, MongoAttendance.punch_out. cbv zeta.
  keeps_tac.
Qed.

Lemma logout_keeps_users clk u dev : keeps users (views_mongo.logout clk u dev).
Proof.
  unfold views_mongo.logout, views_mongo.get_user_id_from_request, MongoUser.get_by_email,
    MongoLogoutSession.create_session.
  keeps_tac.
Qed.

Lemma unverified_query_unverified clk email d :
  MongoUser.unverified_query clk email d = true -> User.is_verified d = false.
Proof.
  unfold MongoUser.unverified_query. destruct (User.is_verified d); [|reflexivity].
  discriminate.
Qed.

Lemma users_cleaned_up clk e s :
  users (cleaned_up clk e s) = delete_many (MongoUser.unverified_query clk (Some e)) (users s).
Proof. unfold cleaned_up. destruct (truthy (Some e)); reflexivity. Qed.

Lemma next_oid_cleaned_up clk e s : next_oid (cleaned_up clk e s) = next_oid s.
Proof. unfold cleaned_up. destruct (truthy (Some e)); reflexivity. Qed.

(** Every request changes [users] by one of the steps above. *)
Lemma handle_users_step env req s :
  users_step (users s) (users (fst (handle env req s))).
Proof.
  unfold handle.
  destruct req as [n e p|e c|e p dev|e|e c p|ru loc lat lon|ru loc lat lon|ru dev]; simpl.
  - pose proof (signup_cases (clock env) (generated_otp env) n e p s) as E.
    destruct (find_one _ (users (cleaned_up (clock env) e s))) as [ex|] eqn:Hex.
    + destruct (User.is_verified ex) eqn:Hv;
        [|destruct (recent_unverified (clock env) ex)]; rewrite E; cbn [fst].
      * rewrite users_cleaned_up. apply users_cleaned.
        apply unverified_query_unverified.
      * rewrite users_cleaned_up. apply users_cleaned.
        apply unverified_query_unverified.
      * unfold signed_up, otp_created.
        cbn [users set_users set_otps bump_oid next_oid]. rewrite users_cleaned_up in *.
        apply (@users_replaced (users s) _
                 (new_user (clock env) n e p (next_oid (cleaned_up (clock env) e s))) ex);
          [apply unverified_query_unverified | exact Hex | exact Hv | reflexivity].
    + rewrite E. cbn [fst]. unfold signed_up, otp_created.
      cbn [users set_users set_otps bump_oid next_oid]. rewrite users_cleaned_up in *.
      apply (@users_inserted (users s) _
               (new_user (clock env) n e p (next_oid (cleaned_up (clock env) e s))));
        [apply unverified_query_unverified | exact Hex | reflexivity].
  - pose proof (verify_otp_cases (clock env) e c s) as E.
    destruct (find_one_desc _ _ (otps s)) as [o|]; [|rewrite E; apply users_same].
    destruct (negb (OTP.otp o =? c)%string); [rewrite E; apply users_same|].
    destruct (negb (MongoOTP.is_valid (clock env) o)); [rewrite E; apply users_same|].
    destruct (find_one _ (users s)) as [u|] eqn:Hu; rewrite E; [|apply users_same].
    apply find_some in Hu. destruct Hu as [Hu _].
    unfold verified. cbn [fst users set_users set_otps].
    apply users_saved; auto.
  - rewrite (keeps_run _ _ (login_keeps_users _ _ _ _)). apply users_same.
  - rewrite (keeps_run _ _ (forgot_password_keeps_users _ _ _)). apply users_same.
  - destruct (session_invalidated e s) eqn:G.
    + rewrite (reset_password_guarded (clock env) e c p s G). apply users_same.
    + pose proof (reset_password_unguarded (clock env) e c p s G) as U.
      destruct (find_one_desc _ _ (otps s)) as [o|]; [|rewrite U; apply users_same].
      destruct (OTP.otp o =? c)%string; [|rewrite U; apply users_same].
      destruct (find_one _ (users s)) as [u|] eqn:Hu; rewrite U; [|apply users_same].
      apply find_some in Hu. destruct Hu as [Hu _].
      cbn [fst users set_users set_otps].
      apply users_saved; auto.
  - rewrite (keeps_run _ _ (punch_in_keeps_users _ _ _ _ _)). apply users_same.
  - rewrite (keeps_run _ _ (punch_out_keeps_users _ _ _ _ _)). apply users_same.
  - rewrite (keeps_run _ _ (logout_keeps_users _ _ _)). apply users_same.
Qed.
End UsersFrame.

(** With one row per email, the [delete_one] of [create_user] leaves no
    row of the email. *)
Lemma delete_one_unverified_with (e : string) (c : list User.doc) (ex : User.doc) :
  NoDup (map User.email c) -> In ex c -> User.email ex = e -> User.is_verified ex = false ->
  delete_one (unverified_with e) c = delete_many (fun d => (User.email d =? e)%string) c.
Proof.
  intros Hnd Hin He Hv. unfold delete_many.
  induction c as [|a r IH]; simpl in *; [contradiction|].
  inversion Hnd as [|x l Hnotin Hnd']. subst x l.
  destruct Hin as [->|Hin].
  - unfold unverified_with at 1. rewrite He, String.eqb_refl, Hv. simpl.
    symmetry. rewrite <- (filter_ext_in (fun _ => true)).
    + clear. induction r as [|a r IH]; simpl; [reflexivity | f_equal; exact IH].
    + intros d Hd. destruct (String.eqb_spec (User.email d) e) as [Heq|_]; [|reflexivity].
      exfalso. apply Hnotin. rewrite He, <- Heq. apply in_map. exact Hd.
  - assert (Hne : User.email a <> e).
    { intros Heq. apply Hnotin. rewrite Heq, <- He. apply in_map. exact Hin. }
    unfold unverified_with at 1.
    destruct (String.eqb_spec (User.email a) e); [contradiction|]. simpl.
    f_equal. apply IH; assumption.
Qed.

Lemma users_step_emails (c c' : list User.doc) :
  users_step c c' ->
  NoDup (map User._id c) -> NoDup (map User.email c) -> NoDup (map User.email c').
Proof.
  intros Hstep Hids Hemails.
  destruct Hstep as [|q Hq|q new Hq Hnone Hrole|q new ex Hq Hex Hv Hrole|u data Hu Hid He Hr Hver].
  - exact Hemails.
  - apply NoDup_keys_delete_many, Hemails.
  - apply NoDup_keys_insert_one; [apply NoDup_keys_delete_many, Hemails|].
    intros x Hx Heq. pose proof (proj1 (find_one_none_forall _ _ _) Hnone x Hx) as Hf.
    cbv beta in Hf. rewrite Heq, String.eqb_refl in Hf. discriminate.
  - pose proof (NoDup_keys_delete_many _ _ User.email q c Hemails) as Hnd.
    apply find_some in Hex. destruct Hex as [Hin He]. apply String.eqb_eq in He.
    rewrite (delete_one_unverified_with (User.email new) _ ex Hnd Hin He Hv).
    apply NoDup_keys_insert_one; [apply NoDup_keys_delete_many, Hnd|].
    intros x Hx Heq. unfold delete_many in Hx at 1. apply filter_In in Hx.
    destruct Hx as [_ Hx]. rewrite Heq, String.eqb_refl in Hx. discriminate.
  - rewrite keys_update_one; [exact Hemails|].
    intros d Hd Hdid. apply Nat.eqb_eq in Hdid.
    rewrite (unique_by_id _ User._id c d u Hids Hd Hu Hdid). exact He.
Qed.

Lemma users_step_verified (c c' : list User.doc) (u : User.doc) :
  users_step c c' -> NoDup (map User._id c) ->
  In u c -> User.is_verified u = true ->
  exists u', In u' c' /\ User._id u' = User._id u /\ User.email u' = User.email u
             /\ User.is_verified u' = true.
Proof.
  intros Hstep Hids Hin Hv.
  assert (Hkeep : forall q, (forall d, q d = true -> User.is_verified d = false) ->
                            In u (delete_many q c)).
  { intros q Hq. apply In_delete_many_keep; [exact Hin|].
    destruct (q u) eqn:X; [|reflexivity]. rewrite (Hq u X) in Hv. discriminate. }
  destruct Hstep as [|q Hq|q new Hq Hnone Hrole|q new ex Hq Hex Hvex Hrole
                     |u0 data Hu0 Hid He Hr Hver].
  - exists u. auto.
  - exists u. auto.
  - exists u. split; [|auto]. unfold insert_one. apply in_or_app. left. apply Hkeep, Hq.
  - exists u. split; [|auto]. unfold insert_one. apply in_or_app. left.
    apply In_delete_one_keep; [apply Hkeep, Hq|].
    unfold unverified_with. rewrite Hv. apply andb_false_r.
  - destruct (In_update_one_keep _ (fun d => Nat.eqb (User._id d) (User._id u0))
                (fun _ => data) c u Hin) as [Hkept|[Hsame Hdata]].
    + exists u. auto.
    + apply Nat.eqb_eq in Hsame.
      pose proof (unique_by_id _ User._id c u u0 Hids Hin Hu0 Hsame) as Heq. subst u0.
      exists data. auto.
Qed.

Lemma users_step_roles (c c' : list User.doc) :
  users_step c c' ->
  (forall u, In u c -> User.role u = "employee") ->
  forall u, In u c' -> User.role u = "employee".
Proof.
  intros Hstep I u Hu.
  destruct Hstep as [|q Hq|q new Hq Hnone Hrole|q new ex Hq Hex Hvex Hrole
                     |u0 data Hu0 Hid He Hr Hver].
  - auto.
  - apply I. eapply In_delete_many. exact Hu.
  - apply in_app_or in Hu. destruct Hu as [Hu|[<-|[]]]; [|exact Hrole].
    apply I. eapply In_delete_many. exact Hu.
  - apply in_app_or in Hu. destruct Hu as [Hu|[<-|[]]]; [|exact Hrole].
    apply I. eapply In_delete_many. eapply In_delete_one. exact Hu.
  - apply In_update_one in Hu. destruct Hu as [Hu|(d0 & _ & _ & ->)]; [auto|].
    rewrite Hr. auto.
Qed.

(** X9.  In every store that requests have built from the empty one, no
    two user rows carry the same email. *)
Theorem one_user_per_email `{PasswordHasher} (trace : list (Env * Request)) :
  NoDup (map User.email (users (handle_all trace empty_store))).
Proof.
  apply (reachable_invariant (fun s => NoDup (map User.email (users s)))).
  - constructor.
  - intros T env req s _ C I.
    apply (users_step_emails (users s)); [apply handle_users_step | | exact I].
    apply (@users_unique _ _ C).
Qed.

Lemma verified_persists `{PasswordHasher} (T : Z) (trace : list (Env * Request)) (s : Store)
    (u : User.doc) :
  Forall (fun step => get_ist_time (clock (fst step)) < T) trace ->
  consistent T s -> In u (users s) -> User.is_verified u = true ->
  exists u', In u' (users (handle_all trace s)) /\ User._id u' = User._id u
             /\ User.email u' = User.email u /\ User.is_verified u' = true.
Proof.
  revert s u. induction trace as [|[env req] rest IH]; intros s u Hall C Hin Hv; simpl.
  - exists u. auto.
  - inversion Hall as [|x l Hx Hrest]. subst.
    destruct (users_step_verified (users s) _ u (handle_users_step env req s)
                (@users_unique _ _ C) Hin Hv) as (u1 & Hin1 & Hid1 & He1 & Hv1).
    destruct (IH (fst (handle env req s)) u1 Hrest
                (handle_consistent T env req s Hx C) Hin1 Hv1) as (u2 & Hin2 & Hid2 & He2 & Hv2).
    exists u2. repeat split; [exact Hin2 | congruence | congruence | exact Hv2].
Qed.

(** X10.  Verification is for good: a verified user of a store that
    requests have built from the empty one is still there, under the same
    id and email and still verified, after any further requests; no
    request deletes or unverifies such a user. *)
Theorem verified_user_stays_verified `{PasswordHasher} (trace further : list (Env * Request))
    (u : User.doc) :
  In u (users (handle_all trace empty_store)) ->
  User.is_verified u = true ->
  exists u',
    In u' (users (handle_all (trace ++ further) empty_store))
    /\ User._id u' = User._id u /\ User.email u' = User.email u
    /\ User.is_verified u' = true.
Proof.
  intros Hin Hv. rewrite handle_all_app.
  pose proof (clock_bound_spec (trace ++ further)) as Hall.
  apply Forall_app in Hall. destruct Hall as [H1 H2].
  apply (verified_persists (clock_bound (trace ++ further))); try assumption.
  apply reachable_consistent. exact H1.
Qed.

Lemma verified_user_stays_verified_witness :
  exists u',
    In u' (users (handle_all (H := plain_hasher)
                    ([ (at_time 0 "2024-01-01", Signup "alice" "a@x.com" "pw1");
                       (at_time 10 "2024-01-01", VerifyOtp "a@x.com" "123456");
                       (at_time 20 "2024-01-01", Login alice (Some "pw1") "web") ]
                     ++ [ (at_time 700 "2024-01-01", Signup "mallory" "a@x.com" "pw3") ])
                    empty_store))
    /\ User._id u' = 0%nat /\ User.email u' = "a@x.com" /\ User.is_verified u' = true.
Proof.
  apply (@verified_user_stays_verified plain_hasher
           [ (at_time 0 "2024-01-01", Signup "alice" "a@x.com" "pw1");
             (at_time 10 "2024-01-01", VerifyOtp "a@x.com" "123456");
             (at_time 20 "2024-01-01", Login alice (Some "pw1") "web") ]
           [ (at_time 700 "2024-01-01", Signup "mallory" "a@x.com" "pw3") ]
           alice_doc).
  - left. reflexivity.
  - reflexivity.
Defined.

Lemma reachable_roles `{PasswordHasher} (trace : list (Env * Request)) :
  forall u, In u (users (handle_all trace empty_store)) -> User.role u = "employee".
Proof.
  apply (reachable_invariant (fun s => forall u, In u (users s) -> User.role u = "employee")).
  - intros u [].
  - intros T env req s _ _ I.
    apply (users_step_roles (users s)); [apply handle_users_step | exact I].
Qed.

(** X11.  No request makes an admin: in every store that requests have
    built from the empty one every user has the role [employee], and the
    permission [IsAdmin] is refused to every email. *)
Theorem no_request_grants_admin `{PasswordHasher} (trace : list (Env * Request)) :
  (forall u, In u (users (handle_all trace empty_store)) -> User.role u = "employee")
  /\ forall email,
       IsAdmin.has_permission email (handle_all trace empty_store)
       = (handle_all trace empty_store, inr false).
Proof.
  split; [apply reachable_roles|].
  intros email. unfold IsAdmin.has_permission, MongoUser.get_by_email. unfold_monad.
  destruct (find_one _ _) as [u|] eqn:Hu; [|reflexivity].
  apply find_some in Hu. destruct Hu as [Hu _].
  rewrite (reachable_roles trace u Hu). reflexivity.
Qed.

(** X12.  The [make_admin] command, on a store with unique user ids: for
    an unknown email it reports that the user was not found, and for an
    admin that the user is already one, without writing; otherwise it
    rewrites the user's row with the role [admin], the other fields but
    [updated_at] and the other rows being kept, after which [IsAdmin] is
    granted to the email and a second run reports the user as already an
    admin.  It does not look at [is_verified]. *)
Theorem make_admin_promotes (clk clk' : Clock) (email : string) (s : Store) :
  NoDup (map User._id (users s)) ->
  match find_one (fun d => (User.email d =? email)%string) (users s) with
  | None => make_admin.handle clk email s = (s, inr make_admin.NotFound)
  | Some u =>
      if (User.role u =? "admin")%string
      then make_admin.handle clk email s = (s, inr make_admin.AlreadyAdmin)
      else
        exists s',
          make_admin.handle clk email s = (s', inr make_admin.Promoted)
          /\ users s'
             = map (fun d => if Nat.eqb (User._id d) (User._id u) then promoted clk u else d)
                 (users s)
          /\ find_one (fun d => (User.email d =? email)%string) (users s')
             = Some (promoted clk u)
          /\ IsAdmin.has_permission email s' = (s', inr true)
          /\ make_admin.handle clk' email s' = (s', inr make_admin.AlreadyAdmin)
          /\ otps s' = otps s /\ login_sessions s' = login_sessions s
  end.
Proof.
  intros Hnd.
  destruct (find_one _ (users s)) as [u|] eqn:Hu.
  - destruct (User.role u =? "admin")%string eqn:Hr.
    + unfold make_admin.handle, MongoUser.get_by_email. unfold_monad. rewrite Hu, Hr.
      reflexivity.
    + exists (set_users (update_one (fun d => Nat.eqb (User._id d) (User._id u))
                           (fun _ => promoted clk u)) s).
      split.
      { unfold make_admin.handle, MongoUser.get_by_email, MongoUser.save. unfold_monad.
        rewrite Hu, Hr. reflexivity. }
      cbn [users set_users otps login_sessions].
      assert (Hfound : find_one (fun d => (User.email d =? email)%string)
                         (update_one (fun d => Nat.eqb (User._id d) (User._id u))
                            (fun _ => promoted clk u) (users s)) = Some (promoted clk u)).
      { apply (find_one_update_one_replace _ User._id); [exact Hnd | exact Hu |].
        apply find_some in Hu. exact (proj2 Hu). }
      split; [|split; [exact Hfound|split; [|split; [|split; reflexivity]]]].
      * apply (update_one_by_id _ User._id). exact Hnd.
      * unfold IsAdmin.has_permission, MongoUser.get_by_email. unfold_monad.
        cbn [users set_users]. rewrite Hfound. reflexivity.
      * unfold make_admin.handle, MongoUser.get_by_email. unfold_monad.
        cbn [users set_users]. rewrite Hfound. reflexivity.
  - unfold make_admin.handle, MongoUser.get_by_email. unfold_monad. rewrite Hu. reflexivity.
Qed.

Lemma make_admin_promotes_witness :
  exists s',
    make_admin.handle (clock (at_time 50 "2024-01-01")) "a@x.com" alice_logged_in
      = (s', inr make_admin.Promoted)
    /\ IsAdmin.has_permission "a@x.com" alice_logged_in = (alice_logged_in, inr false)
    /\ IsAdmin.has_permission "a@x.com" s' = (s', inr true).
Proof.
  pose proof (make_admin_promotes (clock (at_time 50 "2024-01-01"))
                (clock (at_time 60 "2024-01-01")) "a@x.com" alice_logged_in) as P.
  assert (Hnd : NoDup (map User._id (users alice_logged_in))).
  { vm_compute. constructor; [intros []|constructor]. }
  specialize (P Hnd). vm_compute find_one in P. cbv iota in P.
  change (("employee" =? "admin")%string) with false in P. cbv iota in P.
  destruct P as (s' & E & _ & _ & Hperm & _).
  exists s'. split; [exact E|]. split; [reflexivity | exact Hperm].
Defined.

(** ** Signing up *)

Section Preserves.
Variable I : Store -> Prop.







End Preserves.











(** The clean-up of [create_user] for a non-empty email. *)
Lemma cleaned_up_nonempty clk e s :
  e <> "" ->
  cleaned_up clk e s
  = set_users (delete_many (MongoUser.unverified_query clk (Some e)))
      (set_otps (delete_many (fun d => (OTP.email d =? e)%string)) s).
Proof.
  intros He. unfold cleaned_up.
  replace (truthy (Some e)) with true; [reflexivity|].
  simpl. destruct (String.eqb_spec e ""); [contradiction|reflexivity].
Qed.

Lemma unverified_query_email clk e d :
  e <> "" ->
  MongoUser.unverified_query clk (Some e) d = true -> User.email d = e.
Proof.
  intros He. unfold MongoUser.unverified_query.
  replace (truthy (Some e)) with true
    by (simpl; destruct (String.eqb_spec e ""); [contradiction|reflexivity]).
  intros Hq. apply andb_true_iff in Hq. destruct Hq as [_ Hq]. apply String.eqb_eq. exact Hq.
Qed.

(** No OTP of an email is left once its OTPs have been deleted: a
    verification for the email finds nothing to compare with. *)
Lemma no_otp_left clk clk' e c s :
  e <> "" ->
  run (views_mongo.verify_otp clk' e c) (cleaned_up clk e s) = (cleaned_up clk e s, InvalidOTP).
Proof.
  intros He. pose proof (verify_otp_cases clk' e c (cleaned_up clk e s)) as E.
  destruct (find_one_desc _ _ (otps (cleaned_up clk e s))) as [o|] eqn:Eo; [exfalso|exact E].
  apply find_one_desc_some in Eo. destruct Eo as [Hin Hq].
  rewrite (cleaned_up_nonempty clk e s He) in Hin. cbn [otps set_users set_otps] in Hin.
  unfold delete_many in Hin. apply filter_In in Hin. destruct Hin as [_ Hne].
  unfold MongoOTP.unused_for in Hq. destruct (OTP.email o =? e)%string; discriminate.
Qed.

Lemma find_one_delete_many_keep (D : Type) (p q : D -> bool) (c : list D) (x : D) :
  find_one p c = Some x -> q x = false -> find_one p (delete_many q c) = Some x.
Proof.
  unfold find_one, delete_many. intros Hx Hq.
  induction c as [|d r IH]; simpl in *; [discriminate|].
  destruct (p d) eqn:Hp.
  - inversion Hx. subst d. rewrite Hq. simpl. rewrite Hp. reflexivity.
  - destruct (q d); simpl; [|rewrite Hp]; auto.
Qed.


(** X13.  A second signup for an email whose unverified user was created
    less than ten minutes ago is rejected ("Please verify your email or
    wait 10 minutes"), the user row staying in place; but the clean-up at
    the head of [create_user] has deleted every OTP of the email, so that
    no code, the one sent at the first signup included, verifies the email
    afterwards: [verify_otp] answers "Invalid OTP". *)
Theorem repeated_signup_deletes_pending_otp `{PasswordHasher} (clk clk' : Clock)
    (otp_code user_name email password code : string) (s : Store) (ex : User.doc)
    (created_at : Z) :
  email <> "" ->
  find_one (fun d => (User.email d =? email)%string) (users s) = Some ex ->
  User.is_verified ex = false ->
  User.created_at ex = Some created_at ->
  get_ist_time clk - created_at < seconds 600 ->
  exists s',
    run (views_mongo.signup clk otp_code user_name email password) s
      = (s', SignupRejected MongoUser.RecentUnverifiedSignupPending)
    /\ find_one (fun d => (User.email d =? email)%string) (users s') = Some ex
    /\ (forall o, In o (otps s') -> OTP.email o <> email)
    /\ run (views_mongo.verify_otp clk' email code) s' = (s', InvalidOTP).
Proof.
  intros He Hex Hv Hc Hrecent. exists (cleaned_up clk email s).
  assert (Hq : MongoUser.unverified_query clk (Some email) ex = false).
  { unfold MongoUser.unverified_query. rewrite Hc.
    replace (created_at <? get_ist_time clk - timedelta 0 10) with false.
    - rewrite andb_false_r. reflexivity.
    - symmetry. apply Z.ltb_ge. unfold timedelta, seconds in *. lia. }
  assert (Hex' : find_one (fun d => (User.email d =? email)%string)
                   (users (cleaned_up clk email s)) = Some ex).
  { rewrite users_cleaned_up. apply find_one_delete_many_keep; assumption. }
  pose proof (signup_cases clk otp_code user_name email password s) as E.
  rewrite Hex', Hv in E. unfold recent_unverified in E. rewrite Hc in E.
  replace (get_ist_time clk - created_at <? seconds 600) with true in E
    by (symmetry; apply Z.ltb_lt; exact Hrecent).
  split; [exact E|]. split; [exact Hex'|]. split.
  - intros o Ho Heq. rewrite (cleaned_up_nonempty clk email s He) in Ho.
    cbn [otps set_users set_otps] in Ho. unfold delete_many in Ho. apply filter_In in Ho.
    destruct Ho as [_ Hne]. rewrite Heq, String.eqb_refl in Hne. discriminate.
  - apply no_otp_left, He.
Qed.

Lemma repeated_signup_deletes_pending_otp_witness :
  snd (run (views_mongo.verify_otp (clock (at_time 60 "2024-01-01")) "b@x.com" "123456")
         bob_signed_up) = EmailVerified
  /\ exists s',
       run (views_mongo.signup (H := plain_hasher) (clock (at_time 50 "2024-01-01")) "654321"
              "bob" "b@x.com" "pw1") bob_signed_up
         = (s', SignupRejected MongoUser.RecentUnverifiedSignupPending)
       /\ run (views_mongo.verify_otp (clock (at_time 60 "2024-01-01")) "b@x.com" "123456") s'
          = (s', InvalidOTP).
Proof.
  split; [reflexivity|].
  destruct (@repeated_signup_deletes_pending_otp plain_hasher
              (clock (at_time 50 "2024-01-01")) (clock (at_time 60 "2024-01-01"))
              "654321" "bob" "b@x.com" "pw1" "123456" bob_signed_up
              {| User._id := 0%nat; User.username := "bob"; User.email := "b@x.com";
                 User.password := "h:pw1"; User.is_verified := false;
                 User.role := "employee";
                 User.created_at := Some (get_ist_time (clock (at_time 0 "2024-01-01")));
                 User.updated_at := get_ist_time (clock (at_time 0 "2024-01-01")) |}
              (get_ist_time (clock (at_time 0 "2024-01-01"))))
    as (s' & E & _ & _ & Ev).
  - discriminate.
  - reflexivity.
  - reflexivity.
  - reflexivity.
  - vm_compute. reflexivity.
  - exists s'. split; [exact E | exact Ev].
Defined.

(** X14.  A signup for an email whose only user row is unverified and was
    created ten minutes ago or more (or carries no creation time) is
    accepted: the stale row is deleted, whether by the clean-up or by the
    [delete_one] that follows the look-up, and the new unverified row
    inserted, so that the email has exactly the new row; every OTP of the
    email but the new one is gone. *)
Theorem stale_unverified_signup_is_replaced `{PasswordHasher} (clk : Clock)
    (otp_code user_name email password : string) (s : Store) (ex : User.doc) :
  email <> "" ->
  NoDup (map User.email (users s)) ->
  find_one (fun d => (User.email d =? email)%string) (users s) = Some ex ->
  User.is_verified ex = false ->
  recent_unverified clk ex = false ->
  exists s',
    run (views_mongo.signup clk otp_code user_name email password) s
      = (s', UserCreated (next_oid s))
    /\ users s'
       = delete_many (fun d => (User.email d =? email)%string) (users s)
         ++ [new_user clk user_name email password (next_oid s)]
    /\ filter (fun d => (User.email d =? email)%string) (users s')
       = [new_user clk user_name email password (next_oid s)]
    /\ filter (fun o => (OTP.email o =? email)%string) (otps s')
       = [new_otp clk otp_code email signup_purpose (S (next_oid s))].
Proof.
  intros He Hnd Hex Hv Hstale.
  pose proof (find_some _ _ Hex) as [Hin Hemail]. apply String.eqb_eq in Hemail.
  assert (Hothers : forall d, In d (users s) -> User.email d = email -> d = ex).
  { intros d Hd Hde. apply (unique_by_key _ _ User.email (users s)); congruence. }
  assert (Husers : users (fst (run (views_mongo.signup clk otp_code user_name email password) s))
                   = delete_many (fun d => (User.email d =? email)%string) (users s)
                     ++ [new_user clk user_name email password (next_oid s)]
                   /\ snd (run (views_mongo.signup clk otp_code user_name email password) s)
                      = UserCreated (next_oid s)
                   /\ otps (fst (run (views_mongo.signup clk otp_code user_name email password) s))
                      = delete_many (MongoOTP.expired_query clk None)
                          (delete_many (fun d => (OTP.email d =? email)%string) (otps s))
                        ++ [new_otp clk otp_code email signup_purpose (S (next_oid s))]).
  { pose proof (signup_cases clk otp_code user_name email password s) as E.
    rewrite users_cleaned_up in E.
    destruct (MongoUser.unverified_query clk (Some email) ex) eqn:Hq.
    - (* the clean-up deletes the stale row *)
      assert (Hdel : delete_many (MongoUser.unverified_query clk (Some email)) (users s)
                     = delete_many (fun d => (User.email d =? email)%string) (users s)).
      { unfold delete_many. apply filter_ext_in. intros d Hd. f_equal.
        destruct (String.eqb_spec (User.email d) email) as [Heq|Hne].
        - rewrite (Hothers d Hd Heq). exact Hq.
        - destruct (MongoUser.unverified_query clk (Some email) d) eqn:X; [|reflexivity].
          apply (unverified_query_email clk email d He) in X. contradiction. }
      rewrite Hdel in E.
      replace (find_one (fun d => (User.email d =? email)%string)
                 (delete_many (fun d => (User.email d =? email)%string) (users s)))
        with (@None User.doc) in E.
      + rewrite E. unfold signed_up, otp_created.
        rewrite (cleaned_up_nonempty clk email s He).
        cbn [fst snd users otps set_users set_otps bump_oid next_oid].
        rewrite Hdel. repeat split.
      + symmetry. apply find_one_none_forall. intros d Hd. unfold delete_many in Hd.
        apply filter_In in Hd. destruct Hd as [_ Hd]. destruct (User.email d =? email)%string;
          [discriminate|reflexivity].
    - (* the row survives the clean-up and is deleted after the look-up *)
      assert (Hsame : delete_many (MongoUser.unverified_query clk (Some email)) (users s)
                      = users s).
      { apply delete_many_nothing. intros d Hd.
        destruct (MongoUser.unverified_query clk (Some email) d) eqn:X; [|reflexivity].
        pose proof (unverified_query_email clk email d He X) as Hde.
        rewrite (Hothers d Hd Hde) in X. congruence. }
      rewrite Hsame, Hex, Hv, Hstale in E. rewrite E.
      unfold signed_up, otp_created. rewrite (cleaned_up_nonempty clk email s He).
      cbn [fst snd users otps set_users set_otps bump_oid next_oid].
      rewrite Hsame.
      rewrite (delete_one_unverified_with email (users s) ex Hnd Hin Hemail Hv).
      repeat split. }
  destruct (run (views_mongo.signup clk otp_code user_name email password) s) as [s' r].
  cbn [fst snd] in Husers. destruct Husers as (Hu & -> & Ho).
  exists s'. split; [reflexivity|]. split; [exact Hu|]. split.
  - rewrite Hu, filter_app. simpl. rewrite String.eqb_refl.
    replace (filter _ (delete_many _ (users s))) with (@nil User.doc); [reflexivity|].
    symmetry. apply find_one_none_filter. apply find_one_none_forall. intros d Hd.
    unfold delete_many in Hd. apply filter_In in Hd. destruct Hd as [_ Hd].
    destruct (User.email d =? email)%string; [discriminate|reflexivity].
  - rewrite Ho, filter_app. simpl. rewrite String.eqb_refl.
    replace (filter _ (delete_many _ (delete_many _ (otps s)))) with (@nil OTP.doc);
      [reflexivity|].
    symmetry. apply find_one_none_filter. apply find_one_none_forall. intros d Hd.
    apply In_delete_many in Hd. unfold delete_many in Hd. apply filter_In in Hd.
    destruct Hd as [_ Hd]. destruct (OTP.email d =? email)%string; [discriminate|reflexivity].
Qed.

Lemma stale_unverified_signup_is_replaced_witness :
  exists s',
    run (views_mongo.signup (H := plain_hasher) (clock (at_time 600 "2024-01-01")) "654321"
           "bobby" "b@x.com" "pw2") bob_signed_up = (s', UserCreated 2%nat)
    /\ map User.username (users s') = ["bobby"].
Proof.
  destruct (@stale_unverified_signup_is_replaced plain_hasher
              (clock (at_time 600 "2024-01-01")) "654321" "bobby" "b@x.com" "pw2"
              bob_signed_up
              {| User._id := 0%nat; User.username := "bob"; User.email := "b@x.com";
                 User.password := "h:pw1"; User.is_verified := false;
                 User.role := "employee";
                 User.created_at := Some (get_ist_time (clock (at_time 0 "2024-01-01")));
                 User.updated_at := get_ist_time (clock (at_time 0 "2024-01-01")) |})
    as (s' & E & Hu & _).
  - discriminate.
  - vm_compute. constructor; [intros []|constructor].
  - reflexivity.
  - reflexivity.
  - vm_compute. reflexivity.
  - exists s'. split; [exact E|]. rewrite Hu. reflexivity.
Defined.

(** ** From signup to login *)

Section Authenticate.
Context `{PasswordHasher}.

Lemma authenticate_accepts email password s u :
  find_one (fun d => (User.email d =? email)%string) (users s) = Some u ->
  check_password password (User.password u) = true ->
  MongoUser.authenticate email password s = (s, inr (Some u)).
Proof.
  intros Hu Hpw. unfold MongoUser.authenticate, MongoUser.get_by_email. unfold_monad.
  rewrite Hu, Hpw. reflexivity.
Qed.

End Authenticate.



(** ** One-time codes: clean-up and succession *)

Lemma valid_not_expired (clk : Clock) (email : option string) (o : OTP.doc) :
  MongoOTP.is_valid clk o = true -> MongoOTP.expired_query clk email o = false.
Proof.
  intros Hv. apply is_valid_iff in Hv. destruct Hv as (_ & c & Hc & Hlt).
  unfold MongoOTP.expired_query. rewrite Hc.
  replace (c <? get_ist_time clk - timedelta 0 10) with false; [reflexivity|].
  symmetry. apply Z.ltb_ge. unfold timedelta, seconds in *. lia.
Qed.

(** X16.  [cleanup_expired_otps] returns the number of OTPs it deletes; it
    deletes no OTP that [is_valid] accepts at the same clock reading and
    touches nothing but the OTPs; run again at once it deletes nothing.
    Without an email, as the script [cleanup_expired_otps.py] calls it,
    every OTP with a creation time that it leaves was created at most 600
    seconds before: an OTP of exactly 600 seconds is kept, though it is no
    longer valid. *)
Theorem cleanup_expired_otps_spares_valid_otps (clk : Clock) (email : option string)
    (s : Store) :
  exists s' n,
    MongoOTP.cleanup_expired_otps clk email s = (s', inr n)
    /\ (n + List.length (otps s') = List.length (otps s))%nat
    /\ (forall o, In o (otps s') -> In o (otps s))
    /\ (forall o, In o (otps s) -> MongoOTP.is_valid clk o = true -> In o (otps s'))
    /\ MongoOTP.cleanup_expired_otps clk email s' = (s', inr 0%nat)
    /\ users s' = users s
    /\ (forall s'' n',
          cleanup_expired_otps.main clk s = (s'', inr n') ->
          forall o created_at,
            In o (otps s'') -> OTP.created_at o = Some created_at ->
            get_ist_time clk - created_at <= seconds 600).
Proof.
  exists (set_otps (delete_many (MongoOTP.expired_query clk email)) s),
    (List.length (filter (MongoOTP.expired_query clk email) (otps s))).
  split; [reflexivity|]. cbn [otps users set_otps]. split; [|split; [|split; [|split; [|split]]]].
  - rewrite Nat.add_comm. apply length_delete_many.
  - intros o. apply In_delete_many.
  - intros o Ho Hv. apply In_delete_many_keep; [exact Ho|]. apply valid_not_expired, Hv.
  - unfold MongoOTP.cleanup_expired_otps. unfold_monad. cbn [otps set_otps].
    assert (Hnone : filter (MongoOTP.expired_query clk email)
                      (delete_many (MongoOTP.expired_query clk email) (otps s)) = []).
    { apply find_one_none_filter. apply find_one_none_forall. intros d Hd.
      unfold delete_many in Hd. apply filter_In in Hd. destruct Hd as [_ Hd].
      destruct (MongoOTP.expired_query clk email d); [discriminate|reflexivity]. }
    rewrite Hnone. unfold set_otps at 1. cbn [otps users login_sessions logout_sessions
      punched_in punched_out attendance next_oid set_otps].
    rewrite delete_many_idempotent. reflexivity.
  - reflexivity.
  - intros s'' n' E o c Ho Hc. unfold cleanup_expired_otps.main in E.
    inversion E. subst s''. cbn [otps set_otps] in Ho.
    unfold delete_many in Ho. apply filter_In in Ho. destruct Ho as [_ Hq].
    unfold MongoOTP.expired_query in Hq. rewrite Hc in Hq. simpl in Hq.
    rewrite andb_true_r in Hq. apply negb_true_iff in Hq. apply Z.ltb_ge in Hq.
    unfold timedelta, seconds in *. lia.
Qed.




Section ResetThenLogin.
Context `{PasswordHasher}.

Lemma login_wrong_password clk email password device_type s u :
  email <> "" -> password <> "" ->
  find_one (fun d => (User.email d =? email)%string) (users s) = Some u ->
  check_password password (User.password u) = false ->
  run (views_mongo.login clk (Some email) (Some password) device_type) s
    = (s, InvalidCredentials).
Proof.
  intros Hemail Hpassword Hu Hpw. unfold views_mongo.login.
  replace (negb (truthy (Some email)) || negb (truthy (Some password))) with false.
  - assert (Hauth : MongoUser.authenticate email password s = (s, inr None)).
    { unfold MongoUser.authenticate, MongoUser.get_by_email. unfold_monad.
      rewrite Hu, Hpw. reflexivity. }
    rewrite run_bind, Hauth. reflexivity.
  - simpl. destruct (String.eqb_spec email ""); [contradiction|].
    destruct (String.eqb_spec password ""); [contradiction|]. reflexivity.
Qed.
End ResetThenLogin.

(** X18.  After an accepted password reset, on a store with unique user
    ids, the login of the (verified) user with the new password is
    accepted, and a login with a password that the hasher does not match
    with the new hash, the old password for one, is answered "Invalid
    credentials".  The password hasher is assumed to accept the password
    it has hashed. *)
Theorem reset_then_login `{PasswordHasher} (clk clk' : Clock)
    (email otp_code new_password device_type : string) (s s1 : Store) (u : User.doc) :
  email <> "" -> new_password <> "" ->
  check_password new_password (make_password new_password) = true ->
  NoDup (map User._id (users s)) ->
  find_one (fun d => (User.email d =? email)%string) (users s) = Some u ->
  User.is_verified u = true ->
  run (views_mongo.reset_password clk email otp_code new_password) s = (s1, PasswordReset) ->
  (exists s2,
     run (views_mongo.login clk' (Some email) (Some new_password) device_type) s1
     = (s2, LoginSuccessful (with_new_password clk u new_password)))
  /\ (forall old_password,
        old_password <> "" ->
        check_password old_password (make_password new_password) = false ->
        run (views_mongo.login clk' (Some email) (Some old_password) device_type) s1
        = (s1, InvalidCredentials)).
Proof.
  intros He Hp Hhash Hnd Hu Hv R.
  assert (Hu1 : find_one (fun d => (User.email d =? email)%string) (users s1)
                = Some (with_new_password clk u new_password)).
  { destruct (session_invalidated email s) eqn:G.
    - rewrite (reset_password_guarded clk email otp_code new_password s G) in R.
      discriminate R.
    - pose proof (reset_password_unguarded clk email otp_code new_password s G) as U.
      destruct (find_one_desc _ _ (otps s)) as [o|];
        [|rewrite U in R; discriminate R].
      destruct (OTP.otp o =? otp_code)%string; [|rewrite U in R; discriminate R].
      rewrite Hu in U. rewrite U in R. inversion R. subst s1.
      cbn [users set_users set_otps].
      apply (find_one_update_one_replace _ User._id); [exact Hnd | exact Hu |].
      apply find_some in Hu. exact (proj2 Hu). }
  split.
  - eexists.
    apply (login_accepted clk' email new_password device_type s1 _ He Hp); [|exact Hv].
    apply authenticate_accepts; [exact Hu1 | exact Hhash].
  - intros old Hold Hwrong.
    apply (login_wrong_password clk' email old device_type s1 _ He Hold Hu1). exact Hwrong.
Qed.

Lemma reset_then_login_witness :
  exists s1 s2 u2,
    run (views_mongo.reset_password (H := plain_hasher) (clock (at_time 110 "2024-01-01"))
           "a@x.com" "123456" "pw2") alice_forgot = (s1, PasswordReset)
    /\ run (views_mongo.login (H := plain_hasher) (clock (at_time 120 "2024-01-01"))
              (Some "a@x.com") (Some "pw2") "web") s1 = (s2, LoginSuccessful u2)
    /\ run (views_mongo.login (H := plain_hasher) (clock (at_time 120 "2024-01-01"))
              (Some "a@x.com") (Some "pw1") "web") s1 = (s1, InvalidCredentials).
Proof.
  pose (s1 := fst (run (views_mongo.reset_password (H := plain_hasher)
                          (clock (at_time 110 "2024-01-01")) "a@x.com" "123456" "pw2")
                     alice_forgot)).
  destruct (@reset_then_login plain_hasher (clock (at_time 110 "2024-01-01"))
              (clock (at_time 120 "2024-01-01")) "a@x.com" "123456" "pw2" "web"
              alice_forgot s1 alice_doc) as [(s2 & E) Hold].
  - discriminate.
  - discriminate.
  - reflexivity.
  - vm_compute. constructor; [intros []|constructor].
  - reflexivity.
  - reflexivity.
  - reflexivity.
  - exists s1, s2, (with_new_password (H := plain_hasher) (clock (at_time 110 "2024-01-01"))
                      alice_doc "pw2").
    split; [reflexivity|]. split; [exact E|].
    apply Hold; [discriminate | reflexivity].
Defined.

(** ** The Django OTP model *)

Lemma timedelta_seconds_bound (delta : Z) : 0 <= models.timedelta_seconds delta < 86400.
Proof. unfold models.timedelta_seconds. apply Z.mod_pos_bound. lia. Qed.

(** X19.  [OTP.is_valid] of [authentication/models.py] reads the seconds
    field of the time that has passed, which drops whole days: the OTP is
    valid exactly when its age, less some whole number of days, is under 600
    seconds.  So it is valid again one day after its creation, and every
    day after that, whereas [MongoOTP.is_valid] compares the total number
    of seconds; within the first day, the two agree on an unused OTP. *)
Theorem django_otp_is_valid_again_every_day (now created_at : Z) :
  (models.OTP.is_valid now created_at = true
   <-> exists days, 0 <= now - created_at - days * seconds 86400 < seconds 600)
  /\ models.OTP.is_valid (now + seconds 86400) created_at = models.OTP.is_valid now created_at
  /\ (forall clk o,
        OTP.is_used o = false -> OTP.created_at o = Some created_at ->
        0 <= get_ist_time clk - created_at < seconds 86400 ->
        MongoOTP.is_valid clk o = models.OTP.is_valid (get_ist_time clk) created_at)
  /\ (forall clk o,
        OTP.created_at o = Some created_at ->
        get_ist_time clk - created_at = seconds (86400 + 300) ->
        MongoOTP.is_valid clk o = false
        /\ models.OTP.is_valid (get_ist_time clk) created_at = true).
Proof.
  unfold models.OTP.is_valid, models.timedelta_seconds, seconds.
  split; [|split; [|split]].
  - rewrite Z.ltb_lt. split.
    + intros Hlt. exists ((now - created_at) / 1000000 / 86400).
      pose proof (Z.div_mod (now - created_at) 1000000 ltac:(lia)) as E1.
      pose proof (Z.mod_pos_bound (now - created_at) 1000000 ltac:(lia)) as B1.
      pose proof (Z.div_mod ((now - created_at) / 1000000) 86400 ltac:(lia)) as E2.
      pose proof (Z.mod_pos_bound ((now - created_at) / 1000000) 86400 ltac:(lia)) as B2.
      lia.
    + intros (days & Hlo & Hhi).
      replace (now - created_at)
        with ((now - created_at - days * (86400 * 1000000)) + (days * 86400) * 1000000)
        by lia.
      rewrite Z.div_add by lia. rewrite Z.mod_add by lia.
      pose proof (Z.div_mod (now - created_at - days * (86400 * 1000000)) 1000000
                    ltac:(lia)) as E1.
      pose proof (Z.mod_pos_bound (now - created_at - days * (86400 * 1000000)) 1000000
                    ltac:(lia)) as B1.
      rewrite Z.mod_small; lia.
  - f_equal.
    replace (now + 86400 * 1000000 - created_at)
      with ((now - created_at) + 86400 * 1000000) by lia.
    rewrite Z.div_add by lia. replace 86400 with (1 * 86400) at 1 by lia.
    rewrite Z.mod_add by lia. reflexivity.
  - intros clk o Hused Hc Hage. unfold MongoOTP.is_valid, seconds. rewrite Hused, Hc.
    pose proof (Z.div_mod (get_ist_time clk - created_at) 1000000 ltac:(lia)) as E1.
    pose proof (Z.mod_pos_bound (get_ist_time clk - created_at) 1000000 ltac:(lia)) as B1.
    rewrite Z.mod_small by lia.
    destruct (Z.ltb_spec (get_ist_time clk - created_at) (600 * 1000000));
      destruct (Z.ltb_spec ((get_ist_time clk - created_at) / 1000000) 600);
      try reflexivity; lia.
  - intros clk o Hc Hage. unfold MongoOTP.is_valid, seconds. rewrite Hc, Hage. split.
    + destruct (OTP.is_used o); reflexivity.
    + reflexivity.
Qed.

(** ** Reading the attendance log *)

Lemma filter_all (D : Type) (c : list D) : filter (fun _ => true) c = c.
Proof. induction c as [|d r IH]; simpl; [reflexivity | f_equal; exact IH]. Qed.

Lemma get_all_attendance_sorted (s : Store) :
  MongoAttendance.get_all_attendance s
  = (s, inr (sort_desc (key_ltb attendance_created_at) (attendance s))).
Proof.
  unfold MongoAttendance.get_all_attendance, gets, find_desc. rewrite filter_all. reflexivity.
Qed.

(** X20.  [get_attendance] writes nothing and answers with the number of
    records of the attendance log and with the records themselves: each
    record of the log once, none invented, the latest [created_at] first,
    so that the first record listed is a latest one. *)
Theorem get_attendance_lists_all_latest_first (s : Store) :
  exists records,
    views_mongo.get_attendance s = (s, inr (List.length (attendance s), records))
    /\ Permutation records (attendance s)
    /\ descending attendance_created_at records
    /\ forall newest a,
         hd_error records = Some newest -> In a (attendance s) ->
         attendance_created_at a <= attendance_created_at newest.
Proof.
  exists (sort_desc (key_ltb attendance_created_at) (attendance s)).
  split; [|split; [|split]].
  - unfold views_mongo.get_attendance, bind. rewrite get_all_attendance_sorted.
    unfold ret. rewrite length_sort_desc. reflexivity.
  - apply Permutation_sort_desc.
  - apply descending_sort_desc.
  - intros newest a Hhd Ha.
    pose proof (descending_sort_desc _ attendance_created_at (attendance s)) as Hdesc.
    apply (In_sort_desc _ attendance_created_at) in Ha.
    destruct (sort_desc _ (attendance s)) as [|x r]; [discriminate Hhd|].
    inversion Hhd. subst x. destruct Ha as [<-|Ha]; [lia|].
    simpl in Hdesc. apply (proj1 Hdesc). exact Ha.
Qed.

(** X21.  [get_attendance_by_user] without a date returns the records of
    the user as [get_all_attendance] lists them: the same records in the
    same order, those of the other users left out. *)
Theorem attendance_by_user_is_filtered (user_id : ObjectId) (s : Store) :
  exists records,
    MongoAttendance.get_all_attendance s = (s, inr records)
    /\ MongoAttendance.get_attendance_by_user user_id None s
       = (s, inr (filter (fun d => Nat.eqb (PunchedIn.user_id (Attendance.punch_in d)) user_id)
                    records)).
Proof.
  exists (sort_desc (key_ltb attendance_created_at) (attendance s)).
  split; [apply get_all_attendance_sorted|].
  unfold MongoAttendance.get_attendance_by_user, gets, find_desc. f_equal. f_equal.
  rewrite filter_sort_desc.
  change MongoAttendance.created_ltb with (key_ltb attendance_created_at).
  f_equal. apply filter_ext. intros d. simpl. apply andb_true_r.
Qed.

(** ** Who can punch *)

(** X22.  Neither [punch_in] nor [punch_out] looks at [is_verified], and
    yet, on every store that requests have built from the empty one, a
    punch-in or a punch-out is accepted only for a verified user: both ask
    for an active login session, and only [login], which refuses the
    unverified, creates one. *)
Theorem punches_only_by_verified_users `{PasswordHasher} (trace : list (Env * Request))
    (env : Env) (email : string) (loc lat lon : option string) :
  is_error (snd (handle env (PunchIn (Some email) loc lat lon)
                   (handle_all trace empty_store))) = false
  \/ is_error (snd (handle env (PunchOut (Some email) loc lat lon)
                      (handle_all trace empty_store))) = false ->
  exists u,
    find_one (fun d => (User.email d =? email)%string) (users (handle_all trace empty_store))
      = Some u
    /\ User.is_verified u = true
    /\ has_active_session (User._id u) (handle_all trace empty_store) = true.
Proof.
  set (s := handle_all trace empty_store).
  pose proof (reachable_consistent (clock_bound trace) trace (clock_bound_spec trace)) as C.
  fold s in C. intros Haccepted.
  assert (Hactive : forall u, In u (users s) -> has_active_session (User._id u) s = true ->
                              User.is_verified u = true).
  { intros u Hu Ha. unfold has_active_session in Ha. apply existsb_exists in Ha.
    destruct Ha as (l & Hl & Hq). apply andb_true_iff in Hq. destruct Hq as [Hid _].
    apply Nat.eqb_eq in Hid. apply (@logins_verified _ _ C l u Hl Hu). congruence. }
  change (is_error (snd (run (views_mongo.punch_in (clock env) (Some email) loc lat lon) s))
            = false
          \/ is_error (snd (run (views_mongo.punch_out (clock env) (Some email) loc lat lon) s))
             = false) in Haccepted.
  destruct (find_one (fun d => (User.email d =? email)%string) (users s)) as [u|] eqn:Hu.
  - exists u. split; [reflexivity|].
    pose proof (find_some _ _ Hu) as [Hin _].
    assert (Ha : has_active_session (User._id u) s = true); [|auto].
    destruct Haccepted as [Hacc|Hacc].
    + destruct (punch_in_cases (clock env) email loc lat lon s u Hu)
        as [[_ E]|[(_ & _ & E)|(_ & Ha & _)]]; [| |exact Ha];
        rewrite E in Hacc; discriminate Hacc.
    + destruct (punch_out_cases (clock env) email loc lat lon s u Hu)
        as [[_ E]|[(_ & _ & E)|(Ha & _)]]; [| |exact Ha];
        rewrite E in Hacc; discriminate Hacc.
  - exfalso. destruct Haccepted as [Hacc|Hacc]; revert Hacc.
    + unfold views_mongo.punch_in, MongoUser.get_by_email. unfold_monad. rewrite Hu.
      discriminate.
    + unfold views_mongo.punch_out, MongoUser.get_by_email. unfold_monad. rewrite Hu.
      discriminate.
Qed.

Lemma punches_only_by_verified_users_witness :
  exists u,
    find_one (fun d => (User.email d =? "a@x.com")%string) (users alice_logged_in) = Some u
    /\ User.is_verified u = true
    /\ has_active_session (User._id u) alice_logged_in = true.
Proof.
  apply (@punches_only_by_verified_users plain_hasher
           [ (at_time 0 "2024-01-01", Signup "alice" "a@x.com" "pw1");
             (at_time 10 "2024-01-01", VerifyOtp "a@x.com" "123456");
             (at_time 20 "2024-01-01", Login alice (Some "pw1") "web") ]
           (at_time 30 "2024-01-01") "a@x.com" (Some "Office") None None).
  left. reflexivity.
Defined.

(** ** The periodic clean-up *)

(** X23.  [perform_periodic_cleanup] returns the numbers of users and of
    OTPs it has deleted.  It deletes no verified user, no user created at
    most 600 seconds before and no OTP that [is_valid] accepts, and it
    leaves the sessions, the pointers and the attendance log alone. *)
Theorem periodic_cleanup_spares_the_verified (clk : Clock) (s : Store) :
  exists s' users_cleaned otps_cleaned,
    MongoUser.perform_periodic_cleanup clk s = (s', inr (users_cleaned, otps_cleaned))
    /\ (users_cleaned + List.length (users s') = List.length (users s))%nat
    /\ (otps_cleaned + List.length (otps s') = List.length (otps s))%nat
    /\ (forall u, In u (users s') -> In u (users s))
    /\ (forall u, In u (users s) -> User.is_verified u = true -> In u (users s'))
    /\ (forall u created_at,
          In u (users s) -> User.created_at u = Some created_at ->
          get_ist_time clk - created_at <= seconds 600 -> In u (users s'))
    /\ (forall o, In o (otps s) -> MongoOTP.is_valid clk o = true -> In o (otps s'))
    /\ login_sessions s' = login_sessions s
    /\ logout_sessions s' = logout_sessions s
    /\ punched_in s' = punched_in s
    /\ attendance s' = attendance s.
Proof.
  exists (set_otps (delete_many (MongoOTP.expired_query clk None))
            (set_users (delete_many (MongoUser.unverified_query clk None)) s)),
    (List.length (filter (MongoUser.unverified_query clk None) (users s))),
    (List.length (filter (MongoOTP.expired_query clk None) (otps s))).
  split; [reflexivity|]. cbn [users otps set_users set_otps].
  split; [rewrite Nat.add_comm; apply length_delete_many|].
  split; [rewrite Nat.add_comm; apply length_delete_many|].
  split; [intros u; apply In_delete_many|].
  split; [|split; [|split; [|repeat split]]].
  - intros u Hu Hv. apply In_delete_many_keep; [exact Hu|].
    unfold MongoUser.unverified_query. rewrite Hv. reflexivity.
  - intros u c Hu Hc Hrecent. apply In_delete_many_keep; [exact Hu|].
    unfold MongoUser.unverified_query. rewrite Hc.
    replace (c <? get_ist_time clk - timedelta 0 10) with false.
    + rewrite andb_false_r. reflexivity.
    + symmetry. apply Z.ltb_ge. unfold timedelta, seconds in *. lia.
  - intros o Ho Hv. apply In_delete_many_keep; [exact Ho|]. apply valid_not_expired, Hv.
Qed.

(** ** Marking an OTP as used *)

(** X24.  [mark_as_used], on a store with unique OTP ids, retires the OTP:
    its row keeps its place and its other fields, the other rows are
    untouched, [is_valid] rejects the row from then on and
    [get_latest_unused] never returns it again. *)
Theorem mark_as_used_retires_the_otp (o : OTP.doc) (s : Store) :
  NoDup (map OTP._id (otps s)) ->
  In o (otps s) ->
  exists s',
    MongoOTP.mark_as_used o s = (s', inr tt)
    /\ otps s' = map (fun d => if Nat.eqb (OTP._id d) (OTP._id o) then used d else d) (otps s)
    /\ In (used o) (otps s')
    /\ (forall clk d, In d (otps s') -> OTP._id d = OTP._id o -> MongoOTP.is_valid clk d = false)
    /\ (forall email purpose d,
          MongoOTP.get_latest_unused email purpose s' = (s', inr (Some d)) ->
          OTP._id d <> OTP._id o)
    /\ users s' = users s.
Proof.
  intros Hnd Ho.
  exists (set_otps (update_one (fun d => Nat.eqb (OTP._id d) (OTP._id o)) used) s).
  split; [reflexivity|]. cbn [otps users set_otps].
  assert (Hmap : update_one (fun d => Nat.eqb (OTP._id d) (OTP._id o)) used (otps s)
                 = map (fun d => if Nat.eqb (OTP._id d) (OTP._id o) then used d else d)
                     (otps s)).
  { apply (update_one_by_id _ OTP._id). exact Hnd. }
  assert (Hused : forall d,
             In d (map (fun d => if Nat.eqb (OTP._id d) (OTP._id o) then used d else d)
                     (otps s)) ->
             OTP._id d = OTP._id o -> OTP.is_used d = true).
  { intros d Hd Hid. apply in_map_iff in Hd. destruct Hd as (d0 & <- & _).
    destruct (Nat.eqb_spec (OTP._id d0) (OTP._id o)) as [_|Hne]; [reflexivity|].
    contradiction. }
  split; [exact Hmap|]. rewrite Hmap. split; [|split; [|split; [|reflexivity]]].
  - apply in_map_iff. exists o. rewrite Nat.eqb_refl. auto.
  - intros clk d Hd Hid. unfold MongoOTP.is_valid. rewrite (Hused d Hd Hid). reflexivity.
  - intros email purpose d E Hid.
    unfold MongoOTP.get_latest_unused, gets in E. inversion E as [E']. clear E.
    cbn [otps set_otps] in E'. rewrite Hmap in E'.
    apply find_one_desc_some in E'. destruct E' as [Hd Hq].
    unfold MongoOTP.unused_for in Hq. rewrite (Hused d Hd Hid) in Hq.
    rewrite andb_false_r in Hq. discriminate.
Qed.

Lemma mark_as_used_retires_the_otp_witness :
  exists s',
    MongoOTP.mark_as_used bob_signup_otp bob_signed_up = (s', inr tt)
    /\ MongoOTP.get_latest_unused "b@x.com" signup_purpose bob_signed_up
       = (bob_signed_up, inr (Some bob_signup_otp))
    /\ MongoOTP.get_latest_unused "b@x.com" signup_purpose s' = (s', inr None).
Proof.
  destruct (mark_as_used_retires_the_otp bob_signup_otp bob_signed_up)
    as (s' & E & Hotps & _).
  - vm_compute. constructor; [intros []|constructor].
  - left. reflexivity.
  - exists s'. split; [exact E|]. split; [reflexivity|].
    unfold MongoOTP.get_latest_unused, gets. rewrite Hotps. reflexivity.
Defined.
